(** * The GitHub publisher of the Wildflover tools

    A shallow embedding of [tools/github-publisher] ([models.py],
    [config.py], [api.py], [publisher.py]) and the properties of its
    publish workflow.

    Modelling choices, all local to this file:
    - Python exceptions are values of [exn]; a method is a state
      transformer returning [Ok v] or [Raise e] together with the state
      it leaves behind (a raise keeps every mutation made before it).
    - The network is the field [remote] of [World]: the answer of the
      [requests] session to a request, given the requests sent before
      it.  The client's side of the session is the list of requests it
      has sent ([GitHubAPI.sent]).
    - A response body is a JSON object whose members have the JSON
      types of GitHub's schema (scalars, and the object member
      [object] of a git ref); which members are present is not assumed.
      A body that is not JSON makes [response.json()] raise a
      [requests] exception, which [_request] turns into a network
      error like any other [RequestException].
    - Logging, the progress line and [time.sleep] have no effect on the
      values computed and are left out; [print_summary] is kept as the
      tuple it prints. *)

From Stdlib Require Import ZArith NArith List String Ascii Bool Lia.
From Stdlib Require Import Sorted Permutation.
Import ListNotations.
Open Scope string_scope.
Open Scope Z_scope.
Open Scope list_scope.

(** ** Python values and control *)

(** [GitHubAPIError] of api.py, and every other [Exception], kept by its
    [str()]. *)
Inductive exn : Type :=
| GitHubAPIError (message : string) (status_code : Z)
| PyException (text : string).

(** [str(e)]: [GitHubAPIError.__init__] passes [message] to
    [Exception.__init__]. *)
Definition str_exn (e : exn) : string :=
  match e with
  | GitHubAPIError message _ => message
  | PyException text => text
  end.

Inductive res (A : Type) : Type :=
| Ok (a : A)
| Raise (e : exn).
Arguments Ok {A} a.
Arguments Raise {A} e.

(** State and exceptions. *)
Definition M (S A : Type) : Type := S -> res A * S.

Definition ret {S A : Type} (a : A) : M S A := fun s => (Ok a, s).

Definition raise {S A : Type} (e : exn) : M S A := fun s => (Raise e, s).

Definition bind {S A B : Type} (m : M S A) (k : A -> M S B) : M S B :=
  fun s =>
    match m s with
    | (Ok a, s') => k a s'
    | (Raise e, s') => (Raise e, s')
    end.

Definition get {S : Type} : M S S := fun s => (Ok s, s).

Definition put {S : Type} (s : S) : M S unit := fun _ => (Ok tt, s).

(** [try: m] with the outcome handed to the handler: never raises. *)
Definition try_except {S A : Type} (m : M S A) : M S (res A) :=
  fun s => let (r, s') := m s in (Ok r, s').

(** [try: m  except GitHubAPIError as e: h e]; other exceptions pass. *)
Definition except_api {S A : Type} (m : M S A)
    (h : string -> Z -> M S A) : M S A :=
  fun s =>
    match m s with
    | (Raise (GitHubAPIError message status_code), s') =>
        h message status_code s'
    | other => other
    end.

Declare Scope py_scope.
Delimit Scope py_scope with py.
Notation "x <- m ;; k" := (bind m (fun x => k))
  (at level 61, m at next level, right associativity) : py_scope.
Notation "m ;;; k" := (bind m (fun _ => k))
  (at level 61, right associativity) : py_scope.
Open Scope py_scope.

(** Truthiness of a [str] and of an [Optional[str]]. *)
Definition truthy (s : string) : bool := negb (s =? "")%string.

Definition truthy_opt (o : option string) : bool :=
  match o with
  | Some s => truthy s
  | None => false
  end.

(** A [bytes] object, by [len(b)] and [b[i]]. *)
Record bytes : Type := { len : N; byte_at : N -> Byte.byte }.

(** ** models.py *)

Inductive RepoVisibility : Type := PUBLIC | PRIVATE.

Inductive FileStatus : Type :=
| PENDING | UPLOADING | SUCCESS | FAILED | SKIPPED.

Definition FileStatus_eqb (a b : FileStatus) : bool :=
  match a, b with
  | PENDING, PENDING | UPLOADING, UPLOADING | SUCCESS, SUCCESS
  | FAILED, FAILED | SKIPPED, SKIPPED => true
  | _, _ => false
  end.

Module RepoConfig.
Record t : Type := {
  name : string;
  description : string;
  visibility : RepoVisibility;
  homepage : string;
  topics : list string;
  has_issues : bool;
  has_wiki : bool;
  has_projects : bool;
  auto_init : bool
}.
End RepoConfig.

Module FileEntry.
Record t : Type := {
  path : string;
  content : bytes;
  sha : option string;
  status : FileStatus;
  error : option string
}.
End FileEntry.

Module BlobResponse.
Record t : Type := { sha : string; url : string }.
End BlobResponse.

Module TreeEntry.
Record t : Type := {
  path : string;
  mode : string;
  type : string;
  sha : string
}.
End TreeEntry.

Module TreeResponse.
Record t : Type := { sha : string; url : string }.
End TreeResponse.

Module CommitResponse.
Record t : Type := { sha : string; url : string; html_url : string }.
End CommitResponse.

Module RepoResponse.
Record t : Type := {
  id : string;
  name : string;
  full_name : string;
  html_url : string;
  clone_url : string;
  ssh_url : string;
  default_branch : string
}.
End RepoResponse.

Module PublishResult.
Record t : Type := {
  success : bool;
  repo_url : string;
  commit_sha : string;
  files_uploaded : Z;
  files_skipped : Z;
  files_failed : Z;
  error : option string
}.
End PublishResult.

(** ** config.py *)

Definition GITHUB_API_BASE : string := "https://api.github.com".

Definition MAX_FILE_SIZE_MB : Z := 50.

Definition DEFAULT_TOPICS : list string :=
  [ "tauri"; "react"; "typescript"; "rust"; "league-of-legends";
    "skin-manager"; "desktop-app"; "discord-oauth"; "mod-manager";
    "vite" ]%string.

(** ** The transport under api.py *)

(** The [json=] argument of a request. *)
Module RepoPayload.
Record t : Type := {
  name : string;
  description : string;
  private : bool;
  has_issues : bool;
  has_wiki : bool;
  has_projects : bool;
  auto_init : bool;
  homepage : option string
}.
End RepoPayload.

Inductive Payload : Type :=
| NoPayload
| RepoJson (payload : RepoPayload.t)
| TopicsJson (names : list string)
| BlobJson (content : bytes)
    (* content, sent base64-encoded with "encoding": "base64" *)
| TreeJson (tree : list TreeEntry.t) (base_tree : option string)
| CommitJson (message tree : string) (parents : option (list string))
| RefUpdateJson (sha : string) (force : bool)
| RefCreateJson (ref sha : string).

Record Request : Type := {
  method : string;
  url : string;
  json : Payload
}.

(** A JSON object as the client reads it: its scalar members by their
    text, and its members that are objects of scalars. *)
Record Json : Type := {
  scalars : list (string * string);
  objects : list (string * list (string * string))
}.

Definition empty_dict : Json := {| scalars := []; objects := [] |}.

Fixpoint lookup {V : Type} (k : string) (d : list (string * V)) : option V :=
  match d with
  | [] => None
  | (k', v) :: d' => if (k' =? k)%string then Some v else lookup k d'
  end.

(** What [session.request] followed by [response.json()] gives. *)
Inductive HttpOutcome : Type :=
| RequestException (text : string)
| Response (status_code : Z) (body : Json).

(** Everything outside the process: the source directory, the files the
    walk of utils.collect_files returns (sorted, as paths relative to
    the source directory, with what [read_bytes] gives, [None] when it
    raises), and the remote service. *)
Record World : Type := {
  source_exists : bool;
  source_is_dir : bool;
  scanned : list (string * option bytes);
  remote : list Request -> Request -> HttpOutcome
}.

(** ** api.py *)

Module GitHubAPI.

(** The client object: the cached login and the requests sent through
    its session, oldest first. *)
Record t : Type := {
  _user : option string;
  sent : list Request
}.

(** [GitHubAPI.__init__] *)
Definition init : t := {| _user := None; sent := [] |}.

Section Client.

Variable w : World.

(** utils.format_size renders a byte count through float division and
    ["%.1f"]; its text only ends up in messages. *)
Variable format_size : N -> string.

(** [data[key]] *)
Definition item {V : Type} (d : list (string * V)) (key : string)
  : M t V :=
  match lookup key d with
  | Some v => ret v
  | None => raise (PyException ("'" ++ key ++ "'"))
  end.

(** [data.get(key, default)] *)
Definition get_default (d : list (string * string)) (key default : string)
  : string :=
  match lookup key d with
  | Some v => v
  | None => default
  end.

Definition _request (method endpoint : string) (json : Payload)
  : M t Json :=
  fun self =>
    let req := {| method := method;
                  url := GITHUB_API_BASE ++ endpoint;
                  json := json |} in
    let self' := {| _user := _user self; sent := sent self ++ [req] |} in
    match remote w (sent self) req with
    | RequestException text =>
        (Raise (GitHubAPIError ("Network error: " ++ text) 0), self')
    | Response status_code body =>
        if 400 <=? status_code then
          (Raise (GitHubAPIError
                    (get_default (scalars body) "message" "Unknown error")
                    status_code), self')
        else if status_code =? 204 then (Ok empty_dict, self')
        else (Ok body, self')
    end.

Definition get_authenticated_user : M t string :=
  data <- _request "GET" "/user" NoPayload ;;
  ret (get_default (scalars data) "login" "").

(** The property [user]. *)
Definition user : M t string :=
  self <- get ;;
  if negb (truthy_opt (_user self)) then
    username <- get_authenticated_user ;;
    self <- get ;;
    put {| _user := Some username; sent := sent self |} ;;;
    ret username
  else
    ret (match _user self with Some u => u | None => "" end).

Definition check_repo_exists (repo_name : string) : M t bool :=
  except_api
    (u <- user ;;
     _request "GET" ("/repos/" ++ u ++ "/" ++ repo_name) NoPayload ;;;
     ret true)
    (fun message status_code =>
       if status_code =? 404 then ret false
       else raise (GitHubAPIError message status_code)).

Definition create_repository (config : RepoConfig.t)
  : M t RepoResponse.t :=
  let payload :=
    {| RepoPayload.name := RepoConfig.name config;
       RepoPayload.description := RepoConfig.description config;
       RepoPayload.private :=
         match RepoConfig.visibility config with
         | PRIVATE => true
         | PUBLIC => false
         end;
       RepoPayload.has_issues := RepoConfig.has_issues config;
       RepoPayload.has_wiki := RepoConfig.has_wiki config;
       RepoPayload.has_projects := RepoConfig.has_projects config;
       RepoPayload.auto_init := true;
       RepoPayload.homepage :=
         if truthy (RepoConfig.homepage config)
         then Some (RepoConfig.homepage config) else None |} in
  data <- _request "POST" "/user/repos" (RepoJson payload) ;;
  id <- item (scalars data) "id" ;;
  name <- item (scalars data) "name" ;;
  full_name <- item (scalars data) "full_name" ;;
  html_url <- item (scalars data) "html_url" ;;
  clone_url <- item (scalars data) "clone_url" ;;
  ssh_url <- item (scalars data) "ssh_url" ;;
  ret {| RepoResponse.id := id;
         RepoResponse.name := name;
         RepoResponse.full_name := full_name;
         RepoResponse.html_url := html_url;
         RepoResponse.clone_url := clone_url;
         RepoResponse.ssh_url := ssh_url;
         RepoResponse.default_branch :=
           get_default (scalars data) "default_branch" "main" |}.

Definition set_topics (repo_name : string) (topics : list string)
  : M t unit :=
  match topics with
  | [] => ret tt
  | _ :: _ =>
      u <- user ;;
      _request "PUT" ("/repos/" ++ u ++ "/" ++ repo_name ++ "/topics")
        (TopicsJson topics) ;;;
      ret tt
  end.

(** [len(content) / (1024 * 1024) > MAX_FILE_SIZE_MB].  The quotient by
    2^20 of an integer is the nearest float, the rounding is monotone
    and 50 is a float, so the test holds exactly when the length exceeds
    50 * 2^20. *)
Definition too_large (content : bytes) : bool :=
  MAX_FILE_SIZE_MB * (1024 * 1024) <? Z.of_N (len content).

Definition create_blob (repo_name : string) (content : bytes)
  : M t BlobResponse.t :=
  if too_large content then
    raise (GitHubAPIError
             ("File too large: " ++ format_size (len content)) 0)
  else
    except_api
      (u <- user ;;
       data <- _request "POST"
                 ("/repos/" ++ u ++ "/" ++ repo_name ++ "/git/blobs")
                 (BlobJson content) ;;
       sha <- item (scalars data) "sha" ;;
       url <- item (scalars data) "url" ;;
       ret {| BlobResponse.sha := sha; BlobResponse.url := url |})
      (fun message status_code =>
         raise (GitHubAPIError ("Blob create failed: " ++ message)
                  status_code)).

Definition create_tree (repo_name : string) (entries : list TreeEntry.t)
    (base_tree : option string) : M t TreeResponse.t :=
  let payload :=
    TreeJson entries (if truthy_opt base_tree then base_tree else None) in
  u <- user ;;
  data <- _request "POST"
            ("/repos/" ++ u ++ "/" ++ repo_name ++ "/git/trees") payload ;;
  sha <- item (scalars data) "sha" ;;
  url <- item (scalars data) "url" ;;
  ret {| TreeResponse.sha := sha; TreeResponse.url := url |}.

Definition create_commit (repo_name message tree_sha : string)
    (parent_sha : option string) : M t CommitResponse.t :=
  let payload :=
    CommitJson message tree_sha
      (match parent_sha with
       | Some p => if truthy p then Some [p] else None
       | None => None
       end) in
  u <- user ;;
  data <- _request "POST"
            ("/repos/" ++ u ++ "/" ++ repo_name ++ "/git/commits") payload ;;
  sha <- item (scalars data) "sha" ;;
  url <- item (scalars data) "url" ;;
  html_url <- item (scalars data) "html_url" ;;
  ret {| CommitResponse.sha := sha;
         CommitResponse.url := url;
         CommitResponse.html_url := html_url |}.

Definition update_ref (repo_name ref sha : string) (force : bool)
  : M t unit :=
  u <- user ;;
  _request "PATCH"
    ("/repos/" ++ u ++ "/" ++ repo_name ++ "/git/refs/" ++ ref)
    (RefUpdateJson sha force) ;;;
  ret tt.

Definition create_ref (repo_name ref sha : string) : M t unit :=
  u <- user ;;
  _request "POST" ("/repos/" ++ u ++ "/" ++ repo_name ++ "/git/refs")
    (RefCreateJson ("refs/" ++ ref) sha) ;;;
  ret tt.

Definition get_default_branch_sha (repo_name : string)
  : M t (option string) :=
  except_api
    (u <- user ;;
     data <- _request "GET"
               ("/repos/" ++ u ++ "/" ++ repo_name ++ "/git/refs/heads/main")
               NoPayload ;;
     object <- item (objects data) "object" ;;
     sha <- item object "sha" ;;
     ret (Some sha))
    (fun _ _ => ret None).

End Client.

End GitHubAPI.

(** ** publisher.py *)

(** The arguments of utils.print_summary. *)
Record Summary : Type := {
  total : Z;
  uploaded : Z;
  skipped : Z;
  failed : Z
}.

Module GitHubPublisher.

(** The publisher object; [printed] is the summary written to the
    terminal, if any. *)
Record t : Type := {
  api : GitHubAPI.t;
  files : list FileEntry.t;
  tree_entries : list TreeEntry.t;
  printed : option Summary
}.

(** [GitHubPublisher.__init__] *)
Definition init : t :=
  {| api := GitHubAPI.init; files := []; tree_entries := [];
     printed := None |}.

(** A call [self.api.m(...)]. *)
Definition call {A : Type} (m : M GitHubAPI.t A) : M t A :=
  fun self =>
    let (r, api') := m (api self) in
    (r, {| api := api'; files := files self;
           tree_entries := tree_entries self; printed := printed self |}).

Definition set_files (fs : list FileEntry.t) : M t unit :=
  fun self =>
    (Ok tt, {| api := api self; files := fs;
               tree_entries := tree_entries self;
               printed := printed self |}).

Definition append_tree_entry (e : TreeEntry.t) : M t unit :=
  fun self =>
    (Ok tt, {| api := api self; files := files self;
               tree_entries := tree_entries self ++ [e];
               printed := printed self |}).

Definition print_summary (s : Summary) : M t unit :=
  fun self =>
    (Ok tt, {| api := api self; files := files self;
               tree_entries := tree_entries self; printed := Some s |}).

(** [rel_path.replace("\\", "/")] *)
Fixpoint forward_slashes (s : string) : string :=
  match s with
  | EmptyString => EmptyString
  | String c s' =>
      String (if Ascii.eqb c "\" then "/"%char else c) (forward_slashes s')
  end.

(** [TreeEntry(path=entry.path, sha=entry.sha)] with the dataclass
    defaults of [mode] and [type]. *)
Definition new_tree_entry (path sha : string) : TreeEntry.t :=
  {| TreeEntry.path := path; TreeEntry.mode := "100644";
     TreeEntry.type := "blob"; TreeEntry.sha := sha |}.

(** The entry after the [try] branch of the upload loop. *)
Definition uploaded_entry (entry : FileEntry.t) (blob : BlobResponse.t)
  : FileEntry.t :=
  {| FileEntry.path := FileEntry.path entry;
     FileEntry.content := FileEntry.content entry;
     FileEntry.sha := Some (BlobResponse.sha blob);
     FileEntry.status := SUCCESS;
     FileEntry.error := FileEntry.error entry |}.

(** The entry after the [except] branch of the upload loop. *)
Definition failed_entry (entry : FileEntry.t) (e : exn) : FileEntry.t :=
  {| FileEntry.path := FileEntry.path entry;
     FileEntry.content := FileEntry.content entry;
     FileEntry.sha := FileEntry.sha entry;
     FileEntry.status := FAILED;
     FileEntry.error := Some (str_exn e) |}.

Section Publisher.

Variable w : World.
Variable format_size : N -> string.

Definition validate_source : bool :=
  if negb (source_exists w) then false
  else if negb (source_is_dir w) then false
  else true.

(** The loop of [collect_files] over the paths of the walk. *)
Fixpoint collect_loop (file_paths : list (string * option bytes))
  : M t unit :=
  match file_paths with
  | [] => ret tt
  | (rel_path, read_bytes) :: file_paths' =>
      match read_bytes with
      | Some content =>
          self <- get ;;
          set_files
            (files self ++
             [ {| FileEntry.path := forward_slashes rel_path;
                  FileEntry.content := content;
                  FileEntry.sha := None;
                  FileEntry.status := PENDING;
                  FileEntry.error := None |} ]) ;;;
          collect_loop file_paths'
      | None => collect_loop file_paths'
      end
  end.

Definition collect_files : M t Z :=
  collect_loop (scanned w) ;;;
  self <- get ;;
  ret (Z.of_nat (List.length (files self))).

(** The loop of [upload_blobs]: [self.files] is [done ++ rest], the
    entries of [done] have been through the body, and the body mutates
    the head of [rest] in place. *)
Fixpoint upload_loop (repo_name : string) (done rest : list FileEntry.t)
    (uploaded failed : Z) : M t Z :=
  match rest with
  | [] => ret uploaded
  | entry :: rest' =>
      r <- try_except
             (call (GitHubAPI.create_blob w format_size repo_name
                      (FileEntry.content entry))) ;;
      match r with
      | Ok blob =>
          let entry' := uploaded_entry entry blob in
          set_files (done ++ entry' :: rest') ;;;
          append_tree_entry
            (new_tree_entry (FileEntry.path entry)
               (BlobResponse.sha blob)) ;;;
          upload_loop repo_name (done ++ [entry']) rest'
            (uploaded + 1) failed
      | Raise e =>
          set_files (done ++ failed_entry entry e :: rest') ;;;
          upload_loop repo_name (done ++ [failed_entry entry e]) rest'
            uploaded (failed + 1)
      end
  end.

Definition upload_blobs (repo_name : string) : M t Z :=
  self <- get ;;
  upload_loop repo_name [] (files self) 0 0.

Definition create_commit (repo_name message : string)
  : M t (option string) :=
  self <- get ;;
  match tree_entries self with
  | [] => ret None
  | _ :: _ =>
      parent_sha <- call (GitHubAPI.get_default_branch_sha w repo_name) ;;
      tree <- call (GitHubAPI.create_tree w repo_name (tree_entries self)
                      parent_sha) ;;
      commit <- call (GitHubAPI.create_commit w repo_name message
                        (TreeResponse.sha tree) parent_sha) ;;
      call (GitHubAPI.update_ref w repo_name "heads/main"
              (CommitResponse.sha commit) true) ;;;
      ret (Some (CommitResponse.sha commit))
  end.

(** The frame of a call of [publish]: [self] and the local [result]. *)
Record Frame : Type := {
  self_ : t;
  result : PublishResult.t
}.

Definition method {A : Type} (m : M t A) : M Frame A :=
  fun fr =>
    let (r, self') := m (self_ fr) in
    (r, {| self_ := self'; result := result fr |}).

Definition assign (f : PublishResult.t -> PublishResult.t)
  : M Frame unit :=
  fun fr => (Ok tt, {| self_ := self_ fr; result := f (result fr) |}).

Definition set_error (e : string) (r : PublishResult.t)
  : PublishResult.t :=
  {| PublishResult.success := PublishResult.success r;
     PublishResult.repo_url := PublishResult.repo_url r;
     PublishResult.commit_sha := PublishResult.commit_sha r;
     PublishResult.files_uploaded := PublishResult.files_uploaded r;
     PublishResult.files_skipped := PublishResult.files_skipped r;
     PublishResult.files_failed := PublishResult.files_failed r;
     PublishResult.error := Some e |}.

Definition set_repo_url (u : string) (r : PublishResult.t)
  : PublishResult.t :=
  {| PublishResult.success := PublishResult.success r;
     PublishResult.repo_url := u;
     PublishResult.commit_sha := PublishResult.commit_sha r;
     PublishResult.files_uploaded := PublishResult.files_uploaded r;
     PublishResult.files_skipped := PublishResult.files_skipped r;
     PublishResult.files_failed := PublishResult.files_failed r;
     PublishResult.error := PublishResult.error r |}.

Definition set_counts (uploaded skipped : Z) (r : PublishResult.t)
  : PublishResult.t :=
  {| PublishResult.success := PublishResult.success r;
     PublishResult.repo_url := PublishResult.repo_url r;
     PublishResult.commit_sha := PublishResult.commit_sha r;
     PublishResult.files_uploaded := uploaded;
     PublishResult.files_skipped := skipped;
     PublishResult.files_failed := PublishResult.files_failed r;
     PublishResult.error := PublishResult.error r |}.

Definition set_commit (commit_sha : string) (r : PublishResult.t)
  : PublishResult.t :=
  {| PublishResult.success := true;
     PublishResult.repo_url := PublishResult.repo_url r;
     PublishResult.commit_sha := commit_sha;
     PublishResult.files_uploaded := PublishResult.files_uploaded r;
     PublishResult.files_skipped := PublishResult.files_skipped r;
     PublishResult.files_failed := PublishResult.files_failed r;
     PublishResult.error := PublishResult.error r |}.

(** [PublishResult(success=False)] *)
Definition new_result : PublishResult.t :=
  {| PublishResult.success := false;
     PublishResult.repo_url := "";
     PublishResult.commit_sha := "";
     PublishResult.files_uploaded := 0;
     PublishResult.files_skipped := 0;
     PublishResult.files_failed := 0;
     PublishResult.error := None |}.

(** [vis] and [config] of [publish]: the constructor call
    [RepoConfig(name, description, visibility, topics)] with the
    dataclass defaults for the other fields. *)
Definition new_config (repo_name description visibility : string)
    (topics : option (list string)) : RepoConfig.t :=
  let vis :=
    if (visibility =? "private")%string then PRIVATE else PUBLIC in
  {| RepoConfig.name := repo_name;
     RepoConfig.description := description;
     RepoConfig.visibility := vis;
     RepoConfig.homepage := "";
     RepoConfig.topics :=
       match topics with
       | Some (t :: ts) => t :: ts
       | _ => DEFAULT_TOPICS
       end;
     RepoConfig.has_issues := true;
     RepoConfig.has_wiki := false;
     RepoConfig.has_projects := false;
     RepoConfig.auto_init := false |}.

(** The body of the [try] of [publish]; a [return result] inside it is
    the end of a branch. *)
Definition publish_try (repo_name description visibility : string)
    (topics : option (list string)) (commit_message : string)
  : M Frame unit :=
  if negb validate_source then
    assign (set_error "Invalid source path")
  else
    repo_exists <- method (call (GitHubAPI.check_repo_exists w repo_name)) ;;
    if (repo_exists : bool) then
      assign (set_error "Repository already exists")
    else
      file_count <- method collect_files ;;
      if file_count =? 0 then
        assign (set_error "No files to upload")
      else
        let config := new_config repo_name description visibility topics in
        repo <- method (call (GitHubAPI.create_repository w config)) ;;
        assign (set_repo_url (RepoResponse.html_url repo)) ;;;
        method (call (GitHubAPI.set_topics w repo_name
                        (RepoConfig.topics config))) ;;;
        uploaded <- method (upload_blobs repo_name) ;;
        fr <- get ;;
        assign (set_counts uploaded
                  (Z.of_nat (List.length (files (self_ fr))) - uploaded)) ;;;
        commit_sha <- method (create_commit repo_name commit_message) ;;
        (if truthy_opt commit_sha then
           assign (set_commit
                     (match commit_sha with Some s => s | None => "" end))
         else ret tt) ;;;
        fr <- get ;;
        method (print_summary
                  {| total := Z.of_nat (List.length (files (self_ fr)));
                     uploaded := PublishResult.files_uploaded (result fr);
                     skipped := PublishResult.files_skipped (result fr);
                     failed := PublishResult.files_failed (result fr) |}).

(** [publish]: the two [except] clauses store [e.message] and [str(e)],
    which is the same text (see [str_exn]). *)
Definition publish (repo_name description visibility : string)
    (topics : option (list string)) (commit_message : string)
  : t -> PublishResult.t * t :=
  fun self =>
    match publish_try repo_name description visibility topics
            commit_message {| self_ := self; result := new_result |} with
    | (Ok _, fr) => (result fr, self_ fr)
    | (Raise e, fr) => (set_error (str_exn e) (result fr), self_ fr)
    end.

End Publisher.

End GitHubPublisher.


(** ** Scenarios *)

Definition answer (status_code : Z) (members : list (string * string))
  : HttpOutcome :=
  Response status_code {| scalars := members; objects := [] |}.

(** How the remote of the scenarios behaves: whether the repository
    [demo] of the account [octo] is there already, and the statuses it
    gives to the topics request, to a blob by its content, to the read
    of the branch head and to the tree request. *)
Record Script : Type := {
  repo_found : bool;
  topics_status : Z;
  blob_status : bytes -> Z;
  head_status : Z;
  tree_status : Z
}.

(** A remote that answers by the request alone.  The branch [main]
    points to the commit [c0ffee], whose tree is [7ea5]. *)
Definition octo_remote (s : Script)
  : list Request -> Request -> HttpOutcome :=
  fun _ req =>
    match json req with
    | NoPayload =>
        if (url req =? "https://api.github.com/user")%string then
          answer 200 [("login", "octo")]
        else if (url req =? "https://api.github.com/repos/octo/demo")%string
        then
          if repo_found s then answer 200 [("name", "demo")]
          else answer 404 [("message", "Not Found")]
        else if (url req =?
                 "https://api.github.com/repos/octo/demo/git/commits/c0ffee")%string
        then
          Response 200
            {| scalars := [("sha", "c0ffee")];
               objects := [("tree", [("sha", "7ea5")])] |}
        else
          Response (head_status s)
            {| scalars := [("ref", "refs/heads/main");
                           ("message", "head not readable")];
               objects :=
                 [("object", [("sha", "c0ffee"); ("type", "commit")])] |}
    | RepoJson _ =>
        answer 201
          [("id", "1"); ("name", "demo"); ("full_name", "octo/demo");
           ("html_url", "https://github.com/octo/demo");
           ("clone_url", "https://github.com/octo/demo.git");
           ("ssh_url", "git@github.com:octo/demo.git");
           ("default_branch", "main")]
    | TopicsJson _ =>
        answer (topics_status s) [("message", "topics rejected")]
    | BlobJson content =>
        answer (blob_status s content)
          [("sha", if (len content <? 4)%N then "b10b" else "b10c");
           ("url", "https://api.github.com/blob");
           ("message", "blob rejected")]
    | TreeJson _ _ =>
        answer (tree_status s)
          [("sha", "7ree"); ("url", "https://api.github.com/tree");
           ("message", "tree rejected")]
    | CommitJson _ _ _ =>
        answer 201
          [("sha", "c0mm17"); ("url", "https://api.github.com/commit");
           ("html_url", "https://github.com/octo/demo/commit/c0mm17")]
    | RefUpdateJson _ _ => answer 200 [("ref", "refs/heads/main")]
    | RefCreateJson _ _ => answer 201 [("ref", "refs/heads/main")]
    end.

(** Everything is accepted and the repository is new. *)
Definition happy : Script :=
  {| repo_found := false; topics_status := 200;
     blob_status := fun _ => 201; head_status := 200;
     tree_status := 201 |}.

Definition zeros (n : N) : bytes :=
  {| len := n; byte_at := fun _ => Byte.x00 |}.

Definition octo_world (files : list (string * option bytes)) (s : Script)
  : World :=
  {| source_exists := true; source_is_dir := true;
     scanned := files; remote := octo_remote s |}.

(** A stand-in for utils.format_size. *)
Definition size_text (n : N) : string :=
  if (n <? 1024)%N then "small" else "large".

Definition run (w : World) : PublishResult.t * GitHubPublisher.t :=
  GitHubPublisher.publish w size_text "demo" "a demo" "public" None
    "Initial commit" GitHubPublisher.init.

Definition two_files : list (string * option bytes) :=
  [("a.txt", Some (zeros 3)); ("dir\b.txt", Some (zeros 5))].

(** Two files, everything accepted. *)
Definition w_happy : World := octo_world two_files happy.

(** Two files; the blob of the second (5 bytes) is refused. *)
Definition w_partial : World :=
  octo_world two_files
    {| repo_found := false; topics_status := 200;
       blob_status := fun c => if (len c =? 5)%N then 500 else 201;
       head_status := 200; tree_status := 201 |}.

(** Two files; the topics request is refused. *)
Definition w_topics : World :=
  octo_world two_files
    {| repo_found := false; topics_status := 500;
       blob_status := fun _ => 201; head_status := 200;
       tree_status := 201 |}.

(** A file of 50 MB and one byte, and a small one. *)
Definition w_big : World :=
  octo_world [("big.bin", Some (zeros 52428801)); ("a.txt", Some (zeros 3))]
    happy.

(** The repository is there already. *)
Definition w_exists : World :=
  octo_world two_files
    {| repo_found := true; topics_status := 200;
       blob_status := fun _ => 201; head_status := 200;
       tree_status := 201 |}.

(** One file, whose blob is refused. *)
Definition w_refused : World :=
  octo_world [("a.txt", Some (zeros 3))]
    {| repo_found := false; topics_status := 200;
       blob_status := fun _ => 500; head_status := 200;
       tree_status := 201 |}.

(** Nothing to collect, and the repository is there already. *)
Definition w_exists_empty : World :=
  octo_world []
    {| repo_found := true; topics_status := 200;
       blob_status := fun _ => 201; head_status := 200;
       tree_status := 201 |}.

(** Nothing to collect (the only file cannot be read), new repository. *)
Definition w_empty : World := octo_world [("locked.txt", None)] happy.


(** ** Vocabulary of the statements *)

Definition request (method endpoint : string) (json : Payload) : Request :=
  {| method := method; url := GITHUB_API_BASE ++ endpoint; json := json |}.

Definition user_request : Request := request "GET" "/user" NoPayload.

(** [sends P m]: whatever the state, [m] only adds requests to the
    session, and each request it adds satisfies [P]. *)
Definition sends {A : Type} (P : Request -> Prop) (m : M GitHubAPI.t A)
  : Prop :=
  forall a, exists extra,
    GitHubAPI.sent (snd (m a)) = GitHubAPI.sent a ++ extra /\
    Forall P extra.

(** The remote refused the request or could not be reached: the cases
    in which [_request] raises. *)
Definition refused (o : HttpOutcome) : Prop :=
  match o with
  | RequestException _ => True
  | Response status_code _ => 400 <= status_code
  end.

Definition is_success (e : FileEntry.t) : bool :=
  FileStatus_eqb (FileEntry.status e) SUCCESS.

(** [TreeEntry(path=entry.path, sha=entry.sha)] *)
Definition tree_entry_of (e : FileEntry.t) : TreeEntry.t :=
  GitHubPublisher.new_tree_entry (FileEntry.path e)
    (match FileEntry.sha e with Some s => s | None => "" end).

(** The tree entries of the uploaded files, in the order of the files. *)
Definition uploaded_tree (fs : list FileEntry.t) : list TreeEntry.t :=
  map tree_entry_of (filter is_success fs).

(** An entry after its attempt, by the outcome of [create_blob]. *)
Definition marked (entry : FileEntry.t) (r : res BlobResponse.t)
  : FileEntry.t :=
  match r with
  | Ok blob => GitHubPublisher.uploaded_entry entry blob
  | Raise e => GitHubPublisher.failed_entry entry e
  end.

Definition mark (entries : list FileEntry.t)
    (outcomes : list (res BlobResponse.t)) : list FileEntry.t :=
  map (fun p => marked (fst p) (snd p)) (combine entries outcomes).

Definition is_ok {A : Type} (r : res A) : bool :=
  match r with
  | Ok _ => true
  | Raise _ => false
  end.

Section Attempts.

Variable w : World.
Variable format_size : N -> string.

(** One call of [create_blob] per content, in order, each in the client
    state the previous one left. *)
Fixpoint attempts (repo_name : string) (contents : list bytes)
    (a : GitHubAPI.t) : list (res BlobResponse.t) * GitHubAPI.t :=
  match contents with
  | [] => ([], a)
  | content :: contents' =>
      let (r, a1) := GitHubAPI.create_blob w format_size repo_name content a in
      let (rs, a2) := attempts repo_name contents' a1 in
      (r :: rs, a2)
  end.

End Attempts.

(** The [FileEntry] that [collect_files] appends for a readable file. *)
Definition pending_entry (rel_path : string) (content : bytes)
  : FileEntry.t :=
  {| FileEntry.path := GitHubPublisher.forward_slashes rel_path;
     FileEntry.content := content;
     FileEntry.sha := None;
     FileEntry.status := PENDING;
     FileEntry.error := None |}.

(** The entries collected from the files of the walk: one per file
    that could be read, in the order of the walk. *)
Fixpoint collected (file_paths : list (string * option bytes))
  : list FileEntry.t :=
  match file_paths with
  | [] => []
  | (rel_path, Some content) :: file_paths' =>
      pending_entry rel_path content :: collected file_paths'
  | (_, None) :: file_paths' => collected file_paths'
  end.

(** The number of successful attempts, as [upload_blobs] counts them. *)
Definition count_ok {A : Type} (outcomes : list (res A)) : Z :=
  Z.of_nat (List.length (filter is_ok outcomes)).

Definition with_api (self : GitHubPublisher.t) (a : GitHubAPI.t)
  : GitHubPublisher.t :=
  {| GitHubPublisher.api := a;
     GitHubPublisher.files := GitHubPublisher.files self;
     GitHubPublisher.tree_entries := GitHubPublisher.tree_entries self;
     GitHubPublisher.printed := GitHubPublisher.printed self |}.

Section CommitCalls.

Variable w : World.

(** The calls [create_commit] of the publisher makes on its client. *)
Definition commit_calls (repo_name message : string)
    (entries : list TreeEntry.t) : M GitHubAPI.t (option string) :=
  match entries with
  | [] => ret None
  | _ :: _ =>
      parent_sha <- GitHubAPI.get_default_branch_sha w repo_name ;;
      tree <- GitHubAPI.create_tree w repo_name entries parent_sha ;;
      commit <- GitHubAPI.create_commit w repo_name message
                  (TreeResponse.sha tree) parent_sha ;;
      GitHubAPI.update_ref w repo_name "heads/main"
        (CommitResponse.sha commit) true ;;;
      ret (Some (CommitResponse.sha commit))
  end.

End CommitCalls.

(** The publisher with its four attributes. *)
Definition publisher (a : GitHubAPI.t) (fs : list FileEntry.t)
    (ts : list TreeEntry.t) (pr : option Summary) : GitHubPublisher.t :=
  {| GitHubPublisher.api := a; GitHubPublisher.files := fs;
     GitHubPublisher.tree_entries := ts; GitHubPublisher.printed := pr |}.

(** The summary [publish] prints for a result. *)
Definition summary_of (fs : list FileEntry.t) (r : PublishResult.t)
  : Summary :=
  {| total := Z.of_nat (List.length fs);
     uploaded := PublishResult.files_uploaded r;
     skipped := PublishResult.files_skipped r;
     failed := PublishResult.files_failed r |}.

(** The object ids the remote reports are never the empty string. *)
Definition reports_ids (w : World) : Prop :=
  forall history req status_code body,
    remote w history req = Response status_code body ->
    lookup "sha" (scalars body) <> Some "".

(** The result of a run that went through the upload loop, before the
    commit: the url of the repository and the two counts. *)
Definition counted_result (repo : RepoResponse.t) (fs : list FileEntry.t)
    (outcomes : list (res BlobResponse.t)) : PublishResult.t :=
  GitHubPublisher.set_counts (count_ok outcomes)
    (Z.of_nat (List.length (mark fs outcomes)) - count_ok outcomes)
    (GitHubPublisher.set_repo_url (RepoResponse.html_url repo)
       GitHubPublisher.new_result).

(** The state of the client after one more request. *)
Definition after (a : GitHubAPI.t) (req : Request) : GitHubAPI.t :=
  {| GitHubAPI._user := GitHubAPI._user a;
     GitHubAPI.sent := GitHubAPI.sent a ++ [req] |}.

(** The read of the branch head, and the tree request, of the account
    [u]. *)
Definition head_request (u repo_name : string) : Request :=
  request "GET" ("/repos/" ++ u ++ "/" ++ repo_name ++ "/git/refs/heads/main")
    NoPayload.

Definition tree_request (u repo_name : string) (entries : list TreeEntry.t)
    (base_tree : option string) : Request :=
  request "POST" ("/repos/" ++ u ++ "/" ++ repo_name ++ "/git/trees")
    (TreeJson entries base_tree).

(** The [parents] member [create_commit] of the client sends for a
    [parent_sha]. *)
Definition parents_of (parent_sha : option string) : option (list string) :=
  match parent_sha with
  | Some p => if truthy p then Some [p] else None
  | None => None
  end.

(** The tree of a commit as the remote reports it on
    [GET /repos/{u}/{repo}/git/commits/{sha}] (member [tree.sha]).  The
    client has no call for it. *)
Definition tree_of_commit (w : World) (history : list Request)
    (u repo_name commit_sha : string) : option string :=
  match remote w history
          (request "GET"
             ("/repos/" ++ u ++ "/" ++ repo_name ++ "/git/commits/" ++
              commit_sha) NoPayload) with
  | Response status_code body =>
      if 400 <=? status_code then None
      else
        match lookup "tree" (objects body) with
        | Some tree => lookup "sha" tree
        | None => None
        end
  | RequestException _ => None
  end.

(** The client once the login [octo] is cached. *)
Definition octo_client : GitHubAPI.t :=
  {| GitHubAPI._user := Some "octo"; GitHubAPI.sent := [] |}.

(** The publisher of the scenarios when [upload_blobs] starts. *)
Definition before_upload : GitHubPublisher.t :=
  publisher octo_client (collected two_files) [] None.

(** The publisher of the scenarios when [create_commit] starts, both
    files uploaded. *)
Definition before_commit : GitHubPublisher.t :=
  publisher octo_client []
    [ GitHubPublisher.new_tree_entry "a.txt" "b10b";
      GitHubPublisher.new_tree_entry "dir/b.txt" "b10c" ] None.

(** ** config.py and utils.py: the choice of the files *)

(** The sets of config.py, as lists. *)
Definition SKIP_PATTERNS : list string :=
  [ "node_modules"; ".git"; "target"; "dist"; "build";
    "__pycache__"; ".venv"; "venv"; ".idea"; ".vscode";
    ".kiro"; "coverage"; ".next"; ".nuxt";
    ".env"; ".env.local"; "*.log"; "*.tmp";
    "package-lock.json"; "Cargo.lock";
    "*.exe"; "*.dll"; "security_report*.json";
    "hashes.game.txt"; "*.wad"; "*.client" ]%string.

Definition ALWAYS_INCLUDE : list string :=
  [ "README.md"; "LICENSE"; ".gitignore";
    "CONTRIBUTING.md"; "SECURITY.md"; ".env.example" ]%string.

Module Utils.

(** An item of [root_path.rglob("*")]: [str(item)],
    [str(item.relative_to(root_path))] and [item.is_file()]. *)
Record Item : Type := {
  path_str : string;
  relative : string;
  is_file : bool
}.

Section Walk.

(** pathlib and fnmatch are libraries: [Path(p).parts], [Path(p).name]
    and [fnmatch.fnmatch(name, pattern)]. *)
Variable parts : string -> list string.
Variable name : string -> string.
Variable fnmatch : string -> string -> bool.

(** The patterns are a set; the loop goes through them in some order. *)
Fixpoint should_skip_path (path : string) (skip_patterns : list string)
  : bool :=
  match skip_patterns with
  | [] => false
  | pattern :: skip_patterns' =>
      if existsb (String.eqb pattern) (parts path) then true
      else if fnmatch (name path) pattern then true
      else should_skip_path path skip_patterns'
  end.

Definition should_include_file (path : string) : bool :=
  existsb (String.eqb (name path)) ALWAYS_INCLUDE.

(** The loop of [collect_files]: the list [files] it builds. *)
Fixpoint kept (items : list Item) (skip_patterns : list string)
  : list Item :=
  match items with
  | [] => []
  | item :: items' =>
      if is_file item then
        if should_include_file (relative item) then
          item :: kept items' skip_patterns
        else if should_skip_path (relative item) skip_patterns then
          kept items' skip_patterns
        else item :: kept items' skip_patterns
      else kept items' skip_patterns
  end.

(** [sorted(files, key=lambda x: str(x))]: a stable sort by the order
    of [str], which compares code points (bytes, in UTF-8). *)
Fixpoint insert_sorted (item : Item) (sorted_items : list Item)
  : list Item :=
  match sorted_items with
  | [] => [item]
  | other :: sorted_items' =>
      if String.leb (path_str item) (path_str other) then
        item :: sorted_items
      else other :: insert_sorted item sorted_items'
  end.

Fixpoint sorted (items : list Item) : list Item :=
  match items with
  | [] => []
  | item :: items' => insert_sorted item (sorted items')
  end.

Definition collect_files (items : list Item) (skip_patterns : list string)
  : list Item :=
  sorted (kept items skip_patterns).

End Walk.

End Utils.

(** Stand-ins for pathlib and fnmatch on the scenarios: components
    separated by [/], and patterns with [*] and [?]. *)
Fixpoint split_path (s : string) : list string :=
  match s with
  | EmptyString => [EmptyString]
  | String c s' =>
      if Ascii.eqb c "/" then EmptyString :: split_path s'
      else
        match split_path s' with
        | component :: components => String c component :: components
        | [] => [String c EmptyString]
        end
  end.

Definition last_component (s : string) : string :=
  last (split_path s) EmptyString.

Fixpoint glob (pattern s : string) : bool :=
  match pattern with
  | EmptyString =>
      match s with
      | EmptyString => true
      | String _ _ => false
      end
  | String c pattern' =>
      if Ascii.eqb c "*" then
        (fix star (s : string) : bool :=
           if glob pattern' s then true
           else
             match s with
             | EmptyString => false
             | String _ s' => star s'
             end) s
      else
        match s with
        | EmptyString => false
        | String d s' =>
            if Ascii.eqb c "?" || Ascii.eqb c d then glob pattern' s'
            else false
        end
  end.

Definition item_of (relative : string) (is_file : bool) : Utils.Item :=
  {| Utils.path_str := "/src/" ++ relative;
     Utils.relative := relative;
     Utils.is_file := is_file |}.

(** A walk: two sources, a directory, a dependency, its README and a
    log. *)
Definition some_items : list Utils.Item :=
  [ item_of "src/main.rs" true;
    item_of "node_modules" false;
    item_of "node_modules/pkg/index.js" true;
    item_of "node_modules/pkg/README.md" true;
    item_of "build.log" true;
    item_of "Cargo.toml" true ].

Definition fnmatch_glob (name pattern : string) : bool := glob pattern name.

Definition collect_some (skip_patterns : list string) : list Utils.Item :=
  Utils.collect_files split_path last_component fnmatch_glob some_items
    skip_patterns.

(** ** Vocabulary of the further properties *)

(** Ascending order of [str(path)]. *)
Definition by_path (a b : Utils.Item) : Prop :=
  String.leb (Utils.path_str a) (Utils.path_str b) = true.

(** The question [check_repo_exists] asks for the account [u]. *)
Definition repo_request (u repo_name : string) : Request :=
  request "GET" ("/repos/" ++ u ++ "/" ++ repo_name) NoPayload.

(** The body [create_repository] posts for a configuration. *)
Definition repo_payload (config : RepoConfig.t) : RepoPayload.t :=
  {| RepoPayload.name := RepoConfig.name config;
     RepoPayload.description := RepoConfig.description config;
     RepoPayload.private :=
       match RepoConfig.visibility config with
       | PRIVATE => true
       | PUBLIC => false
       end;
     RepoPayload.has_issues := RepoConfig.has_issues config;
     RepoPayload.has_wiki := RepoConfig.has_wiki config;
     RepoPayload.has_projects := RepoConfig.has_projects config;
     RepoPayload.auto_init := true;
     RepoPayload.homepage :=
       if truthy (RepoConfig.homepage config)
       then Some (RepoConfig.homepage config) else None |}.

Definition create_request (config : RepoConfig.t) : Request :=
  request "POST" "/user/repos" (RepoJson (repo_payload config)).

Definition blob_request (u repo_name : string) (content : bytes) : Request :=
  request "POST" ("/repos/" ++ u ++ "/" ++ repo_name ++ "/git/blobs")
    (BlobJson content).

Definition commit_request (u repo_name message tree_sha : string)
    (parents : option (list string)) : Request :=
  request "POST" ("/repos/" ++ u ++ "/" ++ repo_name ++ "/git/commits")
    (CommitJson message tree_sha parents).

Definition ref_request (u repo_name ref sha : string) (force : bool)
  : Request :=
  request "PATCH" ("/repos/" ++ u ++ "/" ++ repo_name ++ "/git/refs/" ++ ref)
    (RefUpdateJson sha force).

(** The members of the answer [create_repository] reads with [data[...]],
    in the order it reads them. *)
Definition required_members : list string :=
  [ "id"; "name"; "full_name"; "html_url"; "clone_url"; "ssh_url" ]%string.

(** [KeyError(key)] as [str()] shows it. *)
Definition key_error (key : string) : exn :=
  PyException ("'" ++ key ++ "'").

Definition is_failed (e : FileEntry.t) : bool :=
  FileStatus_eqb (FileEntry.status e) FAILED.

(** The request updates or creates a git reference. *)
Definition touches_ref (req : Request) : Prop :=
  match json req with
  | RefUpdateJson _ _ | RefCreateJson _ _ => True
  | _ => False
  end.

(** The request carries a body. *)
Definition has_body (req : Request) : bool :=
  match json req with
  | NoPayload => false
  | _ => true
  end.

(** The string has no backslash. *)
Fixpoint no_backslash (s : string) : bool :=
  match s with
  | EmptyString => true
  | String c s' => negb (Ascii.eqb c "\") && no_backslash s'
  end.

(** The files of the walk that could be read. *)
Definition readable (file_paths : list (string * option bytes))
  : list (string * option bytes) :=
  filter (fun f => match snd f with Some _ => true | None => false end)
    file_paths.

(** ** Scenarios of the further properties *)

(** A remote with one answer to everything. *)
Definition fixed_remote (o : HttpOutcome)
  : list Request -> Request -> HttpOutcome :=
  fun _ _ => o.

(** The remote knows the token but reports no login. *)
Definition w_anonymous : World :=
  {| source_exists := true; source_is_dir := true; scanned := two_files;
     remote := fixed_remote (answer 200 []) |}.

(** The remote answers 404 to everything. *)
Definition w_unknown : World :=
  {| source_exists := true; source_is_dir := true; scanned := two_files;
     remote := fixed_remote (answer 404 [("message", "Not Found")]) |}.

(** The remote accepts everything with a body that has only [id] and
    [name]. *)
Definition w_incomplete : World :=
  {| source_exists := true; source_is_dir := true; scanned := two_files;
     remote := fixed_remote (answer 201 [("id", "1"); ("name", "demo")]) |}.

(** The source path is not there. *)
Definition w_no_source : World :=
  {| source_exists := false; source_is_dir := false; scanned := two_files;
     remote := octo_remote happy |}.

Definition demo_config : RepoConfig.t :=
  GitHubPublisher.new_config "demo" "a demo" "public" None.

Definition sent_by (w : World) : list Request :=
  GitHubAPI.sent (GitHubPublisher.api (snd (run w))).

(** * Properties *)

(** ** Requests sent by the client *)

Section ClientFacts.

Variable w : World.
Variable format_size : N -> string.

Lemma sends_ret {A : Type} (P : Request -> Prop) (x : A) :
  sends P (ret x).
Proof. intros a. exists []. simpl. now rewrite app_nil_r. Qed.

Lemma sends_raise {A : Type} (P : Request -> Prop) (e : exn) :
  sends P (@raise _ A e).
Proof. intros a. exists []. simpl. now rewrite app_nil_r. Qed.

Lemma sends_bind {A B : Type} (P : Request -> Prop)
    (m : M GitHubAPI.t A) (k : A -> M GitHubAPI.t B) :
  sends P m -> (forall x, sends P (k x)) -> sends P (bind m k).
Proof.
  intros Hm Hk a. unfold bind.
  destruct (Hm a) as [e1 [E1 F1]].
  destruct (m a) as [[x | e] a1]; simpl in *.
  - destruct (Hk x a1) as [e2 [E2 F2]].
    exists (e1 ++ e2). split.
    + now rewrite E2, E1, app_assoc.
    + now apply Forall_app.
  - now exists e1.
Qed.

Lemma sends_except_api {A : Type} (P : Request -> Prop)
    (m : M GitHubAPI.t A) (h : string -> Z -> M GitHubAPI.t A) :
  sends P m -> (forall msg c, sends P (h msg c)) ->
  sends P (except_api m h).
Proof.
  intros Hm Hh a. unfold except_api.
  destruct (Hm a) as [e1 [E1 F1]].
  destruct (m a) as [[x | [msg c | t]] a1]; simpl in *.
  - now exists e1.
  - destruct (Hh msg c a1) as [e2 [E2 F2]].
    exists (e1 ++ e2). split.
    + now rewrite E2, E1, app_assoc.
    + now apply Forall_app.
  - now exists e1.
Qed.

Lemma sends_item {V : Type} (P : Request -> Prop)
    (d : list (string * V)) (key : string) :
  sends P (GitHubAPI.item d key).
Proof.
  unfold GitHubAPI.item. destruct (lookup key d).
  - apply sends_ret.
  - apply sends_raise.
Qed.

(** What [_request] does, by the answer of the remote. *)
Lemma _request_eq (method endpoint : string) (json : Payload)
    (a : GitHubAPI.t) :
  GitHubAPI._request w method endpoint json a =
  (match remote w (GitHubAPI.sent a) (request method endpoint json) with
   | RequestException text =>
       Raise (GitHubAPIError ("Network error: " ++ text) 0)
   | Response status_code body =>
       if 400 <=? status_code then
         Raise (GitHubAPIError
                  (GitHubAPI.get_default (scalars body) "message"
                     "Unknown error") status_code)
       else if status_code =? 204 then Ok empty_dict
       else Ok body
   end,
   {| GitHubAPI._user := GitHubAPI._user a;
      GitHubAPI.sent :=
        GitHubAPI.sent a ++ [request method endpoint json] |}).
Proof.
  unfold GitHubAPI._request, request.
  destruct (remote w _ _) as [text | status_code body]; [reflexivity |].
  destruct (400 <=? status_code); [reflexivity |].
  destruct (status_code =? 204); reflexivity.
Qed.

Lemma sends__request (P : Request -> Prop)
    (method endpoint : string) (json : Payload) :
  P (request method endpoint json) ->
  sends P (GitHubAPI._request w method endpoint json).
Proof.
  intros HP a. rewrite _request_eq. simpl.
  exists [request method endpoint json]. split; [reflexivity |].
  now constructor.
Qed.

Lemma sends_user (P : Request -> Prop) :
  P user_request -> sends P (GitHubAPI.user w).
Proof.
  intros HP a. unfold GitHubAPI.user, bind, get. simpl.
  destruct (negb (truthy_opt (GitHubAPI._user a))).
  - unfold GitHubAPI.get_authenticated_user, bind.
    rewrite _request_eq.
    destruct (match remote w _ _ with
              | RequestException _ => _ | Response _ _ => _ end);
      simpl; exists [user_request]; (split; [reflexivity | now constructor]).
  - exists []. simpl. now rewrite app_nil_r.
Qed.

End ClientFacts.

Ltac sends_steps :=
  repeat first
    [ apply sends_ret | apply sends_raise | apply sends_item
    | apply sends_user; assumption
    | apply sends__request; solve [auto]
    | apply sends_bind; [| intros ? ]
    | apply sends_except_api; [| intros ? ? ] ].

Section ClientMethods.

Variable w : World.
Variable format_size : N -> string.

Lemma sends_check_repo_exists (P : Request -> Prop) (repo_name : string) :
  (forall endpoint, P (request "GET" endpoint NoPayload)) ->
  sends P (GitHubAPI.check_repo_exists w repo_name).
Proof.
  intros HP. assert (P user_request) by apply HP.
  unfold GitHubAPI.check_repo_exists. sends_steps.
  destruct (_ =? 404); sends_steps.
Qed.

Lemma sends_create_repository (P : Request -> Prop) (config : RepoConfig.t) :
  (forall payload, P (request "POST" "/user/repos" (RepoJson payload))) ->
  sends P (GitHubAPI.create_repository w config).
Proof.
  intros HP. unfold GitHubAPI.create_repository. sends_steps.
Qed.

Lemma sends_set_topics (P : Request -> Prop) (repo_name : string)
    (topics : list string) :
  P user_request ->
  (forall endpoint, P (request "PUT" endpoint (TopicsJson topics))) ->
  sends P (GitHubAPI.set_topics w repo_name topics).
Proof.
  intros HU HP. unfold GitHubAPI.set_topics.
  destruct topics; sends_steps.
Qed.

Lemma sends_create_blob (P : Request -> Prop) (repo_name : string)
    (content : bytes) :
  P user_request ->
  (forall endpoint, P (request "POST" endpoint (BlobJson content))) ->
  sends P (GitHubAPI.create_blob w format_size repo_name content).
Proof.
  intros HU HP. unfold GitHubAPI.create_blob.
  destruct (GitHubAPI.too_large content); sends_steps.
Qed.

Lemma sends_get_default_branch_sha (P : Request -> Prop)
    (repo_name : string) :
  (forall endpoint, P (request "GET" endpoint NoPayload)) ->
  sends P (GitHubAPI.get_default_branch_sha w repo_name).
Proof.
  intros HP. assert (P user_request) by apply HP.
  unfold GitHubAPI.get_default_branch_sha. sends_steps.
Qed.

Lemma sends_create_tree (P : Request -> Prop) (repo_name : string)
    (entries : list TreeEntry.t) (base_tree : option string) :
  P user_request ->
  (forall endpoint,
     P (request "POST" endpoint
          (TreeJson entries
             (if truthy_opt base_tree then base_tree else None)))) ->
  sends P (GitHubAPI.create_tree w repo_name entries base_tree).
Proof.
  intros HU HP. unfold GitHubAPI.create_tree. sends_steps.
Qed.

Lemma sends_create_commit (P : Request -> Prop)
    (repo_name message tree_sha : string) (parent_sha : option string) :
  P user_request ->
  (forall endpoint,
     P (request "POST" endpoint
          (CommitJson message tree_sha (parents_of parent_sha)))) ->
  sends P (GitHubAPI.create_commit w repo_name message tree_sha parent_sha).
Proof.
  intros HU HP. unfold GitHubAPI.create_commit.
  fold (parents_of parent_sha). sends_steps.
Qed.

Lemma sends_update_ref (P : Request -> Prop) (repo_name ref sha : string)
    (force : bool) :
  P user_request ->
  (forall endpoint, P (request "PATCH" endpoint (RefUpdateJson sha force))) ->
  sends P (GitHubAPI.update_ref w repo_name ref sha force).
Proof.
  intros HU HP. unfold GitHubAPI.update_ref. sends_steps.
Qed.

End ClientMethods.

(** ** The methods of the publisher *)

Section PublisherFacts.

Variable w : World.
Variable format_size : N -> string.

Lemma call_eq {A : Type} (m : M GitHubAPI.t A) (self : GitHubPublisher.t) :
  GitHubPublisher.call m self =
  (fst (m (GitHubPublisher.api self)),
   with_api self (snd (m (GitHubPublisher.api self)))).
Proof.
  unfold GitHubPublisher.call.
  now destruct (m (GitHubPublisher.api self)).
Qed.

Lemma collect_loop_eq (file_paths : list (string * option bytes)) :
  forall self,
    GitHubPublisher.collect_loop file_paths self =
    (Ok tt,
     {| GitHubPublisher.api := GitHubPublisher.api self;
        GitHubPublisher.files :=
          GitHubPublisher.files self ++ collected file_paths;
        GitHubPublisher.tree_entries := GitHubPublisher.tree_entries self;
        GitHubPublisher.printed := GitHubPublisher.printed self |}).
Proof.
  induction file_paths as [| [rel_path [content |]] file_paths' IH];
    intros self; simpl.
  - rewrite app_nil_r. now destruct self.
  - unfold bind, get, GitHubPublisher.set_files. simpl.
    rewrite IH. simpl. now rewrite <- app_assoc.
  - apply IH.
Qed.

Lemma collect_files_eq (self : GitHubPublisher.t) :
  GitHubPublisher.collect_files w self =
  (Ok (Z.of_nat (List.length
                   (GitHubPublisher.files self ++ collected (scanned w)))),
   {| GitHubPublisher.api := GitHubPublisher.api self;
      GitHubPublisher.files :=
        GitHubPublisher.files self ++ collected (scanned w);
      GitHubPublisher.tree_entries := GitHubPublisher.tree_entries self;
      GitHubPublisher.printed := GitHubPublisher.printed self |}).
Proof.
  unfold GitHubPublisher.collect_files, bind.
  now rewrite collect_loop_eq.
Qed.

Lemma collected_pending (file_paths : list (string * option bytes)) :
  Forall (fun e => FileEntry.status e = PENDING) (collected file_paths).
Proof.
  induction file_paths as [| [rel_path [content |]] file_paths' IH];
    simpl; auto.
Qed.

Lemma uploaded_tree_app (xs ys : list FileEntry.t) :
  uploaded_tree (xs ++ ys) = uploaded_tree xs ++ uploaded_tree ys.
Proof. unfold uploaded_tree. now rewrite filter_app, map_app. Qed.

Lemma uploaded_tree_pending (fs : list FileEntry.t) :
  Forall (fun e => FileEntry.status e = PENDING) fs ->
  uploaded_tree fs = [].
Proof.
  induction 1 as [| e fs He _ IH]; [reflexivity |].
  unfold uploaded_tree in *. simpl. unfold is_success at 1.
  now rewrite He.
Qed.

(** The loop of [upload_blobs], in closed form. *)
Lemma upload_loop_eq (repo_name : string) (rest : list FileEntry.t) :
  forall done uploaded failed self,
    GitHubPublisher.files self = done ++ rest ->
    GitHubPublisher.upload_loop w format_size repo_name done rest
      uploaded failed self =
    let outcomes :=
      attempts w format_size repo_name (map FileEntry.content rest)
        (GitHubPublisher.api self) in
    (Ok (uploaded + count_ok (fst outcomes)),
     {| GitHubPublisher.api := snd outcomes;
        GitHubPublisher.files := done ++ mark rest (fst outcomes);
        GitHubPublisher.tree_entries :=
          GitHubPublisher.tree_entries self ++
          uploaded_tree (mark rest (fst outcomes));
        GitHubPublisher.printed := GitHubPublisher.printed self |}).
Proof.
  induction rest as [| entry rest' IH]; intros done uploaded failed self Hf.
  - destruct self as [a fs ts pr]. simpl in *. subst fs.
    unfold ret, count_ok, mark, uploaded_tree. simpl.
    now rewrite Z.add_0_r, !app_nil_r.
  - simpl. unfold bind at 1. unfold try_except. rewrite call_eq.
    destruct (GitHubAPI.create_blob w format_size repo_name
                (FileEntry.content entry) (GitHubPublisher.api self))
      as [[blob | e] a1] eqn:E; simpl.
    + unfold bind, GitHubPublisher.set_files,
        GitHubPublisher.append_tree_entry. simpl.
      rewrite IH by (simpl; now rewrite <- app_assoc). simpl.
      destruct (attempts w format_size repo_name
                  (map FileEntry.content rest') a1) as [rs a2]. simpl.
      unfold count_ok. simpl. unfold mark. simpl.
      rewrite <- !app_assoc. simpl.
      do 2 f_equal. rewrite Zpos_P_of_succ_nat. lia.
    + unfold bind, GitHubPublisher.set_files. simpl.
      rewrite IH by (simpl; now rewrite <- app_assoc). simpl.
      destruct (attempts w format_size repo_name
                  (map FileEntry.content rest') a1) as [rs a2]. simpl.
      unfold count_ok. simpl. unfold mark. simpl.
      rewrite <- !app_assoc. simpl. reflexivity.
Qed.

Lemma call_bind {A B : Type} (m : M GitHubAPI.t A)
    (k : A -> M GitHubAPI.t B) (self : GitHubPublisher.t) :
  bind (GitHubPublisher.call m) (fun x => GitHubPublisher.call (k x)) self =
  GitHubPublisher.call (bind m k) self.
Proof.
  unfold bind, GitHubPublisher.call.
  destruct (m (GitHubPublisher.api self)) as [[x | e] a1]; simpl.
  - now destruct (k x a1).
  - reflexivity.
Qed.

Lemma call_bind_ret {A B : Type} (m : M GitHubAPI.t A) (f : A -> B)
    (self : GitHubPublisher.t) :
  bind (GitHubPublisher.call m) (fun x => ret (f x)) self =
  GitHubPublisher.call (bind m (fun x => ret (f x))) self.
Proof.
  unfold bind, GitHubPublisher.call, ret.
  now destruct (m (GitHubPublisher.api self)) as [[x | e] a1].
Qed.

Lemma create_commit_eq (repo_name message : string)
    (self : GitHubPublisher.t) :
  GitHubPublisher.create_commit w repo_name message self =
  GitHubPublisher.call
    (commit_calls w repo_name message (GitHubPublisher.tree_entries self))
    self.
Proof.
  unfold GitHubPublisher.create_commit, commit_calls.
  unfold bind at 1. unfold get.
  destruct (GitHubPublisher.tree_entries self) as [| t ts].
  - unfold GitHubPublisher.call, ret. now destruct self.
  - unfold bind, GitHubPublisher.call.
    destruct (GitHubAPI.get_default_branch_sha w repo_name _)
      as [[parent_sha | e] a1]; simpl; [| reflexivity].
    destruct (GitHubAPI.create_tree w repo_name (t :: ts) parent_sha a1)
      as [[tree | e] a2]; simpl; [| reflexivity].
    destruct (GitHubAPI.create_commit w repo_name message _ parent_sha a2)
      as [[commit | e] a3]; simpl; [| reflexivity].
    destruct (GitHubAPI.update_ref w repo_name _ _ true a3)
      as [[[] | e] a4]; simpl; reflexivity.
Qed.

(** The requests of [create_commit] of the publisher, by kind. *)
Lemma sends_commit_calls (P : Request -> Prop) (repo_name message : string)
    (entries : list TreeEntry.t) :
  (forall endpoint, P (request "GET" endpoint NoPayload)) ->
  (forall endpoint base_tree,
     P (request "POST" endpoint (TreeJson entries base_tree))) ->
  (forall endpoint tree_sha parents,
     P (request "POST" endpoint (CommitJson message tree_sha parents))) ->
  (forall endpoint sha,
     P (request "PATCH" endpoint (RefUpdateJson sha true))) ->
  sends P (commit_calls w repo_name message entries).
Proof.
  intros HG HT HC HR. assert (HU : P user_request) by apply HG.
  unfold commit_calls. destruct entries as [| t ts].
  - apply sends_ret.
  - apply sends_bind; [now apply sends_get_default_branch_sha |].
    intros parent_sha.
    apply sends_bind; [apply sends_create_tree; auto |]. intros tree.
    apply sends_bind; [apply sends_create_commit; auto |]. intros commit.
    apply sends_bind; [apply sends_update_ref; auto |]. intros _.
    apply sends_ret.
Qed.

Lemma attempts_length (repo_name : string) (contents : list bytes) :
  forall a,
    List.length (fst (attempts w format_size repo_name contents a)) =
    List.length contents.
Proof.
  induction contents as [| c cs IH]; intros a; simpl; [reflexivity |].
  destruct (GitHubAPI.create_blob w format_size repo_name c a) as [r a1].
  specialize (IH a1).
  destruct (attempts w format_size repo_name cs a1) as [rs a2].
  simpl in *. now rewrite IH.
Qed.

(** Each outcome is the outcome of [create_blob] on the content at the
    same position. *)
Lemma attempts_each (repo_name : string) (contents : list bytes) :
  forall a,
    Forall2
      (fun c r =>
         exists a',
           r = fst (GitHubAPI.create_blob w format_size repo_name c a'))
      contents (fst (attempts w format_size repo_name contents a)).
Proof.
  induction contents as [| c cs IH]; intros a; simpl; [constructor |].
  destruct (GitHubAPI.create_blob w format_size repo_name c a)
    as [r a1] eqn:E.
  specialize (IH a1).
  destruct (attempts w format_size repo_name cs a1) as [rs a2].
  simpl in *. constructor; [| exact IH].
  exists a. now rewrite E.
Qed.

Lemma attempts_sends (P : Request -> Prop) (repo_name : string)
    (contents : list bytes) :
  P user_request ->
  (forall endpoint c, P (request "POST" endpoint (BlobJson c))) ->
  forall a, exists extra,
    GitHubAPI.sent (snd (attempts w format_size repo_name contents a)) =
    GitHubAPI.sent a ++ extra /\ Forall P extra.
Proof.
  intros HU HB.
  induction contents as [| c cs IH]; intros a; simpl.
  - exists []. now rewrite app_nil_r.
  - destruct (sends_create_blob w format_size P repo_name c HU
                (fun endpoint => HB endpoint c) a) as [e1 [E1 F1]].
    destruct (GitHubAPI.create_blob w format_size repo_name c a) as [r a1].
    destruct (IH a1) as [e2 [E2 F2]].
    destruct (attempts w format_size repo_name cs a1) as [rs a2].
    simpl in *. exists (e1 ++ e2). split.
    + now rewrite E2, E1, app_assoc.
    + now apply Forall_app.
Qed.

Lemma method_call_eq {A : Type} (m : M GitHubAPI.t A)
    (fr : GitHubPublisher.Frame) :
  GitHubPublisher.method (GitHubPublisher.call m) fr =
  (fst (m (GitHubPublisher.api (GitHubPublisher.self_ fr))),
   {| GitHubPublisher.self_ :=
        with_api (GitHubPublisher.self_ fr)
          (snd (m (GitHubPublisher.api (GitHubPublisher.self_ fr))));
      GitHubPublisher.result := GitHubPublisher.result fr |}).
Proof.
  unfold GitHubPublisher.method. now rewrite call_eq.
Qed.

(** A run of [publish] on a new publisher, branch by branch. *)
Lemma publish_eq (repo_name description visibility : string)
    (topics : option (list string)) (commit_message : string) :
  GitHubPublisher.publish w format_size repo_name description visibility
    topics commit_message GitHubPublisher.init =
  let r0 := GitHubPublisher.new_result in
  if negb (GitHubPublisher.validate_source w) then
    (GitHubPublisher.set_error "Invalid source path" r0,
     GitHubPublisher.init)
  else
    match GitHubAPI.check_repo_exists w repo_name GitHubAPI.init with
    | (Raise e, a1) =>
        (GitHubPublisher.set_error (str_exn e) r0, publisher a1 [] [] None)
    | (Ok true, a1) =>
        (GitHubPublisher.set_error "Repository already exists" r0,
         publisher a1 [] [] None)
    | (Ok false, a1) =>
        let fs := collected (scanned w) in
        if Z.of_nat (List.length fs) =? 0 then
          (GitHubPublisher.set_error "No files to upload" r0,
           publisher a1 fs [] None)
        else
          let config :=
            GitHubPublisher.new_config repo_name description visibility
              topics in
          match GitHubAPI.create_repository w config a1 with
          | (Raise e, a2) =>
              (GitHubPublisher.set_error (str_exn e) r0,
               publisher a2 fs [] None)
          | (Ok repo, a2) =>
              let r1 :=
                GitHubPublisher.set_repo_url (RepoResponse.html_url repo)
                  r0 in
              match GitHubAPI.set_topics w repo_name
                      (RepoConfig.topics config) a2 with
              | (Raise e, a3) =>
                  (GitHubPublisher.set_error (str_exn e) r1,
                   publisher a3 fs [] None)
              | (Ok _, a3) =>
                  let outcomes :=
                    attempts w format_size repo_name
                      (map FileEntry.content fs) a3 in
                  let fs' := mark fs (fst outcomes) in
                  let r2 :=
                    GitHubPublisher.set_counts (count_ok (fst outcomes))
                      (Z.of_nat (List.length fs') - count_ok (fst outcomes))
                      r1 in
                  match commit_calls w repo_name commit_message
                          (uploaded_tree fs') (snd outcomes) with
                  | (Raise e, a5) =>
                      (GitHubPublisher.set_error (str_exn e) r2,
                       publisher a5 fs' (uploaded_tree fs') None)
                  | (Ok commit_sha, a5) =>
                      let r3 :=
                        if truthy_opt commit_sha then
                          GitHubPublisher.set_commit
                            (match commit_sha with
                             | Some s => s
                             | None => ""
                             end) r2
                        else r2 in
                      (r3,
                       publisher a5 fs' (uploaded_tree fs')
                         (Some (summary_of fs' r3)))
                  end
              end
          end
    end.
Proof.
  unfold GitHubPublisher.publish, GitHubPublisher.publish_try.
  cbv zeta.
  destruct (negb (GitHubPublisher.validate_source w)); [reflexivity |].
  unfold bind at 1. rewrite method_call_eq. simpl.
  destruct (GitHubAPI.check_repo_exists w repo_name GitHubAPI.init)
    as [[[|] | e] a1]; simpl; try reflexivity.
  unfold bind at 1. unfold GitHubPublisher.method at 1.
  rewrite collect_files_eq. simpl.
  destruct (Z.of_nat (List.length (collected (scanned w))) =? 0);
    [reflexivity |].
  unfold bind at 1. rewrite method_call_eq. simpl.
  destruct (GitHubAPI.create_repository w _ a1) as [[repo | e] a2]; simpl;
    [| reflexivity].
  unfold bind at 1. unfold GitHubPublisher.assign at 1. simpl.
  unfold bind at 1. rewrite method_call_eq. simpl.
  destruct (GitHubAPI.set_topics w repo_name _ a2) as [[[] | e] a3]; simpl;
    [| reflexivity].
  unfold bind at 1. unfold GitHubPublisher.method at 1.
  unfold GitHubPublisher.upload_blobs. unfold bind at 1. unfold get at 1.
  simpl.
  rewrite upload_loop_eq by reflexivity. simpl.
  destruct (attempts w format_size repo_name _ a3) as [outs a4]. simpl.
  unfold bind at 1. unfold get at 1.
  unfold bind at 1. unfold GitHubPublisher.assign at 1. simpl.
  unfold bind at 1. unfold GitHubPublisher.method at 1.
  rewrite create_commit_eq, call_eq. simpl.
  destruct (commit_calls w repo_name commit_message _ a4)
    as [[commit_sha | e] a5]; simpl; [| reflexivity].
  destruct (truthy_opt commit_sha); reflexivity.
Qed.

Lemma sends_all {A : Type} (P : Request -> Prop) (m : M GitHubAPI.t A)
    (a : GitHubAPI.t) :
  sends P m -> Forall P (GitHubAPI.sent a) ->
  Forall P (GitHubAPI.sent (snd (m a))).
Proof.
  intros Hm Ha. destruct (Hm a) as [extra [E F]].
  rewrite E. now apply Forall_app.
Qed.

Lemma attempts_all (P : Request -> Prop) (repo_name : string)
    (contents : list bytes) (a : GitHubAPI.t) :
  P user_request ->
  (forall endpoint c, P (request "POST" endpoint (BlobJson c))) ->
  Forall P (GitHubAPI.sent a) ->
  Forall P
    (GitHubAPI.sent (snd (attempts w format_size repo_name contents a))).
Proof.
  intros HU HB Ha.
  destruct (attempts_sends P repo_name contents HU HB a) as [extra [E F]].
  rewrite E. now apply Forall_app.
Qed.

(** Every request of a run is one of the seven kinds the workflow
    issues; a tree request is sent after the upload loop and carries
    the tree of the uploaded files. *)
Lemma publish_sent (P : Request -> Prop)
    (repo_name description visibility : string)
    (topics : option (list string)) (commit_message : string) :
  let p :=
    snd (GitHubPublisher.publish w format_size repo_name description
           visibility topics commit_message GitHubPublisher.init) in
  (forall endpoint, P (request "GET" endpoint NoPayload)) ->
  (forall payload, P (request "POST" "/user/repos" (RepoJson payload))) ->
  (forall endpoint names, P (request "PUT" endpoint (TopicsJson names))) ->
  (forall endpoint c, P (request "POST" endpoint (BlobJson c))) ->
  (forall endpoint base_tree a,
     GitHubPublisher.files p =
     mark (collected (scanned w))
       (fst (attempts w format_size repo_name
               (map FileEntry.content (collected (scanned w))) a)) ->
     P (request "POST" endpoint
          (TreeJson (uploaded_tree (GitHubPublisher.files p)) base_tree))) ->
  (forall endpoint tree_sha parents,
     P (request "POST" endpoint
          (CommitJson commit_message tree_sha parents))) ->
  (forall endpoint sha,
     P (request "PATCH" endpoint (RefUpdateJson sha true))) ->
  Forall P (GitHubAPI.sent (GitHubPublisher.api p)).
Proof.
  rewrite publish_eq. cbv zeta.
  intros HG HR HT HB.
  assert (HU : P user_request) by apply HG.
  destruct (negb (GitHubPublisher.validate_source w));
    [intros; constructor |].
  pose proof (sends_all P _ GitHubAPI.init
                (sends_check_repo_exists w P repo_name HG)
                (Forall_nil P)) as H1.
  destruct (GitHubAPI.check_repo_exists w repo_name GitHubAPI.init)
    as [[[|] | e] a1]; simpl in *; try (intros; exact H1).
  destruct (Z.of_nat (List.length (collected (scanned w))) =? 0);
    [intros; exact H1 |].
  pose proof (sends_all P _ a1
                (sends_create_repository w P
                   (GitHubPublisher.new_config repo_name description
                      visibility topics) HR) H1) as H2.
  destruct (GitHubAPI.create_repository w _ a1) as [[repo | e] a2];
    simpl in *; [| intros; exact H2].
  pose proof (sends_all P _ a2
                (sends_set_topics w P repo_name
                   (RepoConfig.topics
                      (GitHubPublisher.new_config repo_name description
                         visibility topics)) HU (fun ep => HT ep _)) H2)
    as H3.
  destruct (GitHubAPI.set_topics w repo_name _ a2) as [[[] | e] a3];
    simpl in *; [| intros; exact H3].
  pose proof (attempts_all P repo_name
                (map FileEntry.content (collected (scanned w))) a3 HU HB H3)
    as H4.
  set (outcomes := attempts w format_size repo_name
                      (map FileEntry.content (collected (scanned w))) a3)
    in *.
  destruct (commit_calls w repo_name commit_message _ (snd outcomes))
    as [[commit_sha | e] a5] eqn:E5; simpl in *;
    intros HTr HC HRef;
    pose proof (sends_all P _ (snd outcomes)
                  (sends_commit_calls P repo_name commit_message
                     (uploaded_tree
                        (mark (collected (scanned w)) (fst outcomes)))
                     HG (fun ep b => HTr ep b a3 eq_refl) HC HRef) H4)
      as H5;
    now rewrite E5 in H5.
Qed.

Lemma mark_in (fs : list FileEntry.t) (outs : list (res BlobResponse.t))
    (e' : FileEntry.t) :
  In e' (mark fs outs) ->
  exists e r, In (e, r) (combine fs outs) /\ e' = marked e r.
Proof.
  unfold mark. rewrite in_map_iff. intros [[e r] [E I]].
  exists e, r. simpl in E. now split.
Qed.

Lemma combine_attempts (repo_name : string) (fs : list FileEntry.t) :
  forall a e r,
    In (e, r)
      (combine fs
         (fst (attempts w format_size repo_name
                 (map FileEntry.content fs) a))) ->
    In e fs /\
    exists a',
      r = fst (GitHubAPI.create_blob w format_size repo_name
                 (FileEntry.content e) a').
Proof.
  induction fs as [| f fs IH]; intros a e r; simpl; [tauto |].
  destruct (GitHubAPI.create_blob w format_size repo_name
              (FileEntry.content f) a) as [r1 a1] eqn:E.
  specialize (IH a1 e r).
  destruct (attempts w format_size repo_name (map FileEntry.content fs) a1)
    as [rs a2].
  simpl in *. intros [H | H].
  - inversion H; subst. split; [now left |].
    exists a. now rewrite E.
  - destruct (IH H) as [I X]. split; [now right | exact X].
Qed.

(** After the loop every entry has been through [create_blob], and its
    status says how that went. *)
Lemma mark_attempts_in (repo_name : string) (fs : list FileEntry.t)
    (a : GitHubAPI.t) (e' : FileEntry.t) :
  In e'
    (mark fs
       (fst (attempts w format_size repo_name
               (map FileEntry.content fs) a))) ->
  exists e a',
    In e fs /\
    e' = marked e
           (fst (GitHubAPI.create_blob w format_size repo_name
                   (FileEntry.content e) a')).
Proof.
  intros H. apply mark_in in H. destruct H as [e [r [I E]]].
  apply combine_attempts in I. destruct I as [I [a' R]].
  exists e, a'. subst. now split.
Qed.

Lemma mark_attempted (fs : list FileEntry.t)
    (outs : list (res BlobResponse.t)) :
  Forall
    (fun e => FileEntry.status e = SUCCESS \/ FileEntry.status e = FAILED)
    (mark fs outs).
Proof.
  rewrite Forall_forall. intros e' H. apply mark_in in H.
  destruct H as [e [[blob | ex] [_ E]]]; subst e'; simpl; auto.
Qed.

Lemma mark_nth (fs : list FileEntry.t) :
  forall (outs : list (res BlobResponse.t)) (i : nat) (e : FileEntry.t),
    List.length outs = List.length fs ->
    nth_error fs i = Some e ->
    exists r,
      nth_error outs i = Some r /\
      nth_error (mark fs outs) i = Some (marked e r).
Proof.
  induction fs as [| f fs IH]; intros outs i e HL Hn.
  - destruct i; discriminate.
  - destruct outs as [| r outs]; [discriminate |].
    destruct i as [| i]; simpl in *.
    + inversion Hn; subst. now exists r.
    + apply IH; [lia | exact Hn].
Qed.

(** A run that ends without an error went all the way to the summary. *)
Lemma publish_no_error (repo_name description visibility : string)
    (topics : option (list string)) (commit_message : string) :
  let run :=
    GitHubPublisher.publish w format_size repo_name description visibility
      topics commit_message GitHubPublisher.init in
  PublishResult.error (fst run) = None ->
  exists a3 repo commit_sha a5,
    let fs := collected (scanned w) in
    let outcomes :=
      attempts w format_size repo_name (map FileEntry.content fs) a3 in
    let fs' := mark fs (fst outcomes) in
    let r2 := counted_result repo fs (fst outcomes) in
    let r3 :=
      if truthy_opt commit_sha then
        GitHubPublisher.set_commit
          (match commit_sha with Some s => s | None => "" end) r2
      else r2 in
    commit_calls w repo_name commit_message (uploaded_tree fs')
      (snd outcomes) = (Ok commit_sha, a5) /\
    run =
    (r3, publisher a5 fs' (uploaded_tree fs') (Some (summary_of fs' r3))).
Proof.
  cbv zeta. rewrite publish_eq. cbv zeta.
  destruct (negb (GitHubPublisher.validate_source w));
    [discriminate |].
  destruct (GitHubAPI.check_repo_exists w repo_name GitHubAPI.init)
    as [[[|] | e] a1]; simpl; try discriminate.
  destruct (Z.of_nat (List.length (collected (scanned w))) =? 0);
    [discriminate |].
  destruct (GitHubAPI.create_repository w _ a1) as [[repo | e] a2];
    simpl; [| discriminate].
  destruct (GitHubAPI.set_topics w repo_name _ a2) as [[[] | e] a3];
    simpl; [| discriminate].
  destruct (commit_calls w repo_name commit_message _ _)
    as [[commit_sha | e] a5] eqn:E5; simpl; [| discriminate].
  intros _. exists a3, repo, commit_sha, a5. split; [exact E5 |].
  reflexivity.
Qed.

Lemma create_commit_sha (repo_name message tree_sha : string)
    (parent_sha : option string) (a a' : GitHubAPI.t)
    (commit : CommitResponse.t) :
  reports_ids w ->
  GitHubAPI.create_commit w repo_name message tree_sha parent_sha a =
  (Ok commit, a') ->
  truthy (CommitResponse.sha commit) = true.
Proof.
  intros Hw. unfold GitHubAPI.create_commit. unfold bind at 1.
  destruct (GitHubAPI.user w a) as [[u | e] a1]; [| discriminate].
  unfold bind at 1. rewrite _request_eq.
  destruct (remote w (GitHubAPI.sent a1) _) as [text | code body] eqn:ER;
    [discriminate |].
  destruct (400 <=? code); [discriminate |].
  assert (HS : forall data : Json,
             data = empty_dict \/ data = body ->
             (sha <- GitHubAPI.item (scalars data) "sha" ;;
              url <- GitHubAPI.item (scalars data) "url" ;;
              html_url <- GitHubAPI.item (scalars data) "html_url" ;;
              ret {| CommitResponse.sha := sha;
                     CommitResponse.url := url;
                     CommitResponse.html_url := html_url |})
               {| GitHubAPI._user := GitHubAPI._user a1;
                  GitHubAPI.sent := GitHubAPI.sent a1 ++
                    [request "POST"
                       ("/repos/" ++ u ++ "/" ++ repo_name ++ "/git/commits")
                       (CommitJson message tree_sha
                          match parent_sha with
                          | Some p => if truthy p then Some [p] else None
                          | None => None
                          end)] |} = (Ok commit, a') ->
             truthy (CommitResponse.sha commit) = true).
  { intros data Hd. unfold bind, GitHubAPI.item.
    destruct (lookup "sha" (scalars data)) as [sha |] eqn:EL;
      [| discriminate].
    destruct (lookup "url" (scalars data)); [| discriminate].
    destruct (lookup "html_url" (scalars data)); [| discriminate].
    unfold ret. intros H. inversion H; subst. simpl.
    destruct Hd as [Hd | Hd]; subst data; [discriminate |].
    unfold truthy. destruct (String.eqb_spec sha ""); [| reflexivity].
    subst sha. exfalso. exact (Hw _ _ _ _ ER EL). }
  destruct (code =? 204); apply HS; auto.
Qed.

Lemma commit_calls_truthy (repo_name message : string)
    (entries : list TreeEntry.t) (a a' : GitHubAPI.t)
    (commit_sha : option string) :
  reports_ids w -> entries <> [] ->
  commit_calls w repo_name message entries a = (Ok commit_sha, a') ->
  truthy_opt commit_sha = true.
Proof.
  intros Hw Hne. unfold commit_calls.
  destruct entries as [| t ts]; [contradiction |].
  unfold bind at 1.
  destruct (GitHubAPI.get_default_branch_sha w repo_name a)
    as [[parent_sha | e] a1]; [| discriminate].
  unfold bind at 1.
  destruct (GitHubAPI.create_tree w repo_name (t :: ts) parent_sha a1)
    as [[tree | e] a2]; [| discriminate].
  unfold bind at 1.
  destruct (GitHubAPI.create_commit w repo_name message _ parent_sha a2)
    as [[commit | e] a3] eqn:EC; [| discriminate].
  unfold bind at 1.
  destruct (GitHubAPI.update_ref w repo_name _ _ true a3)
    as [[[] | e] a4]; [| discriminate].
  unfold ret. intros H. inversion H; subst. simpl.
  eapply create_commit_sha; eauto.
Qed.

(** The size check of [create_blob] comes first and touches nothing. *)
Lemma create_blob_too_large (repo_name : string) (content : bytes)
    (a : GitHubAPI.t) :
  GitHubAPI.too_large content = true ->
  GitHubAPI.create_blob w format_size repo_name content a =
  (Raise (GitHubAPIError ("File too large: " ++ format_size (len content))
            0), a).
Proof.
  intros H. unfold GitHubAPI.create_blob. now rewrite H.
Qed.

Lemma user_cached (a : GitHubAPI.t) (u : string) :
  GitHubAPI._user a = Some u -> truthy u = true ->
  GitHubAPI.user w a = (Ok u, a).
Proof.
  intros Hu Ht. unfold GitHubAPI.user, bind, get.
  rewrite Hu. simpl. now rewrite Ht.
Qed.

(** [get_default_branch_sha] when the login is cached, by the answer to
    the read of the head. *)
Lemma get_default_branch_sha_eq (repo_name : string) (a : GitHubAPI.t)
    (u : string) :
  GitHubAPI._user a = Some u -> truthy u = true ->
  GitHubAPI.get_default_branch_sha w repo_name a =
  (match remote w (GitHubAPI.sent a) (head_request u repo_name) with
   | RequestException _ => Ok None
   | Response status_code body =>
       if 400 <=? status_code then Ok None
       else if status_code =? 204 then Raise (PyException "'object'")
       else
         match lookup "object" (objects body) with
         | None => Raise (PyException "'object'")
         | Some object =>
             match lookup "sha" object with
             | None => Raise (PyException "'sha'")
             | Some sha => Ok (Some sha)
             end
         end
   end,
   after a (head_request u repo_name)).
Proof.
  intros Hu Ht.
  unfold GitHubAPI.get_default_branch_sha, except_api. unfold bind at 1.
  rewrite (user_cached a u Hu Ht). unfold bind at 1.
  rewrite _request_eq. fold (head_request u repo_name).
  fold (after a (head_request u repo_name)).
  destruct (remote w (GitHubAPI.sent a) (head_request u repo_name))
    as [text | code body]; [reflexivity |].
  destruct (400 <=? code); [reflexivity |].
  destruct (code =? 204); [reflexivity |].
  unfold bind, GitHubAPI.item.
  destruct (lookup "object" (objects body)) as [object |]; cbn;
    [| reflexivity].
  destruct (lookup "sha" object); reflexivity.
Qed.

(** After the read of the head, [create_commit] of the publisher sends
    the tree request with that head as [base_tree], and whatever commit
    request follows names it as the only parent. *)
Lemma commit_calls_after_head (repo_name message : string)
    (entries : list TreeEntry.t) (a a1 : GitHubAPI.t)
    (parent_sha : option string) (u : string) :
  entries <> [] ->
  GitHubAPI.get_default_branch_sha w repo_name a = (Ok parent_sha, a1) ->
  GitHubAPI._user a1 = Some u -> truthy u = true ->
  exists rest,
    GitHubAPI.sent (snd (commit_calls w repo_name message entries a)) =
    GitHubAPI.sent a1 ++
    tree_request u repo_name entries
      (if truthy_opt parent_sha then parent_sha else None) :: rest /\
    Forall
      (fun req =>
         (forall es b, json req <> TreeJson es b) /\
         (forall m t ps,
            json req = CommitJson m t ps -> ps = parents_of parent_sha))
      rest.
Proof.
  intros Hne Hh Hu Ht.
  set (P := fun req : Request =>
              (forall es b, json req <> TreeJson es b) /\
              (forall m t ps,
                 json req = CommitJson m t ps -> ps = parents_of parent_sha)).
  assert (HU : P user_request) by (split; intros; discriminate).
  unfold commit_calls. destruct entries as [| t0 ts]; [contradiction |].
  unfold bind at 1. rewrite Hh.
  unfold bind at 1. unfold GitHubAPI.create_tree. unfold bind at 1.
  rewrite (user_cached a1 u Hu Ht). unfold bind at 1.
  rewrite _request_eq.
  fold (tree_request u repo_name (t0 :: ts)
          (if truthy_opt parent_sha then parent_sha else None)).
  set (treq := tree_request u repo_name (t0 :: ts)
                 (if truthy_opt parent_sha then parent_sha else None)).
  assert (HK : forall data : Json,
             sends P
               (tree <- (sha <- GitHubAPI.item (scalars data) "sha" ;;
                         url <- GitHubAPI.item (scalars data) "url" ;;
                         ret {| TreeResponse.sha := sha;
                                TreeResponse.url := url |}) ;;
                commit <- GitHubAPI.create_commit w repo_name message
                            (TreeResponse.sha tree) parent_sha ;;
                GitHubAPI.update_ref w repo_name "heads/main"
                  (CommitResponse.sha commit) true ;;;
                ret (Some (CommitResponse.sha commit)))).
  { intros data.
    apply sends_bind; [sends_steps |]. intros tree.
    apply sends_bind.
    { apply sends_create_commit; [exact HU |].
      intros endpoint. split; intros; simpl in *; [discriminate |].
      match goal with H : CommitJson _ _ _ = CommitJson _ _ _ |- _ =>
        now inversion H end. }
    intros commit.
    apply sends_bind; [| intros; apply sends_ret].
    apply sends_update_ref; [exact HU |].
    intros endpoint. split; intros; discriminate. }
  assert (HK' : forall data : Json, exists rest,
             GitHubAPI.sent
               (snd ((tree <- (sha <- GitHubAPI.item (scalars data) "sha" ;;
                         url <- GitHubAPI.item (scalars data) "url" ;;
                         ret {| TreeResponse.sha := sha;
                                TreeResponse.url := url |}) ;;
                commit <- GitHubAPI.create_commit w repo_name message
                            (TreeResponse.sha tree) parent_sha ;;
                GitHubAPI.update_ref w repo_name "heads/main"
                  (CommitResponse.sha commit) true ;;;
                ret (Some (CommitResponse.sha commit))) (after a1 treq))) =
             GitHubAPI.sent a1 ++ treq :: rest /\ Forall P rest).
  { intros data. destruct (HK data (after a1 treq)) as [rest [E F]].
    exists rest. split; [| exact F].
    rewrite E. simpl. now rewrite <- app_assoc. }
  destruct (match remote w (GitHubAPI.sent a1) treq with
            | RequestException text =>
                Raise (GitHubAPIError ("Network error: " ++ text) 0)
            | Response status_code body =>
                if 400 <=? status_code then
                  Raise (GitHubAPIError
                           (GitHubAPI.get_default (scalars body) "message"
                              "Unknown error") status_code)
                else if status_code =? 204 then Ok empty_dict else Ok body
            end) as [data | e].
  - exact (HK' data).
  - exists []. simpl. split; [reflexivity | constructor].
Qed.

End PublisherFacts.

(** * The claims *)

(** The files of a run, before or after the upload loop. *)
Lemma publish_files (w : World) (format_size : N -> string)
    (repo_name description visibility : string)
    (topics : option (list string)) (commit_message : string) :
  let p :=
    snd (GitHubPublisher.publish w format_size repo_name description
           visibility topics commit_message GitHubPublisher.init) in
  (Forall (fun e => FileEntry.status e = PENDING) (GitHubPublisher.files p)
   /\ GitHubPublisher.tree_entries p = []
   /\ GitHubPublisher.printed p = None) \/
  (exists a,
     GitHubPublisher.files p =
     mark (collected (scanned w))
       (fst (attempts w format_size repo_name
               (map FileEntry.content (collected (scanned w))) a)) /\
     GitHubPublisher.tree_entries p =
     uploaded_tree (GitHubPublisher.files p)).
Proof.
  rewrite publish_eq. cbv zeta.
  destruct (negb (GitHubPublisher.validate_source w));
    [left; simpl; auto |].
  destruct (GitHubAPI.check_repo_exists w repo_name GitHubAPI.init)
    as [[[|] | e] a1]; simpl; try (left; simpl; now auto).
  destruct (Z.of_nat (List.length (collected (scanned w))) =? 0);
    [left; simpl; auto using collected_pending |].
  destruct (GitHubAPI.create_repository w _ a1) as [[repo | e] a2];
    simpl; [| left; simpl; auto using collected_pending].
  destruct (GitHubAPI.set_topics w repo_name _ a2) as [[[] | e] a3];
    simpl; [| left; simpl; auto using collected_pending].
  right. exists a3.
  destruct (commit_calls w repo_name commit_message _ _)
    as [[commit_sha | e] a5]; simpl; auto.
Qed.


(** C4.  [upload_blobs] always returns: it makes one [create_blob]
    attempt per file, in the order of the files, each in the client
    state the previous attempt left, whatever the earlier outcomes
    ([attempts]); the entry at each position is rewritten by its own
    outcome alone, a raised exception leaving it FAILED with the text of
    the exception and nothing else changed.  In a run of [publish], a
    tree request is only sent once every file has status SUCCESS or
    FAILED. *)
Theorem upload_attempts_every_file
    (w : World) (format_size : N -> string) (repo_name : string) :
  (forall self : GitHubPublisher.t,
     let outcomes :=
       attempts w format_size repo_name
         (map FileEntry.content (GitHubPublisher.files self))
         (GitHubPublisher.api self) in
     let fs' := mark (GitHubPublisher.files self) (fst outcomes) in
     GitHubPublisher.upload_blobs w format_size repo_name self =
     (Ok (count_ok (fst outcomes)),
      publisher (snd outcomes) fs'
        (GitHubPublisher.tree_entries self ++ uploaded_tree fs')
        (GitHubPublisher.printed self)) /\
     List.length (fst outcomes) =
     List.length (GitHubPublisher.files self) /\
     (forall i e,
        nth_error (GitHubPublisher.files self) i = Some e ->
        exists r,
          nth_error (fst outcomes) i = Some r /\
          nth_error fs' i = Some (marked e r)))
  /\
  (forall (e : FileEntry.t) (ex : exn),
     FileEntry.status (marked e (Raise ex)) = FAILED /\
     FileEntry.error (marked e (Raise ex)) = Some (str_exn ex) /\
     FileEntry.path (marked e (Raise ex)) = FileEntry.path e /\
     FileEntry.content (marked e (Raise ex)) = FileEntry.content e /\
     FileEntry.sha (marked e (Raise ex)) = FileEntry.sha e)
  /\
  (forall (description visibility : string) (topics : option (list string))
          (commit_message : string) req entries base_tree,
     let p :=
       snd (GitHubPublisher.publish w format_size repo_name description
              visibility topics commit_message GitHubPublisher.init) in
     In req (GitHubAPI.sent (GitHubPublisher.api p)) ->
     json req = TreeJson entries base_tree ->
     Forall
       (fun e =>
          FileEntry.status e = SUCCESS \/ FileEntry.status e = FAILED)
       (GitHubPublisher.files p)).
Proof.
  split; [| split].
  - intros self outcomes fs'.
    assert (HL : List.length (fst outcomes) =
                 List.length (GitHubPublisher.files self)).
    { unfold outcomes. rewrite attempts_length. apply length_map. }
    split; [| split].
    + unfold GitHubPublisher.upload_blobs, bind, get.
      rewrite upload_loop_eq by reflexivity. cbv zeta.
      now rewrite Z.add_0_l.
    + exact HL.
    + intros i e Hn. now apply mark_nth.
  - intros e ex. simpl. auto.
  - intros description visibility topics commit_message req entries
      base_tree p Hin Hj.
    pose proof (publish_sent w format_size
                  (fun r => forall es b, json r = TreeJson es b ->
                     Forall
                       (fun e => FileEntry.status e = SUCCESS \/
                                 FileEntry.status e = FAILED)
                       (GitHubPublisher.files p))
                  repo_name description visibility topics commit_message)
      as HS.
    cbv zeta in HS. fold p in HS.
    assert (HA : Forall
                   (fun r => forall es b, json r = TreeJson es b ->
                      Forall
                        (fun e => FileEntry.status e = SUCCESS \/
                                  FileEntry.status e = FAILED)
                        (GitHubPublisher.files p))
                   (GitHubAPI.sent (GitHubPublisher.api p))).
    { apply HS; intros; simpl in *; try discriminate.
      match goal with H : GitHubPublisher.files p = _ |- _ =>
        rewrite H end.
      apply mark_attempted. }
    rewrite Forall_forall in HA. exact (HA req Hin entries base_tree Hj).
Qed.

Lemma uploaded_tree_nonempty (fs : list FileEntry.t) (e : FileEntry.t) :
  In e fs -> FileEntry.status e = SUCCESS -> uploaded_tree fs <> [].
Proof.
  intros Hin Hs Hnil. unfold uploaded_tree in Hnil.
  apply map_eq_nil in Hnil.
  assert (In e (filter is_success fs)) as H.
  { apply filter_In. split; [exact Hin |].
    unfold is_success. now rewrite Hs. }
  rewrite Hnil in H. contradiction.
Qed.

(** C5.  On a content longer than MAX_FILE_SIZE_MB megabytes
    [create_blob] raises ["File too large: ..."] and leaves the client
    as it was: no request is sent, the login is not even looked up.  In
    a run of [publish] in which another file was uploaded, the oversized
    file is FAILED with that message; and when nothing outside the
    upload loop fails (the result carries no error, the remote reports
    non-empty ids), the run succeeds. *)
Theorem oversized_file_fails_locally
    (w : World) (format_size : N -> string) (repo_name : string) :
  (forall content a,
     GitHubAPI.too_large content = true ->
     GitHubAPI.create_blob w format_size repo_name content a =
     (Raise (GitHubAPIError
               ("File too large: " ++ format_size (len content)) 0), a))
  /\
  (forall (description visibility : string) (topics : option (list string))
          (commit_message : string) (e e' : FileEntry.t),
     let run :=
       GitHubPublisher.publish w format_size repo_name description
         visibility topics commit_message GitHubPublisher.init in
     In e (GitHubPublisher.files (snd run)) ->
     GitHubAPI.too_large (FileEntry.content e) = true ->
     In e' (GitHubPublisher.files (snd run)) ->
     FileEntry.status e' = SUCCESS ->
     FileEntry.status e = FAILED /\
     FileEntry.error e =
     Some ("File too large: " ++ format_size (len (FileEntry.content e)))%string
     /\
     (reports_ids w ->
      PublishResult.error (fst run) = None ->
      PublishResult.success (fst run) = true)).
Proof.
  split; [intros; now apply create_blob_too_large |].
  intros description visibility topics commit_message e e' run
    He Hbig He' Hs'.
  destruct (publish_files w format_size repo_name description visibility
              topics commit_message) as [[HP _] | [a [HF _]]];
    fold run in HP || fold run in HF.
  { rewrite Forall_forall in HP. rewrite (HP e' He') in Hs'. discriminate. }
  assert (HE : FileEntry.status e = FAILED /\
               FileEntry.error e =
               Some ("File too large: " ++
                     format_size (len (FileEntry.content e)))%string).
  { rewrite HF in He. apply mark_attempts_in in He.
    destruct He as [e0 [a' [_ E]]].
    assert (HC : FileEntry.content e = FileEntry.content e0).
    { subst e. now destruct (fst _). }
    rewrite HC in Hbig. rewrite create_blob_too_large in E by exact Hbig.
    subst e. simpl. auto. }
  destruct HE as [HE1 HE2]. split; [exact HE1 |]. split; [exact HE2 |].
  intros Hw Herr.
  destruct (publish_no_error w format_size repo_name description visibility
              topics commit_message Herr)
    as [a3 [repo [commit_sha [a5 [EC ER]]]]].
  fold run in ER. rewrite ER in He' |- *. simpl in He' |- *.
  assert (HT : truthy_opt commit_sha = true).
  { eapply commit_calls_truthy; [exact Hw | | exact EC].
    eapply uploaded_tree_nonempty; eauto. }
  now rewrite HT.
Qed.

Lemma nonempty_length {A : Type} (l : list A) :
  l <> [] -> (Z.of_nat (List.length l) =? 0) = false.
Proof.
  intros H. destruct l; [contradiction |]. reflexivity.
Qed.

(** C6.  When the repository is there already ([check_repo_exists]
    answers [True] to a new client), the run fails, it creates nothing
    (every request it has sent is a GET without a body, and no file was
    even collected), and over a valid source directory its error is
    ["Repository already exists"], the check being the last thing it
    did. *)
Theorem existing_repository_is_left_alone
    (w : World) (format_size : N -> string)
    (repo_name description visibility : string)
    (topics : option (list string)) (commit_message : string)
    (a1 : GitHubAPI.t) :
  GitHubAPI.check_repo_exists w repo_name GitHubAPI.init = (Ok true, a1) ->
  let run :=
    GitHubPublisher.publish w format_size repo_name description visibility
      topics commit_message GitHubPublisher.init in
  PublishResult.success (fst run) = false /\
  Forall (fun req => method req = "GET" /\ json req = NoPayload)
    (GitHubAPI.sent (GitHubPublisher.api (snd run))) /\
  GitHubPublisher.files (snd run) = [] /\
  GitHubPublisher.tree_entries (snd run) = [] /\
  (GitHubPublisher.validate_source w = true ->
   PublishResult.error (fst run) = Some "Repository already exists" /\
   GitHubPublisher.api (snd run) = a1).
Proof.
  intros H run. unfold run. rewrite publish_eq. cbv zeta.
  destruct (GitHubPublisher.validate_source w); simpl.
  - rewrite H. simpl.
    pose proof (sends_all
                  (fun req => method req = "GET" /\ json req = NoPayload)
                  _ GitHubAPI.init
                  (sends_check_repo_exists w _ repo_name
                     (fun endpoint => conj eq_refl eq_refl))
                  (Forall_nil _)) as HS.
    rewrite H in HS. simpl in HS. auto 6.
  - split; [reflexivity |]. split; [constructor |].
    split; [reflexivity |]. split; [reflexivity | discriminate].
Qed.

(** C3, as the code has it.  When the repository has been created and
    [set_topics] raises, the run stops there: the result is a failure
    carrying the url of the new repository and the text of the
    exception, no file has been through the upload loop, and no blob
    request has been sent. *)
Theorem topics_failure_aborts_the_run
    (w : World) (format_size : N -> string)
    (repo_name description visibility : string)
    (topics : option (list string)) (commit_message : string)
    (a1 a2 a3 : GitHubAPI.t) (repo : RepoResponse.t) (e : exn) :
  let config :=
    GitHubPublisher.new_config repo_name description visibility topics in
  GitHubPublisher.validate_source w = true ->
  GitHubAPI.check_repo_exists w repo_name GitHubAPI.init = (Ok false, a1) ->
  collected (scanned w) <> [] ->
  GitHubAPI.create_repository w config a1 = (Ok repo, a2) ->
  GitHubAPI.set_topics w repo_name (RepoConfig.topics config) a2 =
  (Raise e, a3) ->
  GitHubPublisher.publish w format_size repo_name description visibility
    topics commit_message GitHubPublisher.init =
  (GitHubPublisher.set_error (str_exn e)
     (GitHubPublisher.set_repo_url (RepoResponse.html_url repo)
        GitHubPublisher.new_result),
   publisher a3 (collected (scanned w)) [] None) /\
  Forall (fun req => forall content, json req <> BlobJson content)
    (GitHubAPI.sent a3).
Proof.
  intros config Hv H1 Hne H2 H3. split.
  - rewrite publish_eq. cbv zeta. rewrite Hv. cbn [negb]. rewrite H1.
    rewrite (nonempty_length _ Hne). fold config. rewrite H2, H3.
    reflexivity.
  - set (P := fun req : Request =>
                forall content, json req <> BlobJson content).
    assert (S1 : Forall P (GitHubAPI.sent a1)).
    { pose proof (sends_all P _ GitHubAPI.init
                    (sends_check_repo_exists w P repo_name
                       (fun endpoint content => ltac:(discriminate)))
                    (Forall_nil _)) as HS.
      now rewrite H1 in HS. }
    assert (S2 : Forall P (GitHubAPI.sent a2)).
    { pose proof (sends_all P _ a1
                    (sends_create_repository w P config
                       (fun payload content => ltac:(discriminate)))
                    S1) as HS.
      now rewrite H2 in HS. }
    pose proof (sends_all P _ a2
                  (sends_set_topics w P repo_name (RepoConfig.topics config)
                     (fun content => ltac:(discriminate))
                     (fun endpoint content => ltac:(discriminate)))
                  S2) as HS.
    now rewrite H3 in HS.
Qed.

(** C9, as the code has it.  Over a valid source directory with nothing
    to collect, the existence check comes first and decides: when it
    finds no repository the run fails with ["No files to upload"]; when
    it finds one, with ["Repository already exists"]; when it raises,
    with the text of the exception. *)
Theorem empty_collection_after_existence_check
    (w : World) (format_size : N -> string)
    (repo_name description visibility : string)
    (topics : option (list string)) (commit_message : string) :
  GitHubPublisher.validate_source w = true ->
  collected (scanned w) = [] ->
  let run :=
    GitHubPublisher.publish w format_size repo_name description visibility
      topics commit_message GitHubPublisher.init in
  let check := GitHubAPI.check_repo_exists w repo_name GitHubAPI.init in
  PublishResult.success (fst run) = false /\
  GitHubPublisher.api (snd run) = snd check /\
  PublishResult.error (fst run) =
  Some (match fst check with
        | Ok false => "No files to upload"
        | Ok true => "Repository already exists"
        | Raise e => str_exn e
        end).
Proof.
  intros Hv Hc run check. unfold run, check.
  rewrite publish_eq. cbv zeta. rewrite Hv, Hc. simpl.
  destruct (GitHubAPI.check_repo_exists w repo_name GitHubAPI.init)
    as [[[|] | e] a1]; simpl; auto.
Qed.

(** [publish] never assigns [result.files_failed]. *)
Lemma files_failed_is_never_assigned
    (w : World) (format_size : N -> string)
    (repo_name description visibility : string)
    (topics : option (list string)) (commit_message : string) :
  PublishResult.files_failed
    (fst (GitHubPublisher.publish w format_size repo_name description
            visibility topics commit_message GitHubPublisher.init)) = 0.
Proof.
  rewrite publish_eq. cbv zeta.
  destruct (negb (GitHubPublisher.validate_source w)); [reflexivity |].
  destruct (GitHubAPI.check_repo_exists w repo_name GitHubAPI.init)
    as [[[|] | e] a1]; simpl; try reflexivity.
  destruct (Z.of_nat (List.length (collected (scanned w))) =? 0);
    [reflexivity |].
  destruct (GitHubAPI.create_repository w _ a1) as [[repo | e] a2];
    simpl; [| reflexivity].
  destruct (GitHubAPI.set_topics w repo_name _ a2) as [[[] | e] a3];
    simpl; [| reflexivity].
  destruct (commit_calls w repo_name commit_message _ _)
    as [[commit_sha | e] a5]; simpl; [| reflexivity].
  destruct (truthy_opt commit_sha); reflexivity.
Qed.

(** C2, on the run of [w_partial].  Of two files one is uploaded and
    one is FAILED, none is skipped; the result has [files_failed = 0]
    and counts the failed file in [files_skipped], and the summary
    prints the same numbers. *)
Theorem failed_upload_is_reported_as_skipped :
  map FileEntry.status (GitHubPublisher.files (snd (run w_partial))) =
  [SUCCESS; FAILED] /\
  PublishResult.files_uploaded (fst (run w_partial)) = 1 /\
  PublishResult.files_skipped (fst (run w_partial)) = 1 /\
  PublishResult.files_failed (fst (run w_partial)) = 0 /\
  GitHubPublisher.printed (snd (run w_partial)) =
  Some {| total := 2; uploaded := 1; skipped := 1; failed := 0 |}.
Proof. vm_compute. repeat split. Qed.

(** When every upload of a run has failed, the run ends without
    success and without an error in its result. *)
Lemma all_failed_leaves_no_error
    (w : World) (format_size : N -> string)
    (repo_name description visibility : string)
    (topics : option (list string)) (commit_message : string) :
  let run :=
    GitHubPublisher.publish w format_size repo_name description visibility
      topics commit_message GitHubPublisher.init in
  GitHubPublisher.files (snd run) <> [] ->
  Forall (fun e => FileEntry.status e = FAILED)
    (GitHubPublisher.files (snd run)) ->
  PublishResult.success (fst run) = false /\
  PublishResult.error (fst run) = None.
Proof.
  assert (HP : forall fs : list FileEntry.t,
             fs <> [] ->
             Forall (fun e => FileEntry.status e = PENDING) fs ->
             Forall (fun e => FileEntry.status e = FAILED) fs -> False).
  { intros fs Hne Hp Hf. destruct fs as [| f fs]; [contradiction |].
    inversion Hp; inversion Hf; congruence. }
  assert (HU : forall fs : list FileEntry.t,
             Forall (fun e => FileEntry.status e = FAILED) fs ->
             uploaded_tree fs = []).
  { induction 1 as [| f fs Hf _ IH]; [reflexivity |].
    unfold uploaded_tree in *. simpl. unfold is_success at 1.
    now rewrite Hf. }
  cbv zeta. rewrite publish_eq. cbv zeta.
  destruct (negb (GitHubPublisher.validate_source w));
    [simpl; congruence |].
  destruct (GitHubAPI.check_repo_exists w repo_name GitHubAPI.init)
    as [[[|] | e] a1]; simpl; try congruence.
  destruct (Z.of_nat (List.length (collected (scanned w))) =? 0);
    simpl; [intros Hne Hf; exfalso;
            exact (HP _ Hne (collected_pending _) Hf) |].
  destruct (GitHubAPI.create_repository w _ a1) as [[repo | e] a2];
    simpl; [| intros Hne Hf; exfalso;
              exact (HP _ Hne (collected_pending _) Hf)].
  destruct (GitHubAPI.set_topics w repo_name _ a2) as [[[] | e] a3];
    simpl; [| intros Hne Hf; exfalso;
              exact (HP _ Hne (collected_pending _) Hf)].
  set (outcomes := attempts w format_size repo_name
                     (map FileEntry.content (collected (scanned w))) a3).
  destruct (commit_calls w repo_name commit_message _ (snd outcomes))
    as [[commit_sha | e] a5] eqn:EC; simpl; intros Hne Hf;
    rewrite (HU _ Hf) in EC; simpl in EC; inversion EC; subst.
  simpl. auto.
Qed.

(** C7, on the run of [w_refused].  The only file is FAILED, the tree
    is empty and the run has not succeeded, but the result carries no
    error. *)
Theorem no_upload_leaves_no_error :
  map FileEntry.status (GitHubPublisher.files (snd (run w_refused))) =
  [FAILED] /\
  GitHubPublisher.tree_entries (snd (run w_refused)) = [] /\
  PublishResult.success (fst (run w_refused)) = false /\
  PublishResult.error (fst (run w_refused)) = None.
Proof. vm_compute. repeat split. Qed.

(** C8, as the code has it.  With a cached login and at least one tree
    entry, when the read of [heads/main] answers with the id [c] of the
    object the branch points to (its head commit), [create_commit] of
    the publisher sends, right after that read, the tree request with
    the publisher's tree entries and [base_tree = c], the id of the
    commit itself; no other tree request follows, and a commit request
    that follows names [c] as its only parent. *)
Theorem base_tree_is_the_head_commit
    (w : World) (repo_name message : string) (self : GitHubPublisher.t)
    (u : string) (status_code : Z) (body : Json)
    (object : list (string * string)) (c : string) :
  GitHubAPI._user (GitHubPublisher.api self) = Some u ->
  truthy u = true ->
  remote w (GitHubAPI.sent (GitHubPublisher.api self))
    (head_request u repo_name) = Response status_code body ->
  status_code < 400 -> status_code <> 204 ->
  lookup "object" (objects body) = Some object ->
  lookup "sha" object = Some c ->
  truthy c = true ->
  GitHubPublisher.tree_entries self <> [] ->
  exists rest,
    GitHubAPI.sent
      (GitHubPublisher.api
         (snd (GitHubPublisher.create_commit w repo_name message self))) =
    GitHubAPI.sent (GitHubPublisher.api self) ++
    head_request u repo_name ::
    tree_request u repo_name (GitHubPublisher.tree_entries self) (Some c) ::
    rest /\
    Forall
      (fun req =>
         (forall es b, json req <> TreeJson es b) /\
         (forall m t ps, json req = CommitJson m t ps -> ps = Some [c]))
      rest.
Proof.
  intros Hu Ht Hr Hlt H204 Ho Hs Hc Hne.
  assert (Hh : GitHubAPI.get_default_branch_sha w repo_name
                 (GitHubPublisher.api self) =
               (Ok (Some c),
                after (GitHubPublisher.api self)
                  (head_request u repo_name))).
  { rewrite (get_default_branch_sha_eq w repo_name _ u Hu Ht), Hr.
    replace (400 <=? status_code) with false by (symmetry; lia).
    replace (status_code =? 204) with false by (symmetry; lia).
    now rewrite Ho, Hs. }
  destruct (commit_calls_after_head w repo_name message
              (GitHubPublisher.tree_entries self)
              (GitHubPublisher.api self) _ (Some c) u Hne Hh Hu Ht)
    as [rest [E F]].
  simpl in E, F. rewrite Hc in E, F.
  exists rest. rewrite create_commit_eq, call_eq. simpl.
  rewrite E. split.
  - now rewrite <- app_assoc.
  - exact F.
Qed.


(** * The claims on the scenarios *)

Lemma octo_reports_ids (files : list (string * option bytes)) (s : Script) :
  reports_ids (octo_world files s).
Proof.
  intros history req status_code body H.
  unfold octo_world, octo_remote, answer in H. simpl in H.
  destruct (json req);
    repeat match type of H with
           | (if ?b then _ else _) = _ => destruct b
           end;
    inversion H; subst; simpl; try discriminate.
  destruct (len content <? 4)%N; discriminate.
Qed.


(** C4 on [w_partial]: the loop goes past the refused blob, and the tree
    request of the run comes after both attempts. *)
Lemma upload_attempts_every_file_on_partial :
  fst (GitHubPublisher.upload_blobs w_partial size_text "demo"
         before_upload) = Ok 1 /\
  map FileEntry.status
    (GitHubPublisher.files
       (snd (GitHubPublisher.upload_blobs w_partial size_text "demo"
               before_upload))) = [SUCCESS; FAILED] /\
  Forall
    (fun e => FileEntry.status e = SUCCESS \/ FileEntry.status e = FAILED)
    (GitHubPublisher.files (snd (run w_partial))).
Proof.
  destruct (upload_attempts_every_file w_partial size_text "demo")
    as [H1 [_ H3]].
  destruct (H1 before_upload) as [E _]. rewrite E.
  split; [reflexivity |]. split; [reflexivity |].
  apply (H3 "a demo" "public" None "Initial commit"
           (tree_request "octo" "demo"
              [GitHubPublisher.new_tree_entry "a.txt" "b10b"]
              (Some "c0ffee"))
           [GitHubPublisher.new_tree_entry "a.txt" "b10b"]
           (Some "c0ffee")).
  - vm_compute. do 7 right. left. reflexivity.
  - reflexivity.
Defined.

(** C5 on the run of [w_big]: the file of 50 MB and one byte is FAILED,
    the only blob request is the one of the small file, and the run
    succeeds. *)
Lemma oversized_file_fails_locally_on_big :
  let big :=
    {| FileEntry.path := "big.bin";
       FileEntry.content := zeros 52428801;
       FileEntry.sha := None;
       FileEntry.status := FAILED;
       FileEntry.error := Some "File too large: large" |} in
  In big (GitHubPublisher.files (snd (run w_big))) /\
  GitHubAPI.too_large (zeros 52428801) = true /\
  GitHubAPI.sent (GitHubPublisher.api (snd (run w_big))) =
  [ user_request;
    request "GET" "/repos/octo/demo" NoPayload;
    request "POST" "/user/repos"
      (RepoJson
         {| RepoPayload.name := "demo";
            RepoPayload.description := "a demo";
            RepoPayload.private := false;
            RepoPayload.has_issues := true;
            RepoPayload.has_wiki := false;
            RepoPayload.has_projects := false;
            RepoPayload.auto_init := true;
            RepoPayload.homepage := None |});
    request "PUT" "/repos/octo/demo/topics" (TopicsJson DEFAULT_TOPICS);
    request "POST" "/repos/octo/demo/git/blobs" (BlobJson (zeros 3));
    head_request "octo" "demo";
    tree_request "octo" "demo"
      [GitHubPublisher.new_tree_entry "a.txt" "b10b"] (Some "c0ffee");
    request "POST" "/repos/octo/demo/git/commits"
      (CommitJson "Initial commit" "7ree" (Some ["c0ffee"]));
    request "PATCH" "/repos/octo/demo/git/refs/heads/main"
      (RefUpdateJson "c0mm17" true) ] /\
  PublishResult.success (fst (run w_big)) = true.
Proof.
  intros big.
  assert (Hin : In big (GitHubPublisher.files (snd (run w_big))))
    by (vm_compute; left; reflexivity).
  assert (Hbig : GitHubAPI.too_large (FileEntry.content big) = true)
    by reflexivity.
  destruct (proj2 (oversized_file_fails_locally w_big size_text "demo")
              "a demo" "public" None "Initial commit" big
              {| FileEntry.path := "a.txt";
                 FileEntry.content := zeros 3;
                 FileEntry.sha := Some "b10b";
                 FileEntry.status := SUCCESS;
                 FileEntry.error := None |}
              Hin Hbig
              ltac:(vm_compute; right; left; reflexivity)
              eq_refl)
    as [_ [_ H]].
  split; [exact Hin |]. split; [exact Hbig |]. split; [reflexivity |].
  apply H; [apply octo_reports_ids | reflexivity].
Defined.

(** C6 on the run of [w_exists]: two GET requests and the error. *)
Lemma existing_repository_is_left_alone_on_exists :
  PublishResult.success (fst (run w_exists)) = false /\
  PublishResult.error (fst (run w_exists)) =
  Some "Repository already exists" /\
  GitHubAPI.sent (GitHubPublisher.api (snd (run w_exists))) =
  [ user_request; request "GET" "/repos/octo/demo" NoPayload ].
Proof.
  destruct (existing_repository_is_left_alone w_exists size_text "demo"
              "a demo" "public" None "Initial commit"
              (snd (GitHubAPI.check_repo_exists w_exists "demo"
                      GitHubAPI.init))
              eq_refl)
    as [H1 [_ [_ [_ H5]]]].
  destruct (H5 eq_refl) as [H6 H7].
  split; [exact H1 |]. split; [exact H6 |].
  unfold run. rewrite H7. reflexivity.
Defined.

(** C3, the claim refuted on the run of [w_topics]: the repository is
    created, the topics request is refused, and the run stops as a
    failure after four requests, none of them a blob request, with both
    files still PENDING. *)
Lemma topics_failure_is_not_tolerated :
  fst (GitHubAPI.create_repository w_topics
         (GitHubPublisher.new_config "demo" "a demo" "public" None)
         octo_client) =
  Ok {| RepoResponse.id := "1";
        RepoResponse.name := "demo";
        RepoResponse.full_name := "octo/demo";
        RepoResponse.html_url := "https://github.com/octo/demo";
        RepoResponse.clone_url := "https://github.com/octo/demo.git";
        RepoResponse.ssh_url := "git@github.com:octo/demo.git";
        RepoResponse.default_branch := "main" |} /\
  fst (GitHubAPI.set_topics w_topics "demo" DEFAULT_TOPICS octo_client) =
  Raise (GitHubAPIError "topics rejected" 500) /\
  PublishResult.success (fst (run w_topics)) = false /\
  PublishResult.error (fst (run w_topics)) = Some "topics rejected" /\
  map FileEntry.status (GitHubPublisher.files (snd (run w_topics))) =
  [PENDING; PENDING] /\
  map (fun req => (method req, url req))
    (GitHubAPI.sent (GitHubPublisher.api (snd (run w_topics)))) =
  [ ("GET", "https://api.github.com/user");
    ("GET", "https://api.github.com/repos/octo/demo");
    ("POST", "https://api.github.com/user/repos");
    ("PUT", "https://api.github.com/repos/octo/demo/topics") ].
Proof. vm_compute. repeat split. Qed.

(** C3, as the code has it, on the run of [w_topics]. *)
Lemma topics_failure_aborts_the_run_on_topics :
  PublishResult.success (fst (run w_topics)) = false /\
  PublishResult.error (fst (run w_topics)) = Some "topics rejected" /\
  Forall (fun req => forall content, json req <> BlobJson content)
    (GitHubAPI.sent (GitHubPublisher.api (snd (run w_topics)))).
Proof.
  set (config := GitHubPublisher.new_config "demo" "a demo" "public" None).
  set (c1 := GitHubAPI.check_repo_exists w_topics "demo" GitHubAPI.init).
  set (c2 := GitHubAPI.create_repository w_topics config (snd c1)).
  set (c3 := GitHubAPI.set_topics w_topics "demo"
               (RepoConfig.topics config) (snd c2)).
  destruct (topics_failure_aborts_the_run w_topics size_text "demo" "a demo"
              "public" None "Initial commit" (snd c1) (snd c2) (snd c3)
              {| RepoResponse.id := "1";
                 RepoResponse.name := "demo";
                 RepoResponse.full_name := "octo/demo";
                 RepoResponse.html_url := "https://github.com/octo/demo";
                 RepoResponse.clone_url := "https://github.com/octo/demo.git";
                 RepoResponse.ssh_url := "git@github.com:octo/demo.git";
                 RepoResponse.default_branch := "main" |}
              (GitHubAPIError "topics rejected" 500)
              eq_refl eq_refl
              ltac:(simpl; discriminate)
              eq_refl eq_refl)
    as [E F].
  unfold run. rewrite E. simpl. auto.
Defined.

(** C9, the claim refuted on the run of [w_exists_empty]: the source
    directory is valid and nothing is collected, yet the error is the
    one of the existence check. *)
Lemma no_files_but_repository_exists :
  GitHubPublisher.validate_source w_exists_empty = true /\
  collected (scanned w_exists_empty) = [] /\
  GitHubPublisher.files (snd (run w_exists_empty)) = [] /\
  PublishResult.error (fst (run w_exists_empty)) =
  Some "Repository already exists" /\
  PublishResult.error (fst (run w_exists_empty)) <>
  Some "No files to upload".
Proof. vm_compute. repeat split. discriminate. Qed.

(** C9, as the code has it, on the run of [w_empty]. *)
Lemma empty_collection_after_existence_check_on_empty :
  PublishResult.success (fst (run w_empty)) = false /\
  PublishResult.error (fst (run w_empty)) = Some "No files to upload".
Proof.
  destruct (empty_collection_after_existence_check w_empty size_text "demo"
              "a demo" "public" None "Initial commit" eq_refl eq_refl)
    as [H1 [_ H3]].
  split; [exact H1 |]. unfold run. rewrite H3. reflexivity.
Defined.

(** C8, the claim refuted on [w_happy]: the branch [main] points to the
    commit [c0ffee], whose tree is [7ea5]; the one tree request of the
    run has [base_tree = c0ffee], and no request of the run has
    [base_tree = 7ea5]. *)
Lemma base_tree_is_not_the_tree_of_the_head :
  fst (GitHubAPI.get_default_branch_sha w_happy "demo" octo_client) =
  Ok (Some "c0ffee") /\
  tree_of_commit w_happy [] "octo" "demo" "c0ffee" = Some "7ea5" /\
  nth_error (GitHubAPI.sent (GitHubPublisher.api (snd (run w_happy)))) 7 =
  Some (tree_request "octo" "demo"
          [ GitHubPublisher.new_tree_entry "a.txt" "b10b";
            GitHubPublisher.new_tree_entry "dir/b.txt" "b10c" ]
          (Some "c0ffee")) /\
  Forall
    (fun req => forall entries, json req <> TreeJson entries (Some "7ea5"))
    (GitHubAPI.sent (GitHubPublisher.api (snd (run w_happy)))).
Proof.
  split; [reflexivity |]. split; [reflexivity |]. split; [reflexivity |].
  vm_compute. repeat constructor; intros; discriminate.
Qed.

(** C8, as the code has it, on [w_happy] with both files uploaded. *)
Lemma base_tree_is_the_head_commit_on_happy :
  exists rest,
    GitHubAPI.sent
      (GitHubPublisher.api
         (snd (GitHubPublisher.create_commit w_happy "demo" "Initial commit"
                 before_commit))) =
    [] ++
    head_request "octo" "demo" ::
    tree_request "octo" "demo" (GitHubPublisher.tree_entries before_commit)
      (Some "c0ffee") :: rest /\
    Forall
      (fun req =>
         (forall es b, json req <> TreeJson es b) /\
         (forall m t ps,
            json req = CommitJson m t ps -> ps = Some ["c0ffee"]))
      rest.
Proof.
  apply (base_tree_is_the_head_commit w_happy "demo" "Initial commit"
           before_commit "octo" 200
           {| scalars := [("ref", "refs/heads/main");
                          ("message", "head not readable")];
              objects := [("object", [("sha", "c0ffee");
                                      ("type", "commit")])] |}
           [("sha", "c0ffee"); ("type", "commit")]
           "c0ffee").
  - reflexivity.
  - reflexivity.
  - reflexivity.
  - lia.
  - lia.
  - reflexivity.
  - reflexivity.
  - reflexivity.
  - simpl. discriminate.
Defined.


(** * Further properties of the code *)

(** ** utils.py *)

Section WalkFacts.

Variable parts : string -> list string.
Variable name : string -> string.
Variable fnmatch : string -> string -> bool.

(** X1.  [should_skip_path] answers [True] exactly when some pattern is
    one of the components of the path or matches its name; so the
    answer does not depend on the order in which the set of patterns is
    gone through. *)
Theorem should_skip_path_iff (path : string) (skip_patterns : list string) :
  (Utils.should_skip_path parts name fnmatch path skip_patterns = true <->
   exists pattern,
     In pattern skip_patterns /\
     (In pattern (parts path) \/ fnmatch (name path) pattern = true))
  /\
  (forall other_order,
     (forall pattern, In pattern skip_patterns <-> In pattern other_order) ->
     Utils.should_skip_path parts name fnmatch path other_order =
     Utils.should_skip_path parts name fnmatch path skip_patterns).
Proof.
  assert (H : forall patterns,
            Utils.should_skip_path parts name fnmatch path patterns = true
            <->
            exists pattern,
              In pattern patterns /\
              (In pattern (parts path) \/
               fnmatch (name path) pattern = true)).
  { induction patterns as [| p ps IH]; simpl.
    - split; [discriminate | intros [p [[] _]]].
    - destruct (existsb (String.eqb p) (parts path)) eqn:E.
      + split; [intros _ | reflexivity].
        apply existsb_exists in E. destruct E as [x [Hx Ex]].
        apply String.eqb_eq in Ex. subst x. exists p. auto.
      + destruct (fnmatch (name path) p) eqn:F.
        * split; [intros _ | reflexivity]. exists p. auto.
        * rewrite IH. split.
          -- intros [q [Hq Hm]]. exists q. auto.
          -- intros [q [[Hq | Hq] Hm]]; [| exists q; auto].
             subst q. destruct Hm as [Hm | Hm]; [| congruence].
             assert (existsb (String.eqb p) (parts path) = true).
             { apply existsb_exists. exists p. split; [exact Hm |].
               apply String.eqb_refl. }
             congruence. }
  split; [apply H |].
  intros other_order Hsame.
  destruct (Utils.should_skip_path parts name fnmatch path skip_patterns)
    eqn:E1;
    destruct (Utils.should_skip_path parts name fnmatch path other_order)
      eqn:E2; try reflexivity.
  - apply H in E1. destruct E1 as [p [Hp Hm]].
    assert (Utils.should_skip_path parts name fnmatch path other_order
            = true) by (apply H; exists p; split; [now apply Hsame | auto]).
    congruence.
  - apply H in E2. destruct E2 as [p [Hp Hm]].
    assert (Utils.should_skip_path parts name fnmatch path skip_patterns
            = true) by (apply H; exists p; split; [now apply Hsame | auto]).
    congruence.
Qed.

Lemma insert_sorted_perm (item : Utils.Item) (l : list Utils.Item) :
  Permutation (Utils.insert_sorted item l) (item :: l).
Proof.
  induction l as [| other l IH]; simpl; [reflexivity |].
  destruct (String.leb _ _); [reflexivity |].
  rewrite IH. apply perm_swap.
Qed.

Lemma sorted_perm (l : list Utils.Item) :
  Permutation (Utils.sorted l) l.
Proof.
  induction l as [| item l IH]; simpl; [reflexivity |].
  rewrite insert_sorted_perm. now constructor.
Qed.

Lemma insert_sorted_sorted (item : Utils.Item) (l : list Utils.Item) :
  Sorted by_path l -> Sorted by_path (Utils.insert_sorted item l).
Proof.
  induction l as [| other l IH]; intros HS; simpl.
  - repeat constructor.
  - destruct (String.leb (Utils.path_str item) (Utils.path_str other))
      eqn:E.
    + constructor; [exact HS |]. constructor. exact E.
    + inversion HS as [| ? ? HS' HR]; subst.
      constructor; [now apply IH |].
      assert (HO : by_path other item).
      { destruct (String.leb_total (Utils.path_str item)
                    (Utils.path_str other)); [congruence | assumption]. }
      destruct l as [| next l]; simpl.
      * constructor. exact HO.
      * destruct (String.leb (Utils.path_str item) (Utils.path_str next));
          constructor; [exact HO |].
        now inversion HR.
Qed.

Lemma kept_in (items : list Utils.Item) (skip_patterns : list string)
    (item : Utils.Item) :
  In item (Utils.kept parts name fnmatch items skip_patterns) <->
  In item items /\ Utils.is_file item = true /\
  (Utils.should_include_file name (Utils.relative item) = true \/
   Utils.should_skip_path parts name fnmatch (Utils.relative item)
     skip_patterns = false).
Proof.
  induction items as [| i items IH]; simpl; [tauto |].
  destruct (Utils.is_file i) eqn:F.
  - destruct (Utils.should_include_file name (Utils.relative i)) eqn:I.
    + simpl. rewrite IH. split.
      * intros [E | H]; [subst; auto | tauto].
      * tauto.
    + destruct (Utils.should_skip_path parts name fnmatch
                  (Utils.relative i) skip_patterns) eqn:S.
      * rewrite IH. split; [tauto |].
        intros [[E | H] [Hf [Hi | Hs]]]; subst; try congruence; tauto.
      * simpl. rewrite IH. split.
        -- intros [E | H]; [subst; auto | tauto].
        -- tauto.
  - rewrite IH. split; [tauto |].
    intros [[E | H] [Hf Hr]]; subst; [congruence | tauto].
Qed.

Lemma collect_files_in (items : list Utils.Item)
    (skip_patterns : list string) (item : Utils.Item) :
  In item (Utils.collect_files parts name fnmatch items skip_patterns) <->
  In item (Utils.kept parts name fnmatch items skip_patterns).
Proof.
  unfold Utils.collect_files. split; intros H.
  - eapply Permutation_in; [apply sorted_perm | exact H].
  - eapply Permutation_in; [symmetry; apply sorted_perm | exact H].
Qed.

(** X2.  [collect_files] returns exactly the items of the walk that are
    files and are either named in ALWAYS_INCLUDE or not skipped: no
    directory, and nothing that was not in the walk. *)
Theorem collect_files_keeps (items : list Utils.Item)
    (skip_patterns : list string) (item : Utils.Item) :
  In item (Utils.collect_files parts name fnmatch items skip_patterns) <->
  In item items /\ Utils.is_file item = true /\
  (Utils.should_include_file name (Utils.relative item) = true \/
   Utils.should_skip_path parts name fnmatch (Utils.relative item)
     skip_patterns = false).
Proof.
  rewrite collect_files_in. apply kept_in.
Qed.

(** X3.  A file whose name is in ALWAYS_INCLUDE is collected whatever
    the patterns say, also when one of its directories is a skipped
    one. *)
Theorem always_included_file_is_collected (items : list Utils.Item)
    (skip_patterns : list string) (item : Utils.Item) :
  In item items -> Utils.is_file item = true ->
  In (name (Utils.relative item)) ALWAYS_INCLUDE ->
  In item (Utils.collect_files parts name fnmatch items skip_patterns).
Proof.
  intros Hin Hf Hn. apply collect_files_in. apply kept_in.
  split; [exact Hin |]. split; [exact Hf |]. left.
  unfold Utils.should_include_file. apply existsb_exists.
  exists (name (Utils.relative item)). split; [exact Hn |].
  apply String.eqb_refl.
Qed.

(** X4.  The list [collect_files] returns is in ascending order of
    [str(path)] and has the files kept by the loop, each as often as
    the walk gave it. *)
Theorem collect_files_sorted (items : list Utils.Item)
    (skip_patterns : list string) :
  Sorted by_path (Utils.collect_files parts name fnmatch items skip_patterns)
  /\
  Permutation (Utils.collect_files parts name fnmatch items skip_patterns)
    (Utils.kept parts name fnmatch items skip_patterns).
Proof.
  unfold Utils.collect_files. split; [| apply sorted_perm].
  induction (Utils.kept parts name fnmatch items skip_patterns)
    as [| item l IH]; simpl; [constructor |].
  now apply insert_sorted_sorted.
Qed.

End WalkFacts.

(** ** api.py *)

Section ClientExtras.

Variable w : World.
Variable format_size : N -> string.

(** X5.  Once [user] has returned a non-empty login, it returns that
    login again without sending anything; and the call that returned it
    either found it cached or sent the one request [GET /user]. *)
Theorem login_is_looked_up_once (a a1 : GitHubAPI.t) (u : string) :
  GitHubAPI.user w a = (Ok u, a1) -> truthy u = true ->
  GitHubAPI.user w a1 = (Ok u, a1) /\
  (a1 = a \/ GitHubAPI.sent a1 = GitHubAPI.sent a ++ [user_request]).
Proof.
  intros H Ht. unfold GitHubAPI.user in H. unfold bind at 1 in H.
  unfold get in H.
  destruct (truthy_opt (GitHubAPI._user a)) eqn:C; simpl in H.
  - unfold ret in H. inversion H; subst a1. clear H.
    destruct (GitHubAPI._user a) as [v |] eqn:V; [| discriminate].
    simpl in C. subst u. split; [| now left].
    now apply user_cached.
  - unfold bind at 1 in H. unfold GitHubAPI.get_authenticated_user in H.
    unfold bind at 1 in H. rewrite _request_eq in H.
    destruct (match remote w _ _ with
              | RequestException _ => _ | Response _ _ => _ end)
      as [data | e]; [| discriminate].
    simpl in H. inversion H; subst. clear H. split; [| now right].
    now apply user_cached.
Qed.

(** X6.  A login that comes back empty (the answer has no [login], or
    an empty one) is not kept: the next use of [user] asks again. *)
Theorem empty_login_is_asked_again (a a1 : GitHubAPI.t) (u : string) :
  GitHubAPI.user w a = (Ok u, a1) -> truthy u = false ->
  GitHubAPI.sent (snd (GitHubAPI.user w a1)) =
  GitHubAPI.sent a1 ++ [user_request].
Proof.
  intros H Ht. unfold GitHubAPI.user in H. unfold bind at 1 in H.
  unfold get in H.
  destruct (truthy_opt (GitHubAPI._user a)) eqn:C; simpl in H.
  - unfold ret in H. inversion H; subst.
    destruct (GitHubAPI._user a1) as [v |]; [| discriminate].
    simpl in C. congruence.
  - unfold bind at 1 in H. unfold GitHubAPI.get_authenticated_user in H.
    unfold bind at 1 in H. rewrite _request_eq in H.
    destruct (match remote w _ _ with
              | RequestException _ => _ | Response _ _ => _ end)
      as [data | e]; [| discriminate].
    simpl in H. inversion H; subst. clear H.
    unfold GitHubAPI.user, bind, get. simpl. rewrite Ht. simpl.
    unfold GitHubAPI.get_authenticated_user, bind. rewrite _request_eq.
    simpl.
    destruct (match remote w _ _ with
              | RequestException _ => _ | Response _ _ => _ end);
      reflexivity.
Qed.

(** X7.  With a cached login [check_repo_exists] sends the one question
    about the repository and answers by its status: [True] below 400,
    [False] on 404 and on 404 only, and on any other refusal it raises
    the error of the remote with its status (0 and ["Network error:
    ..."] when the request did not get through). *)
Theorem check_repo_exists_by_status (repo_name : string) (a : GitHubAPI.t)
    (u : string) :
  GitHubAPI._user a = Some u -> truthy u = true ->
  GitHubAPI.check_repo_exists w repo_name a =
  (match remote w (GitHubAPI.sent a) (repo_request u repo_name) with
   | RequestException text =>
       Raise (GitHubAPIError ("Network error: " ++ text) 0)
   | Response status_code body =>
       if status_code <? 400 then Ok true
       else if status_code =? 404 then Ok false
       else Raise (GitHubAPIError
                     (GitHubAPI.get_default (scalars body) "message"
                        "Unknown error") status_code)
   end,
   after a (repo_request u repo_name)).
Proof.
  intros Hu Ht. unfold GitHubAPI.check_repo_exists, except_api.
  unfold bind at 1. rewrite (user_cached w a u Hu Ht).
  unfold bind at 1. rewrite _request_eq.
  fold (repo_request u repo_name). fold (after a (repo_request u repo_name)).
  destruct (remote w (GitHubAPI.sent a) (repo_request u repo_name))
    as [text | code body]; [reflexivity |].
  destruct (Z.ltb_spec code 400) as [L | L].
  - replace (400 <=? code) with false by (symmetry; lia).
    destruct (code =? 204); reflexivity.
  - replace (400 <=? code) with true by (symmetry; lia).
    destruct (code =? 404); reflexivity.
Qed.

(** X8.  When no login is cached and the remote answers 404 to
    [GET /user], [check_repo_exists] answers [False] without having
    asked about the repository. *)
Theorem check_repo_exists_on_unknown_user (repo_name : string)
    (a : GitHubAPI.t) (body : Json) :
  truthy_opt (GitHubAPI._user a) = false ->
  remote w (GitHubAPI.sent a) user_request = Response 404 body ->
  GitHubAPI.check_repo_exists w repo_name a = (Ok false, after a user_request).
Proof.
  intros Hu Hr. unfold GitHubAPI.check_repo_exists, except_api.
  unfold bind at 1. unfold GitHubAPI.user. unfold bind at 1. unfold get.
  rewrite Hu. simpl. unfold bind at 1.
  unfold GitHubAPI.get_authenticated_user. unfold bind at 1.
  rewrite _request_eq. fold user_request. rewrite Hr. reflexivity.
Qed.

(** X9.  When the remote accepts the creation (a status below 400 other
    than 204), [create_repository] returns the repository exactly when
    the answer has the six members it reads, [default_branch] falling
    back to ["main"]; otherwise it raises the [KeyError] of the first
    member missing.  Either way the request has been sent. *)
Theorem create_repository_needs_its_members (config : RepoConfig.t)
    (a : GitHubAPI.t) (status_code : Z) (body : Json) :
  remote w (GitHubAPI.sent a) (create_request config) =
  Response status_code body ->
  status_code < 400 -> status_code <> 204 ->
  GitHubAPI.create_repository w config a =
  (match find (fun key =>
                 match lookup key (scalars body) with
                 | Some _ => false
                 | None => true
                 end) required_members with
   | Some key => Raise (key_error key)
   | None =>
       let member key := GitHubAPI.get_default (scalars body) key "" in
       Ok {| RepoResponse.id := member "id";
             RepoResponse.name := member "name";
             RepoResponse.full_name := member "full_name";
             RepoResponse.html_url := member "html_url";
             RepoResponse.clone_url := member "clone_url";
             RepoResponse.ssh_url := member "ssh_url";
             RepoResponse.default_branch :=
               GitHubAPI.get_default (scalars body) "default_branch" "main"
          |}
   end,
   after a (create_request config)).
Proof.
  intros Hr Hlt H204. unfold GitHubAPI.create_repository.
  fold (repo_payload config). unfold bind at 1. rewrite _request_eq.
  fold (create_request config). rewrite Hr.
  replace (400 <=? status_code) with false by (symmetry; lia).
  replace (status_code =? 204) with false by (symmetry; lia).
  fold (after a (create_request config)).
  unfold required_members, key_error, GitHubAPI.get_default,
    GitHubAPI.item, bind, ret, raise. simpl.
  destruct (lookup "id" (scalars body)); [| reflexivity].
  destruct (lookup "name" (scalars body)); [| reflexivity].
  destruct (lookup "full_name" (scalars body)); [| reflexivity].
  destruct (lookup "html_url" (scalars body)); [| reflexivity].
  destruct (lookup "clone_url" (scalars body)); [| reflexivity].
  destruct (lookup "ssh_url" (scalars body)); reflexivity.
Qed.

Lemma user_raises_api_errors (a : GitHubAPI.t) (e : exn) :
  fst (GitHubAPI.user w a) = Raise e ->
  exists message status_code, e = GitHubAPIError message status_code.
Proof.
  unfold GitHubAPI.user, bind, get. simpl.
  destruct (negb (truthy_opt (GitHubAPI._user a))); [| discriminate].
  unfold GitHubAPI.get_authenticated_user, bind. rewrite _request_eq.
  destruct (remote w _ _) as [text | code body]; simpl.
  - intros H. inversion H. eauto.
  - destruct (400 <=? code); simpl.
    + intros H. inversion H. eauto.
    + destruct (code =? 204); discriminate.
Qed.

(** X10.  Whatever goes wrong in [create_blob], what it raises is one
    of: the local ["File too large: ..."]; an API error whose message
    starts with ["Blob create failed: "] (the error of the blob request
    or of the login lookup, with its status); or the [KeyError] of a
    missing [sha] or [url] in an accepted answer.  No error of the
    remote gets out unwrapped. *)
Theorem create_blob_raises (repo_name : string) (content : bytes)
    (a : GitHubAPI.t) (e : exn) :
  fst (GitHubAPI.create_blob w format_size repo_name content a) = Raise e ->
  e = GitHubAPIError ("File too large: " ++ format_size (len content)) 0 \/
  (exists message status_code,
     e = GitHubAPIError ("Blob create failed: " ++ message) status_code) \/
  e = key_error "sha" \/ e = key_error "url".
Proof.
  unfold GitHubAPI.create_blob.
  destruct (GitHubAPI.too_large content).
  { simpl. intros H. inversion H. now left. }
  unfold except_api.
  match goal with
  | |- fst (match ?body a with _ => _ end) = _ -> _ =>
      destruct (body a) as [[blob | [message status_code | text]] a1] eqn:E
  end; simpl.
  - discriminate.
  - intros H. inversion H. right. left. eauto.
  - intros H. inversion H; subst. clear H. right. right.
    unfold bind at 1 in E.
    destruct (GitHubAPI.user w a) as [[u | e1] a0] eqn:EU.
    + unfold bind at 1 in E. rewrite _request_eq in E.
      destruct (match remote w _ _ with
                | RequestException _ => _ | Response _ _ => _ end)
        as [data | e2] eqn:ER.
      * unfold bind, GitHubAPI.item, ret, raise in E.
        destruct (lookup "sha" (scalars data)).
        -- destruct (lookup "url" (scalars data)); inversion E. now right.
        -- inversion E. now left.
      * inversion E; subst.
        destruct (remote w _ _) as [t | code body]; [discriminate |].
        destruct (400 <=? code); [discriminate |].
        destruct (code =? 204); discriminate.
    + inversion E; subst.
      destruct (user_raises_api_errors a (PyException text))
        as [m [c HX]]; [now rewrite EU | discriminate].
Qed.

(** X11.  With a cached login [get_default_branch_sha] returns a sha
    exactly when the read of the head is accepted with a body that has
    [object.sha]; an accepted answer without [object] raises a
    [KeyError], which is not an API error and is not turned into
    [None]. *)
Theorem get_default_branch_sha_reads_object_sha (repo_name : string)
    (a : GitHubAPI.t) (u : string) :
  GitHubAPI._user a = Some u -> truthy u = true ->
  (forall c,
     fst (GitHubAPI.get_default_branch_sha w repo_name a) = Ok (Some c) <->
     exists status_code body object,
       remote w (GitHubAPI.sent a) (head_request u repo_name) =
       Response status_code body /\
       status_code < 400 /\ status_code <> 204 /\
       lookup "object" (objects body) = Some object /\
       lookup "sha" object = Some c)
  /\
  (forall status_code body,
     remote w (GitHubAPI.sent a) (head_request u repo_name) =
     Response status_code body ->
     status_code < 400 ->
     lookup "object" (objects body) = None ->
     fst (GitHubAPI.get_default_branch_sha w repo_name a) =
     Raise (key_error "object")).
Proof.
  intros Hu Ht. rewrite (get_default_branch_sha_eq w repo_name a u Hu Ht).
  simpl. split.
  - intros c. split.
    + destruct (remote w (GitHubAPI.sent a) (head_request u repo_name))
        as [text | code body]; [discriminate |].
      destruct (Z.leb_spec 400 code) as [L | L]; [discriminate |].
      destruct (Z.eqb_spec code 204) as [E | E]; [discriminate |].
      destruct (lookup "object" (objects body)) as [object |] eqn:O;
        [| discriminate].
      destruct (lookup "sha" object) as [sha |] eqn:S; [| discriminate].
      intros H. inversion H; subst. exists code, body, object.
      repeat split; auto.
    + intros [code [body [object [Hr [Hlt [H204 [Ho Hs]]]]]]].
      rewrite Hr.
      replace (400 <=? code) with false by (symmetry; lia).
      replace (code =? 204) with false by (symmetry; lia).
      now rewrite Ho, Hs.
  - intros code body Hr Hlt Ho. rewrite Hr.
    replace (400 <=? code) with false by (symmetry; lia).
    destruct (code =? 204); [reflexivity |]. now rewrite Ho.
Qed.

End ClientExtras.

(** ** publisher.py: what a run sends *)

Section RunRequests.

Variable w : World.
Variable format_size : N -> string.

Lemma sends_create_repository_exact (P : Request -> Prop)
    (config : RepoConfig.t) :
  P (create_request config) ->
  sends P (GitHubAPI.create_repository w config).
Proof.
  intros HP. unfold GitHubAPI.create_repository.
  fold (repo_payload config). sends_steps.
Qed.

Lemma sends_create_blob_small (P : Request -> Prop) (repo_name : string)
    (content : bytes) :
  P user_request ->
  (GitHubAPI.too_large content = false ->
   forall u, P (blob_request u repo_name content)) ->
  sends P (GitHubAPI.create_blob w format_size repo_name content).
Proof.
  intros HU HP. unfold GitHubAPI.create_blob.
  destruct (GitHubAPI.too_large content); [sends_steps |].
  specialize (HP eq_refl). unfold blob_request in HP. sends_steps.
Qed.

Lemma sends_update_ref_exact (P : Request -> Prop)
    (repo_name ref sha : string) (force : bool) :
  P user_request ->
  (forall u, P (ref_request u repo_name ref sha force)) ->
  sends P (GitHubAPI.update_ref w repo_name ref sha force).
Proof.
  intros HU HP. unfold ref_request in HP.
  unfold GitHubAPI.update_ref. sends_steps.
Qed.

Lemma attempts_all_small (P : Request -> Prop) (repo_name : string)
    (contents : list bytes) :
  P user_request ->
  (forall c u,
     In c contents -> GitHubAPI.too_large c = false ->
     P (blob_request u repo_name c)) ->
  forall a,
    Forall P (GitHubAPI.sent a) ->
    Forall P
      (GitHubAPI.sent (snd (attempts w format_size repo_name contents a))).
Proof.
  intros HU. induction contents as [| c cs IH]; intros HB a Ha; simpl.
  - exact Ha.
  - pose proof (sends_all P _ a
                  (sends_create_blob_small P repo_name c HU
                     (fun Hs u => HB c u (or_introl eq_refl) Hs)) Ha)
      as H1.
    destruct (GitHubAPI.create_blob w format_size repo_name c a) as [r a1].
    simpl in H1.
    assert (IH' := IH (fun c' u Hin => HB c' u (or_intror Hin)) a1 H1).
    destruct (attempts w format_size repo_name cs a1) as [rs a2].
    exact IH'.
Qed.

Lemma sends_commit_calls_exact (P : Request -> Prop)
    (repo_name message : string) (entries : list TreeEntry.t) :
  (forall endpoint, P (request "GET" endpoint NoPayload)) ->
  (forall u base_tree, P (tree_request u repo_name entries base_tree)) ->
  (forall u tree_sha parents,
     P (commit_request u repo_name message tree_sha parents)) ->
  (forall u sha, P (ref_request u repo_name "heads/main" sha true)) ->
  sends P (commit_calls w repo_name message entries).
Proof.
  intros HG HT HC HR. assert (HU : P user_request) by apply HG.
  unfold tree_request in HT. unfold commit_request in HC.
  unfold commit_calls. destruct entries as [| t ts].
  - apply sends_ret.
  - apply sends_bind; [now apply sends_get_default_branch_sha |].
    intros parent_sha.
    apply sends_bind; [unfold GitHubAPI.create_tree; sends_steps |].
    intros tree.
    apply sends_bind;
      [unfold GitHubAPI.create_commit; sends_steps |].
    intros commit.
    apply sends_bind; [apply sends_update_ref_exact; auto |]. intros _.
    apply sends_ret.
Qed.

(** The requests of a run, each kind with what it carries. *)
Lemma publish_requests (P : Request -> Prop)
    (repo_name description visibility : string)
    (topics : option (list string)) (commit_message : string) :
  let config :=
    GitHubPublisher.new_config repo_name description visibility topics in
  let p :=
    snd (GitHubPublisher.publish w format_size repo_name description
           visibility topics commit_message GitHubPublisher.init) in
  (forall endpoint, P (request "GET" endpoint NoPayload)) ->
  P (create_request config) ->
  (forall endpoint,
     P (request "PUT" endpoint (TopicsJson (RepoConfig.topics config)))) ->
  (forall e u,
     In e (collected (scanned w)) ->
     GitHubAPI.too_large (FileEntry.content e) = false ->
     P (blob_request u repo_name (FileEntry.content e))) ->
  (forall u entries base_tree,
     P (tree_request u repo_name entries base_tree)) ->
  (forall u tree_sha parents,
     P (commit_request u repo_name commit_message tree_sha parents)) ->
  (forall u sha, P (ref_request u repo_name "heads/main" sha true)) ->
  Forall P (GitHubAPI.sent (GitHubPublisher.api p)).
Proof.
  intros config p HG HR HT HB HTr HC HRef. unfold p.
  rewrite publish_eq. cbv zeta. fold config.
  assert (HU : P user_request) by apply HG.
  destruct (negb (GitHubPublisher.validate_source w)); [constructor |].
  pose proof (sends_all P _ GitHubAPI.init
                (sends_check_repo_exists w P repo_name HG)
                (Forall_nil P)) as H1.
  destruct (GitHubAPI.check_repo_exists w repo_name GitHubAPI.init)
    as [[[|] | e] a1]; simpl in *; try exact H1.
  destruct (Z.of_nat (List.length (collected (scanned w))) =? 0);
    [exact H1 |].
  pose proof (sends_all P _ a1
                (sends_create_repository_exact P config HR) H1) as H2.
  destruct (GitHubAPI.create_repository w config a1) as [[repo | e] a2];
    simpl in *; [| exact H2].
  pose proof (sends_all P _ a2
                (sends_set_topics w P repo_name (RepoConfig.topics config)
                   HU HT) H2) as H3.
  destruct (GitHubAPI.set_topics w repo_name _ a2) as [[[] | e] a3];
    simpl in *; [| exact H3].
  assert (H4 : Forall P
                 (GitHubAPI.sent
                    (snd (attempts w format_size repo_name
                            (map FileEntry.content (collected (scanned w)))
                            a3)))).
  { apply attempts_all_small; [exact HU | | exact H3].
    intros c u Hin Hs. apply in_map_iff in Hin.
    destruct Hin as [e [E Hin]]. subst c. now apply HB. }
  set (outcomes := attempts w format_size repo_name
                     (map FileEntry.content (collected (scanned w))) a3)
    in *.
  pose proof (sends_all P _ (snd outcomes)
                (sends_commit_calls_exact P repo_name commit_message
                   (uploaded_tree
                      (mark (collected (scanned w)) (fst outcomes)))
                   HG (fun u b => HTr u _ b) HC HRef) H4) as H5.
  destruct (commit_calls w repo_name commit_message _ (snd outcomes))
    as [[commit_sha | e] a5]; simpl in *; exact H5.
Qed.

(** X12.  A run creates the repository as it was asked to: a request
    that creates a repository is the one of the configuration of the
    run, named [repo_name], private exactly when [visibility] is the
    string ["private"], always with [auto_init], never with a
    homepage. *)
Theorem repository_is_created_as_configured
    (repo_name description visibility : string)
    (topics : option (list string)) (commit_message : string)
    (req : Request) (payload : RepoPayload.t) :
  let p :=
    snd (GitHubPublisher.publish w format_size repo_name description
           visibility topics commit_message GitHubPublisher.init) in
  In req (GitHubAPI.sent (GitHubPublisher.api p)) ->
  json req = RepoJson payload ->
  method req = "POST" /\
  url req = (GITHUB_API_BASE ++ "/user/repos")%string /\
  RepoPayload.name payload = repo_name /\
  RepoPayload.description payload = description /\
  RepoPayload.private payload = (visibility =? "private")%string /\
  RepoPayload.auto_init payload = true /\
  RepoPayload.homepage payload = None /\
  RepoPayload.has_issues payload = true /\
  RepoPayload.has_wiki payload = false /\
  RepoPayload.has_projects payload = false.
Proof.
  intros p Hin Hj.
  set (config := GitHubPublisher.new_config repo_name description
                   visibility topics).
  assert (HA : Forall
                 (fun r => forall pl, json r = RepoJson pl ->
                           r = create_request config)
                 (GitHubAPI.sent (GitHubPublisher.api p))).
  { apply (publish_requests
             (fun r => forall pl, json r = RepoJson pl ->
                       r = create_request config));
      intros; simpl in *; try discriminate; reflexivity. }
  rewrite Forall_forall in HA. specialize (HA req Hin payload Hj).
  subst req. simpl in Hj. inversion Hj; subst payload. simpl.
  repeat split; try reflexivity.
  destruct (visibility =? "private")%string; reflexivity.
Qed.

(** X13.  A run never sends an empty list of topics: a topics request
    carries the topics given when there is at least one, and
    DEFAULT_TOPICS otherwise. *)
Theorem topics_sent_are_never_empty
    (repo_name description visibility : string)
    (topics : option (list string)) (commit_message : string)
    (req : Request) (names : list string) :
  let p :=
    snd (GitHubPublisher.publish w format_size repo_name description
           visibility topics commit_message GitHubPublisher.init) in
  In req (GitHubAPI.sent (GitHubPublisher.api p)) ->
  json req = TopicsJson names ->
  method req = "PUT" /\
  names <> [] /\
  names = match topics with
          | Some (t :: ts) => t :: ts
          | _ => DEFAULT_TOPICS
          end.
Proof.
  intros p Hin Hj.
  set (given := match topics with
                | Some (t :: ts) => t :: ts
                | _ => DEFAULT_TOPICS
                end).
  assert (HA : Forall
                 (fun r => forall ns, json r = TopicsJson ns ->
                           method r = "PUT" /\ ns = given)
                 (GitHubAPI.sent (GitHubPublisher.api p))).
  { apply (publish_requests
             (fun r => forall ns, json r = TopicsJson ns ->
                       method r = "PUT" /\ ns = given));
      intros; simpl in *; try discriminate.
    match goal with H : TopicsJson _ = TopicsJson _ |- _ =>
      inversion H end. split; reflexivity. }
  rewrite Forall_forall in HA. destruct (HA req Hin names Hj) as [Hm Hn].
  split; [exact Hm |]. split; [| exact Hn].
  subst names. unfold given.
  destruct topics as [[| t ts] |]; discriminate.
Qed.

(** X14.  A run never posts a blob over the size limit: the content of
    a blob request is the content of a collected file and is at most
    50 * 1024 * 1024 bytes long. *)
Theorem blobs_sent_are_within_the_limit
    (repo_name description visibility : string)
    (topics : option (list string)) (commit_message : string)
    (req : Request) (content : bytes) :
  let p :=
    snd (GitHubPublisher.publish w format_size repo_name description
           visibility topics commit_message GitHubPublisher.init) in
  In req (GitHubAPI.sent (GitHubPublisher.api p)) ->
  json req = BlobJson content ->
  method req = "POST" /\
  Z.of_N (len content) <= 50 * 1024 * 1024 /\
  exists e, In e (collected (scanned w)) /\ FileEntry.content e = content.
Proof.
  intros p Hin Hj.
  assert (HA : Forall
                 (fun r => forall c, json r = BlobJson c ->
                    method r = "POST" /\
                    GitHubAPI.too_large c = false /\
                    exists e, In e (collected (scanned w)) /\
                              FileEntry.content e = c)
                 (GitHubAPI.sent (GitHubPublisher.api p))).
  { apply (publish_requests
             (fun r => forall c, json r = BlobJson c ->
                method r = "POST" /\
                GitHubAPI.too_large c = false /\
                exists e, In e (collected (scanned w)) /\
                          FileEntry.content e = c));
      intros; simpl in *; try discriminate.
    match goal with H : BlobJson _ = BlobJson _ |- _ =>
      inversion H; subst end.
    split; [reflexivity |]. split; [assumption |]. eauto. }
  rewrite Forall_forall in HA.
  destruct (HA req Hin content Hj) as [Hm [Hs He]].
  split; [exact Hm |]. split; [| exact He].
  unfold GitHubAPI.too_large, MAX_FILE_SIZE_MB in Hs. lia.
Qed.

(** X15.  The only thing a run does to a git reference is a forced
    update of [heads/main]: it never creates a reference, never updates
    without [force], and never updates another branch, whatever default
    branch the new repository reports. *)
Theorem only_main_is_updated_and_forced
    (repo_name description visibility : string)
    (topics : option (list string)) (commit_message : string)
    (req : Request) :
  let p :=
    snd (GitHubPublisher.publish w format_size repo_name description
           visibility topics commit_message GitHubPublisher.init) in
  In req (GitHubAPI.sent (GitHubPublisher.api p)) ->
  touches_ref req ->
  exists u sha, req = ref_request u repo_name "heads/main" sha true.
Proof.
  intros p Hin Ht.
  assert (HA : Forall
                 (fun r => touches_ref r ->
                    exists u sha,
                      r = ref_request u repo_name "heads/main" sha true)
                 (GitHubAPI.sent (GitHubPublisher.api p))).
  { apply (publish_requests
             (fun r => touches_ref r ->
                exists u sha,
                  r = ref_request u repo_name "heads/main" sha true));
      unfold touches_ref; intros; simpl in *; try contradiction.
    eauto. }
  rewrite Forall_forall in HA. exact (HA req Hin Ht).
Qed.

End RunRequests.

(** ** publisher.py: the result of a run *)

Section RunResult.

Variable w : World.
Variable format_size : N -> string.

Lemma update_ref_ok (repo_name ref sha : string) (force : bool)
    (a a' : GitHubAPI.t) :
  GitHubAPI.update_ref w repo_name ref sha force a = (Ok tt, a') ->
  exists pre u,
    GitHubAPI.sent a' =
    GitHubAPI.sent a ++ pre ++ [ref_request u repo_name ref sha force] /\
    Forall (fun r => ~ touches_ref r) pre /\
    ~ refused (remote w (GitHubAPI.sent a ++ pre)
                 (ref_request u repo_name ref sha force)).
Proof.
  unfold GitHubAPI.update_ref. unfold bind at 1.
  destruct (sends_user w (fun r => ~ touches_ref r)
              (fun H : touches_ref user_request => H) a) as [pre [E F]].
  destruct (GitHubAPI.user w a) as [[u | e] a1]; [| discriminate].
  simpl in E. unfold bind at 1. rewrite _request_eq.
  fold (ref_request u repo_name ref sha force). rewrite E.
  destruct (remote w (GitHubAPI.sent a ++ pre)
              (ref_request u repo_name ref sha force))
    as [text | code body] eqn:R; [discriminate |].
  destruct (Z.leb_spec 400 code) as [L | L]; [discriminate |].
  intros H. exists pre, u. rewrite R. simpl.
  split; [| split; [exact F | lia]].
  destruct (code =? 204); inversion H; subst; simpl;
    now rewrite <- app_assoc.
Qed.

Lemma commit_calls_ok (repo_name message : string)
    (entries : list TreeEntry.t) (a a' : GitHubAPI.t) (sha : string) :
  commit_calls w repo_name message entries a = (Ok (Some sha), a') ->
  exists pre u,
    GitHubAPI.sent a' =
    GitHubAPI.sent a ++ pre ++
    [ref_request u repo_name "heads/main" sha true] /\
    Forall (fun r => ~ touches_ref r) pre /\
    ~ refused (remote w (GitHubAPI.sent a ++ pre)
                 (ref_request u repo_name "heads/main" sha true)).
Proof.
  set (P := fun r : Request => ~ touches_ref r).
  assert (HG : forall endpoint, P (request "GET" endpoint NoPayload))
    by (intros endpoint H; exact H).
  assert (HU : P user_request) by apply HG.
  unfold commit_calls. destruct entries as [| t ts]; [discriminate |].
  unfold bind at 1.
  destruct (sends_get_default_branch_sha w P repo_name HG a)
    as [e1 [E1 F1]].
  destruct (GitHubAPI.get_default_branch_sha w repo_name a)
    as [[parent_sha | e] a1]; [| discriminate].
  simpl in E1. unfold bind at 1.
  destruct (sends_create_tree w P repo_name (t :: ts) parent_sha HU
              (fun endpoint H => H) a1) as [e2 [E2 F2]].
  destruct (GitHubAPI.create_tree w repo_name (t :: ts) parent_sha a1)
    as [[tree | e] a2]; [| discriminate].
  simpl in E2. unfold bind at 1.
  destruct (sends_create_commit w P repo_name message
              (TreeResponse.sha tree) parent_sha HU
              (fun endpoint H => H) a2) as [e3 [E3 F3]].
  destruct (GitHubAPI.create_commit w repo_name message _ parent_sha a2)
    as [[commit | e] a3]; [| discriminate].
  simpl in E3. unfold bind at 1.
  destruct (GitHubAPI.update_ref w repo_name "heads/main"
              (CommitResponse.sha commit) true a3)
    as [[[] | e] a4] eqn:E4; [| discriminate].
  unfold ret. intros H. inversion H; subst. clear H.
  destruct (update_ref_ok _ _ _ _ _ _ E4) as [e4 [u [E5 [F4 R]]]].
  exists (e1 ++ e2 ++ e3 ++ e4), u.
  rewrite E5, E3, E2, E1 in *. rewrite <- !app_assoc in *.
  split; [reflexivity |]. split; [| exact R].
  repeat (apply Forall_app; split); assumption.
Qed.

(** X16.  A run that reports success reports no error and the id of the
    commit; the last request it sent is the forced update of
    [heads/main] to that commit, the remote accepted it, and no
    reference was touched before. *)
Theorem success_means_main_was_moved_last
    (repo_name description visibility : string)
    (topics : option (list string)) (commit_message : string) :
  let run :=
    GitHubPublisher.publish w format_size repo_name description visibility
      topics commit_message GitHubPublisher.init in
  PublishResult.success (fst run) = true ->
  PublishResult.error (fst run) = None /\
  truthy (PublishResult.commit_sha (fst run)) = true /\
  exists pre u,
    GitHubAPI.sent (GitHubPublisher.api (snd run)) =
    pre ++ [ref_request u repo_name "heads/main"
              (PublishResult.commit_sha (fst run)) true] /\
    Forall (fun r => ~ touches_ref r) pre /\
    ~ refused (remote w pre
                 (ref_request u repo_name "heads/main"
                    (PublishResult.commit_sha (fst run)) true)).
Proof.
  cbv zeta. rewrite publish_eq. cbv zeta.
  set (P := fun r : Request => ~ touches_ref r).
  assert (HG : forall endpoint, P (request "GET" endpoint NoPayload))
    by (intros endpoint H; exact H).
  assert (HU : P user_request) by apply HG.
  destruct (negb (GitHubPublisher.validate_source w)); [discriminate |].
  pose proof (sends_all P _ GitHubAPI.init
                (sends_check_repo_exists w P repo_name HG)
                (Forall_nil P)) as H1.
  destruct (GitHubAPI.check_repo_exists w repo_name GitHubAPI.init)
    as [[[|] | e] a1]; simpl in *; try discriminate.
  destruct (Z.of_nat (List.length (collected (scanned w))) =? 0);
    [discriminate |].
  pose proof (sends_all P _ a1
                (sends_create_repository w P
                   (GitHubPublisher.new_config repo_name description
                      visibility topics) (fun payload H => H)) H1) as H2.
  destruct (GitHubAPI.create_repository w _ a1) as [[repo | e] a2];
    simpl in *; [| discriminate].
  pose proof (sends_all P _ a2
                (sends_set_topics w P repo_name
                   (RepoConfig.topics
                      (GitHubPublisher.new_config repo_name description
                         visibility topics)) HU (fun endpoint H => H)) H2)
    as H3.
  destruct (GitHubAPI.set_topics w repo_name _ a2) as [[[] | e] a3];
    simpl in *; [| discriminate].
  pose proof (attempts_all w format_size P repo_name
                (map FileEntry.content (collected (scanned w))) a3 HU
                (fun endpoint c H => H) H3) as H4.
  set (outcomes := attempts w format_size repo_name
                     (map FileEntry.content (collected (scanned w))) a3)
    in *.
  destruct (commit_calls w repo_name commit_message _ (snd outcomes))
    as [[[sha |] | e] a5] eqn:E5; simpl; try discriminate.
  destruct (truthy sha) eqn:T; simpl; [| discriminate].
  intros _. split; [reflexivity |]. split; [exact T |].
  destruct (commit_calls_ok _ _ _ _ _ _ E5) as [pre [u [E [F R]]]].
  exists (GitHubAPI.sent (snd outcomes) ++ pre), u.
  split; [now rewrite E, app_assoc |]. split; [| exact R].
  apply Forall_app. split; assumption.
Qed.

Lemma pending_filters (fs : list FileEntry.t) :
  Forall (fun e => FileEntry.status e = PENDING) fs ->
  filter is_success fs = [] /\ filter is_failed fs = [].
Proof.
  induction 1 as [| e fs He _ [IH1 IH2]]; [split; reflexivity |].
  simpl. unfold is_success at 1, is_failed at 1. rewrite He. simpl.
  now split.
Qed.

Lemma mark_counts (fs : list FileEntry.t) :
  forall outs : list (res BlobResponse.t),
    List.length outs = List.length fs ->
    List.length (mark fs outs) = List.length fs /\
    List.length (filter is_success (mark fs outs)) =
    List.length (filter is_ok outs) /\
    (List.length (filter is_failed (mark fs outs)) +
     List.length (filter is_ok outs) = List.length fs)%nat.
Proof.
  induction fs as [| f fs IH]; intros outs HL.
  - destruct outs; [| discriminate]. repeat split.
  - destruct outs as [| r outs]; [discriminate |].
    destruct (IH outs ltac:(simpl in HL; lia)) as [I1 [I2 I3]].
    unfold mark in *. simpl.
    destruct r as [blob | ex]; simpl; repeat split; lia.
Qed.

(** X17.  In every run, [files_uploaded] is the number of files with
    status SUCCESS and the number of tree entries, and [files_skipped]
    is the number of files with status FAILED. *)
Theorem counts_of_the_result
    (repo_name description visibility : string)
    (topics : option (list string)) (commit_message : string) :
  let run :=
    GitHubPublisher.publish w format_size repo_name description visibility
      topics commit_message GitHubPublisher.init in
  PublishResult.files_uploaded (fst run) =
  Z.of_nat (List.length
              (filter is_success (GitHubPublisher.files (snd run)))) /\
  PublishResult.files_uploaded (fst run) =
  Z.of_nat (List.length (GitHubPublisher.tree_entries (snd run))) /\
  PublishResult.files_skipped (fst run) =
  Z.of_nat (List.length
              (filter is_failed (GitHubPublisher.files (snd run)))).
Proof.
  cbv zeta. rewrite publish_eq. cbv zeta.
  destruct (pending_filters _ (collected_pending (scanned w))) as [PS PF].
  destruct (negb (GitHubPublisher.validate_source w));
    [repeat split |].
  destruct (GitHubAPI.check_repo_exists w repo_name GitHubAPI.init)
    as [[[|] | e] a1]; simpl; try solve [repeat split].
  destruct (Z.of_nat (List.length (collected (scanned w))) =? 0);
    [simpl; now rewrite PS, PF |].
  destruct (GitHubAPI.create_repository w _ a1) as [[repo | e] a2];
    simpl; [| now rewrite PS, PF].
  destruct (GitHubAPI.set_topics w repo_name _ a2) as [[[] | e] a3];
    simpl; [| now rewrite PS, PF].
  set (outcomes := attempts w format_size repo_name
                     (map FileEntry.content (collected (scanned w))) a3).
  assert (HL : List.length (fst outcomes) =
               List.length (collected (scanned w))).
  { unfold outcomes. rewrite attempts_length. apply length_map. }
  destruct (mark_counts (collected (scanned w)) (fst outcomes) HL)
    as [M1 [M2 M3]].
  assert (HC : PublishResult.files_uploaded
                 (GitHubPublisher.set_counts (count_ok (fst outcomes))
                    (Z.of_nat
                       (List.length
                          (mark (collected (scanned w)) (fst outcomes))) -
                     count_ok (fst outcomes))
                    (GitHubPublisher.set_repo_url
                       (RepoResponse.html_url repo)
                       GitHubPublisher.new_result)) =
               Z.of_nat
                 (List.length
                    (filter is_success
                       (mark (collected (scanned w)) (fst outcomes)))) /\
               PublishResult.files_uploaded
                 (GitHubPublisher.set_counts (count_ok (fst outcomes))
                    (Z.of_nat
                       (List.length
                          (mark (collected (scanned w)) (fst outcomes))) -
                     count_ok (fst outcomes))
                    (GitHubPublisher.set_repo_url
                       (RepoResponse.html_url repo)
                       GitHubPublisher.new_result)) =
               Z.of_nat
                 (List.length
                    (uploaded_tree
                       (mark (collected (scanned w)) (fst outcomes)))) /\
               PublishResult.files_skipped
                 (GitHubPublisher.set_counts (count_ok (fst outcomes))
                    (Z.of_nat
                       (List.length
                          (mark (collected (scanned w)) (fst outcomes))) -
                     count_ok (fst outcomes))
                    (GitHubPublisher.set_repo_url
                       (RepoResponse.html_url repo)
                       GitHubPublisher.new_result)) =
               Z.of_nat
                 (List.length
                    (filter is_failed
                       (mark (collected (scanned w)) (fst outcomes))))).
  { simpl. unfold count_ok, uploaded_tree. rewrite length_map.
    repeat split; lia. }
  destruct (commit_calls w repo_name commit_message _ (snd outcomes))
    as [[commit_sha | e] a5]; simpl; [| exact HC].
  destruct (truthy_opt commit_sha); exact HC.
Qed.

End RunResult.

(** ** publisher.py: the files and the order of the requests *)

Section RunFiles.

Variable w : World.
Variable format_size : N -> string.

Lemma forward_slashes_clean (s : string) :
  no_backslash (GitHubPublisher.forward_slashes s) = true.
Proof.
  induction s as [| c s IH]; [reflexivity |]. simpl.
  destruct (Ascii.eqb c "\") eqn:E; simpl; [exact IH |].
  now rewrite E.
Qed.

Lemma marked_path (e : FileEntry.t) (r : res BlobResponse.t) :
  FileEntry.path (marked e r) = FileEntry.path e.
Proof. now destruct r. Qed.

Lemma collected_paths (file_paths : list (string * option bytes)) :
  map FileEntry.path (collected file_paths) =
  map (fun f => GitHubPublisher.forward_slashes (fst f))
    (readable file_paths).
Proof.
  induction file_paths as [| [rel_path [content |]] file_paths' IH];
    simpl; [reflexivity | now rewrite IH | exact IH].
Qed.

Lemma collected_clean (file_paths : list (string * option bytes))
    (e : FileEntry.t) :
  In e (collected file_paths) -> no_backslash (FileEntry.path e) = true.
Proof.
  induction file_paths as [| [rel_path [content |]] file_paths' IH];
    simpl; [tauto | | exact IH].
  intros [E | H]; [subst e; apply forward_slashes_clean | now apply IH].
Qed.

(** The files of a run: none, the collected ones, or those marked by
    the upload loop. *)
Lemma publish_files_eq (repo_name description visibility : string)
    (topics : option (list string)) (commit_message : string) :
  let p :=
    snd (GitHubPublisher.publish w format_size repo_name description
           visibility topics commit_message GitHubPublisher.init) in
  GitHubPublisher.files p = [] \/
  GitHubPublisher.files p = collected (scanned w) \/
  exists outcomes,
    GitHubPublisher.files p = mark (collected (scanned w)) outcomes.
Proof.
  cbv zeta. rewrite publish_eq. cbv zeta.
  destruct (negb (GitHubPublisher.validate_source w)); [now left |].
  destruct (GitHubAPI.check_repo_exists w repo_name GitHubAPI.init)
    as [[[|] | e] a1]; simpl; try (now left).
  destruct (Z.of_nat (List.length (collected (scanned w))) =? 0);
    [right; now left |].
  destruct (GitHubAPI.create_repository w _ a1) as [[repo | e] a2];
    simpl; [| right; now left].
  destruct (GitHubAPI.set_topics w repo_name _ a2) as [[[] | e] a3];
    simpl; [| right; now left].
  right. right.
  destruct (commit_calls w repo_name commit_message _ _)
    as [[commit_sha | e] a5]; simpl; eauto.
Qed.

(** X18.  [rel_path.replace] leaves no backslash, keeps the length and
    does not change a path without backslashes; so in every run the
    path of every file entry and of every tree entry is free of
    backslashes. *)
Theorem paths_use_forward_slashes :
  (forall s,
     no_backslash (GitHubPublisher.forward_slashes s) = true /\
     String.length (GitHubPublisher.forward_slashes s) = String.length s /\
     (no_backslash s = true -> GitHubPublisher.forward_slashes s = s))
  /\
  (forall (repo_name description visibility : string)
          (topics : option (list string)) (commit_message : string),
     let p :=
       snd (GitHubPublisher.publish w format_size repo_name description
              visibility topics commit_message GitHubPublisher.init) in
     (forall e, In e (GitHubPublisher.files p) ->
                no_backslash (FileEntry.path e) = true) /\
     (forall t, In t (GitHubPublisher.tree_entries p) ->
                no_backslash (TreeEntry.path t) = true)).
Proof.
  split.
  - intros s. split; [apply forward_slashes_clean |]. split.
    + induction s as [| c s IH]; simpl; [reflexivity | now rewrite IH].
    + induction s as [| c s IH]; simpl; [reflexivity |].
      destruct (Ascii.eqb c "\"); simpl; [discriminate |].
      intros H. now rewrite IH.
  - intros repo_name description visibility topics commit_message p.
    assert (HF : forall e, In e (GitHubPublisher.files p) ->
                           no_backslash (FileEntry.path e) = true).
    { intros e Hin.
      destruct (publish_files_eq repo_name description visibility topics
                  commit_message) as [H | [H | [outs H]]];
        fold p in H; rewrite H in Hin.
      - contradiction.
      - now apply collected_clean in Hin.
      - apply mark_in in Hin. destruct Hin as [e0 [r [Hc E]]].
        subst e. rewrite marked_path.
        apply in_combine_l in Hc. now apply collected_clean in Hc. }
    split; [exact HF |].
    intros t Hin.
    assert (HT : GitHubPublisher.tree_entries p =
                 uploaded_tree (GitHubPublisher.files p)).
    { destruct (publish_files w format_size repo_name description
                  visibility topics commit_message)
        as [[HP [HT _]] | [a [_ HT]]]; fold p in HP || fold p in HT;
        fold p in HT.
      - now rewrite HT, uploaded_tree_pending.
      - exact HT. }
    rewrite HT in Hin. unfold uploaded_tree in Hin.
    apply in_map_iff in Hin. destruct Hin as [e [E Hin]].
    apply filter_In in Hin. destruct Hin as [Hin _].
    subst t. simpl. now apply HF.
Qed.

(** X19.  [collect_files] of the publisher appends one PENDING entry,
    without sha or error, per file that could be read, in the order of
    the walk and with the path rewritten; a file that cannot be read is
    left out without an error.  It returns the length of the whole list,
    entries of an earlier call included. *)
Theorem collect_files_appends_the_readable (self : GitHubPublisher.t) :
  let after_it := snd (GitHubPublisher.collect_files w self) in
  let added := collected (scanned w) in
  fst (GitHubPublisher.collect_files w self) =
  Ok (Z.of_nat (List.length (GitHubPublisher.files self)) +
      Z.of_nat (List.length (readable (scanned w)))) /\
  GitHubPublisher.files after_it = GitHubPublisher.files self ++ added /\
  GitHubPublisher.api after_it = GitHubPublisher.api self /\
  GitHubPublisher.tree_entries after_it = GitHubPublisher.tree_entries self
  /\
  map FileEntry.path added =
  map (fun f => GitHubPublisher.forward_slashes (fst f))
    (readable (scanned w)) /\
  map (fun e => Some (FileEntry.content e)) added =
  map snd (readable (scanned w)) /\
  Forall
    (fun e => FileEntry.status e = PENDING /\ FileEntry.sha e = None /\
              FileEntry.error e = None) added.
Proof.
  cbv zeta. rewrite collect_files_eq. simpl.
  split.
  { rewrite length_app, Nat2Z.inj_add. do 2 f_equal.
    rewrite <- (length_map FileEntry.path), collected_paths.
    now rewrite length_map. }
  split; [reflexivity |]. split; [reflexivity |].
  split; [reflexivity |]. split; [apply collected_paths |].
  split.
  - induction (scanned w) as [| [rel_path [content |]] l IH]; simpl;
      [reflexivity | now rewrite IH | exact IH].
  - induction (scanned w) as [| [rel_path [content |]] l IH]; simpl;
      auto.
Qed.

(** X20.  Over a source path that does not exist or is not a directory
    [publish] fails with ["Invalid source path"] and leaves the
    publisher as it was built: no request has been sent and no file
    collected. *)
Theorem invalid_source_does_nothing
    (repo_name description visibility : string)
    (topics : option (list string)) (commit_message : string) :
  source_exists w = false \/ source_is_dir w = false ->
  GitHubPublisher.publish w format_size repo_name description visibility
    topics commit_message GitHubPublisher.init =
  (GitHubPublisher.set_error "Invalid source path"
     GitHubPublisher.new_result,
   GitHubPublisher.init).
Proof.
  intros H. rewrite publish_eq. cbv zeta.
  unfold GitHubPublisher.validate_source.
  destruct H as [H | H]; rewrite H; simpl; [reflexivity |].
  destruct (source_exists w); reflexivity.
Qed.

Lemma first_body_unique (g : list Request) :
  forall g' x x' r r',
    g ++ x :: r = g' ++ x' :: r' ->
    Forall (fun q => has_body q = false) g -> has_body x = true ->
    Forall (fun q => has_body q = false) g' -> has_body x' = true ->
    x = x'.
Proof.
  induction g as [| y g IH]; intros g' x x' r r' E Fg Hx Fg' Hx'.
  - destruct g' as [| y' g']; simpl in E; inversion E; subst;
      [reflexivity |].
    inversion Fg'; congruence.
  - destruct g' as [| y' g']; simpl in E; inversion E; subst.
    + inversion Fg; congruence.
    + inversion Fg; inversion Fg'; subst. eapply IH; eauto.
Qed.

Lemma create_repository_sent (config : RepoConfig.t) (a : GitHubAPI.t) :
  GitHubAPI.sent (snd (GitHubAPI.create_repository w config a)) =
  GitHubAPI.sent a ++ [create_request config].
Proof.
  unfold GitHubAPI.create_repository. fold (repo_payload config).
  unfold bind at 1. rewrite _request_eq. fold (create_request config).
  destruct (match remote w _ _ with
            | RequestException _ => _ | Response _ _ => _ end)
    as [data | e]; [| reflexivity].
  unfold bind, GitHubAPI.item, ret, raise.
  repeat match goal with
         | |- context [lookup ?k ?d] => destruct (lookup k d)
         end; reflexivity.
Qed.

(** X21.  The first request of a run that carries a body is the
    creation of the repository: topics, blobs, trees, commits and
    references are only ever sent after it. *)
Theorem nothing_is_written_before_the_repository_is_created
    (repo_name description visibility : string)
    (topics : option (list string)) (commit_message : string)
    (pre post : list Request) (req : Request) :
  let p :=
    snd (GitHubPublisher.publish w format_size repo_name description
           visibility topics commit_message GitHubPublisher.init) in
  GitHubAPI.sent (GitHubPublisher.api p) = pre ++ req :: post ->
  Forall (fun q => has_body q = false) pre ->
  has_body req = true ->
  req = create_request
          (GitHubPublisher.new_config repo_name description visibility
             topics).
Proof.
  cbv zeta. rewrite publish_eq. cbv zeta.
  set (config := GitHubPublisher.new_config repo_name description
                   visibility topics).
  set (Q := fun q : Request => has_body q = false).
  set (T := fun _ : Request => True).
  assert (HQ : forall l : list Request, Forall Q l ->
             l = pre ++ req :: post -> has_body req = true -> False).
  { intros l Fl E Hb. rewrite E in Fl. apply Forall_app in Fl.
    destruct Fl as [_ Fl]. inversion Fl; subst. unfold Q in *.
    congruence. }
  destruct (negb (GitHubPublisher.validate_source w)).
  { simpl. intros E. destruct pre; discriminate. }
  pose proof (sends_all Q _ GitHubAPI.init
                (sends_check_repo_exists w Q repo_name
                   (fun endpoint => eq_refl))
                (Forall_nil Q)) as H1.
  destruct (GitHubAPI.check_repo_exists w repo_name GitHubAPI.init)
    as [[[|] | e] a1]; simpl in *;
    try (intros E Fp Hb; exfalso; exact (HQ _ H1 E Hb)).
  destruct (Z.of_nat (List.length (collected (scanned w))) =? 0);
    [simpl; intros E Fp Hb; exfalso; exact (HQ _ H1 E Hb) |].
  pose proof (create_repository_sent config a1) as H2.
  assert (HX : forall a' : GitHubAPI.t,
             (exists extra,
                GitHubAPI.sent a' =
                GitHubAPI.sent a1 ++ create_request config :: extra) ->
             GitHubAPI.sent a' = pre ++ req :: post ->
             Forall Q pre -> has_body req = true ->
             req = create_request config).
  { intros a' [extra E'] E Fp Hb. rewrite E' in E. symmetry.
    eapply first_body_unique; [exact E | exact H1 | reflexivity
                              | exact Fp | exact Hb]. }
  destruct (GitHubAPI.create_repository w config a1) as [[repo | e] a2];
    simpl in *;
    [| apply HX; exists []; exact H2].
  destruct (sends_set_topics w T repo_name (RepoConfig.topics config)
              I (fun _ => I) a2) as [e3 [E3 _]].
  destruct (GitHubAPI.set_topics w repo_name _ a2) as [[[] | e] a3];
    simpl in *;
    [| apply HX; exists e3; rewrite E3, H2, <- app_assoc; reflexivity].
  destruct (attempts_sends w format_size T repo_name
              (map FileEntry.content (collected (scanned w))) I
              (fun _ _ => I) a3) as [e4 [E4 _]].
  set (outcomes := attempts w format_size repo_name
                     (map FileEntry.content (collected (scanned w))) a3)
    in *.
  destruct (sends_commit_calls w T repo_name commit_message
              (uploaded_tree (mark (collected (scanned w)) (fst outcomes)))
              (fun _ => I) (fun _ _ => I) (fun _ _ _ => I) (fun _ _ => I)
              (snd outcomes)) as [e5 [E5 _]].
  destruct (commit_calls w repo_name commit_message _ (snd outcomes))
    as [[commit_sha | e] a5]; simpl in *;
    apply HX; exists (e3 ++ e4 ++ e5);
    rewrite E5, E4, E3, H2, <- !app_assoc; reflexivity.
Qed.

Lemma _request_accepted (method endpoint : string) (json : Payload)
    (a : GitHubAPI.t) (status_code : Z) (body : Json) :
  remote w (GitHubAPI.sent a) (request method endpoint json) =
  Response status_code body ->
  status_code < 400 -> status_code <> 204 ->
  GitHubAPI._request w method endpoint json a =
  (Ok body, after a (request method endpoint json)).
Proof.
  intros Hr Hlt H204. rewrite _request_eq, Hr.
  replace (400 <=? status_code) with false by (symmetry; lia).
  replace (status_code =? 204) with false by (symmetry; lia).
  reflexivity.
Qed.

Lemma create_tree_accepted (repo_name : string)
    (entries : list TreeEntry.t) (base_tree : option string)
    (a : GitHubAPI.t) (u : string) (status_code : Z) (body : Json)
    (sha url : string) :
  let req :=
    tree_request u repo_name entries
      (if truthy_opt base_tree then base_tree else None) in
  GitHubAPI._user a = Some u -> truthy u = true ->
  remote w (GitHubAPI.sent a) req = Response status_code body ->
  status_code < 400 -> status_code <> 204 ->
  lookup "sha" (scalars body) = Some sha ->
  lookup "url" (scalars body) = Some url ->
  GitHubAPI.create_tree w repo_name entries base_tree a =
  (Ok {| TreeResponse.sha := sha; TreeResponse.url := url |}, after a req).
Proof.
  intros req Hu Ht Hr Hlt H204 Hs Hl.
  unfold GitHubAPI.create_tree, bind.
  rewrite (user_cached w a u Hu Ht). cbv beta iota.
  fold (tree_request u repo_name entries
          (if truthy_opt base_tree then base_tree else None)) in *.
  unfold req, tree_request in Hr |- *.
  rewrite (_request_accepted _ _ _ _ status_code body Hr Hlt H204).
  cbv beta iota. unfold GitHubAPI.item. rewrite Hs. unfold ret at 1.
  cbv beta iota. rewrite Hl. reflexivity.
Qed.

Lemma create_commit_accepted (repo_name message tree_sha : string)
    (parent_sha : option string) (a : GitHubAPI.t) (u : string)
    (status_code : Z) (body : Json) (sha url html_url : string) :
  let req :=
    commit_request u repo_name message tree_sha (parents_of parent_sha) in
  GitHubAPI._user a = Some u -> truthy u = true ->
  remote w (GitHubAPI.sent a) req = Response status_code body ->
  status_code < 400 -> status_code <> 204 ->
  lookup "sha" (scalars body) = Some sha ->
  lookup "url" (scalars body) = Some url ->
  lookup "html_url" (scalars body) = Some html_url ->
  GitHubAPI.create_commit w repo_name message tree_sha parent_sha a =
  (Ok {| CommitResponse.sha := sha; CommitResponse.url := url;
         CommitResponse.html_url := html_url |}, after a req).
Proof.
  intros req Hu Ht Hr Hlt H204 Hs Hl Hh.
  unfold GitHubAPI.create_commit, bind.
  rewrite (user_cached w a u Hu Ht). cbv beta iota.
  fold (parents_of parent_sha).
  unfold req, commit_request in Hr |- *.
  rewrite (_request_accepted _ _ _ _ status_code body Hr Hlt H204).
  cbv beta iota. unfold GitHubAPI.item. rewrite Hs. unfold ret at 1.
  cbv beta iota. rewrite Hl. unfold ret at 1. cbv beta iota.
  rewrite Hh. reflexivity.
Qed.

Lemma update_ref_accepted (repo_name ref sha : string) (force : bool)
    (a : GitHubAPI.t) (u : string) :
  let req := ref_request u repo_name ref sha force in
  GitHubAPI._user a = Some u -> truthy u = true ->
  ~ refused (remote w (GitHubAPI.sent a) req) ->
  GitHubAPI.update_ref w repo_name ref sha force a = (Ok tt, after a req).
Proof.
  intros req Hu Ht Hr.
  unfold GitHubAPI.update_ref, bind.
  rewrite (user_cached w a u Hu Ht). cbv beta iota.
  rewrite _request_eq. fold (ref_request u repo_name ref sha force).
  fold req. fold (after a req).
  destruct (remote w (GitHubAPI.sent a) req) as [text | code body];
    simpl in Hr; [tauto |].
  replace (400 <=? code) with false by (symmetry; lia).
  destruct (code =? 204); reflexivity.
Qed.

(** X22.  With a cached login and at least one tree entry, when the
    remote accepts the tree, the commit and the update,
    [create_commit] of the publisher sends exactly four requests, in
    this order: the read of the head, the tree, the commit and the
    update of [heads/main]; the commit names the tree by the sha the
    remote gave the tree and the head just read as its parent, the
    update names the commit by the sha the remote gave the commit, and
    that sha is what is returned. *)
Theorem commit_phase_threads_the_ids
    (repo_name message : string) (entries : list TreeEntry.t)
    (a : GitHubAPI.t) (u : string) (parent_sha : option string)
    (tree_status commit_status : Z) (tree_body commit_body : Json)
    (tree_sha tree_url commit_sha commit_url commit_html : string) :
  let head := head_request u repo_name in
  let tree :=
    tree_request u repo_name entries
      (if truthy_opt parent_sha then parent_sha else None) in
  let commit :=
    commit_request u repo_name message tree_sha (parents_of parent_sha) in
  let update := ref_request u repo_name "heads/main" commit_sha true in
  GitHubAPI._user a = Some u -> truthy u = true ->
  entries <> [] ->
  fst (GitHubAPI.get_default_branch_sha w repo_name a) = Ok parent_sha ->
  remote w (GitHubAPI.sent (after a head)) tree =
  Response tree_status tree_body ->
  tree_status < 400 -> tree_status <> 204 ->
  lookup "sha" (scalars tree_body) = Some tree_sha ->
  lookup "url" (scalars tree_body) = Some tree_url ->
  remote w (GitHubAPI.sent (after (after a head) tree)) commit =
  Response commit_status commit_body ->
  commit_status < 400 -> commit_status <> 204 ->
  lookup "sha" (scalars commit_body) = Some commit_sha ->
  lookup "url" (scalars commit_body) = Some commit_url ->
  lookup "html_url" (scalars commit_body) = Some commit_html ->
  ~ refused (remote w
               (GitHubAPI.sent (after (after (after a head) tree) commit))
               update) ->
  commit_calls w repo_name message entries a =
  (Ok (Some commit_sha),
   after (after (after (after a head) tree) commit) update) /\
  GitHubAPI.sent (after (after (after (after a head) tree) commit) update) =
  GitHubAPI.sent a ++ [head; tree; commit; update].
Proof.
  intros head tree commit update Hu Ht Hne Hh Rt Lt Nt St Ut Rc Lc Nc
    Sc Uc Hc Rr.
  split; [| simpl; now rewrite <- !app_assoc].
  unfold commit_calls. destruct entries as [| t0 ts]; [contradiction |].
  unfold bind at 1.
  rewrite (get_default_branch_sha_eq w repo_name a u Hu Ht) in Hh |- *.
  cbn [fst] in Hh. fold head in Hh |- *. rewrite Hh.
  unfold bind at 1.
  rewrite (create_tree_accepted repo_name (t0 :: ts) parent_sha
             (after a head) u tree_status tree_body tree_sha tree_url
             Hu Ht Rt Lt Nt St Ut).
  fold tree. unfold bind at 1. cbn [TreeResponse.sha].
  rewrite (create_commit_accepted repo_name message tree_sha parent_sha
             (after (after a head) tree) u commit_status commit_body
             commit_sha commit_url commit_html Hu Ht Rc Lc Nc Sc Uc Hc).
  fold commit. unfold bind at 1. cbn [CommitResponse.sha].
  rewrite (update_ref_accepted repo_name "heads/main" commit_sha true
             (after (after (after a head) tree) commit) u Hu Ht Rr).
  reflexivity.
Qed.

(** X23.  The result of a run reports success exactly when it carries
    the id of a commit: a run that fails reports no commit, also when
    the commit was made and only the update of the branch failed. *)
Theorem success_is_having_a_commit
    (repo_name description visibility : string)
    (topics : option (list string)) (commit_message : string) :
  let r :=
    fst (GitHubPublisher.publish w format_size repo_name description
           visibility topics commit_message GitHubPublisher.init) in
  PublishResult.success r = truthy (PublishResult.commit_sha r) /\
  (PublishResult.success r = false -> PublishResult.commit_sha r = "").
Proof.
  cbv zeta. rewrite publish_eq. cbv zeta.
  destruct (negb (GitHubPublisher.validate_source w)); [now split |].
  destruct (GitHubAPI.check_repo_exists w repo_name GitHubAPI.init)
    as [[[|] | e] a1]; simpl; try (now split).
  destruct (Z.of_nat (List.length (collected (scanned w))) =? 0);
    [now split |].
  destruct (GitHubAPI.create_repository w _ a1) as [[repo | e] a2];
    simpl; [| now split].
  destruct (GitHubAPI.set_topics w repo_name _ a2) as [[[] | e] a3];
    simpl; [| now split].
  destruct (commit_calls w repo_name commit_message _ _)
    as [[[sha |] | e] a5]; simpl; try (now split).
  destruct (truthy sha) eqn:T; simpl; [now split | now split].
Qed.

End RunFiles.

(** * The further properties on the scenarios *)

(** X3 on [some_items]: the README of a dependency is collected. *)
Lemma always_included_file_is_collected_on_some_items :
  In (item_of "node_modules/pkg/README.md" true)
    (collect_some SKIP_PATTERNS).
Proof.
  apply (always_included_file_is_collected split_path last_component
           fnmatch_glob some_items SKIP_PATTERNS
           (item_of "node_modules/pkg/README.md" true)).
  - simpl. tauto.
  - reflexivity.
  - vm_compute. left. reflexivity.
Defined.

(** X5 on [w_happy]: the second use of the login sends nothing. *)
Lemma login_is_looked_up_once_on_happy :
  let a1 := snd (GitHubAPI.user w_happy GitHubAPI.init) in
  GitHubAPI.user w_happy a1 = (Ok "octo", a1) /\
  GitHubAPI.sent a1 = [user_request].
Proof.
  intros a1.
  destruct (login_is_looked_up_once w_happy GitHubAPI.init a1 "octo"
              eq_refl eq_refl) as [H _].
  split; [exact H | reflexivity].
Defined.

(** X6 on [w_anonymous]: the login is asked for a second time. *)
Lemma empty_login_is_asked_again_on_anonymous :
  let a1 := snd (GitHubAPI.user w_anonymous GitHubAPI.init) in
  GitHubAPI.sent (snd (GitHubAPI.user w_anonymous a1)) =
  [user_request; user_request].
Proof.
  intros a1.
  rewrite (empty_login_is_asked_again w_anonymous GitHubAPI.init a1 ""
             eq_refl eq_refl).
  reflexivity.
Defined.

(** X7 on [w_exists]: status 200, the answer is [True]. *)
Lemma check_repo_exists_by_status_on_exists :
  GitHubAPI.check_repo_exists w_exists "demo" octo_client =
  (Ok true, after octo_client (repo_request "octo" "demo")).
Proof.
  rewrite (check_repo_exists_by_status w_exists "demo" octo_client "octo"
             eq_refl eq_refl).
  reflexivity.
Defined.

(** X8 on [w_unknown]. *)
Lemma check_repo_exists_on_unknown_user_on_unknown :
  GitHubAPI.check_repo_exists w_unknown "demo" GitHubAPI.init =
  (Ok false, after GitHubAPI.init user_request).
Proof.
  apply (check_repo_exists_on_unknown_user w_unknown "demo" GitHubAPI.init
           {| scalars := [("message", "Not Found")]; objects := [] |}).
  - reflexivity.
  - reflexivity.
Defined.

(** X9 on [w_incomplete]: the answer has no [full_name]. *)
Lemma create_repository_needs_its_members_on_incomplete :
  GitHubAPI.create_repository w_incomplete demo_config octo_client =
  (Raise (key_error "full_name"),
   after octo_client (create_request demo_config)).
Proof.
  rewrite (create_repository_needs_its_members w_incomplete demo_config
             octo_client 201
             {| scalars := [("id", "1"); ("name", "demo")];
                objects := [] |}
             eq_refl ltac:(lia) ltac:(lia)).
  reflexivity.
Defined.

(** X10 on [w_partial]: the refusal of the blob comes out wrapped. *)
Lemma create_blob_raises_on_partial :
  GitHubAPIError "Blob create failed: blob rejected" 500 =
  GitHubAPIError ("File too large: " ++ size_text 5) 0 \/
  (exists message status_code,
     GitHubAPIError "Blob create failed: blob rejected" 500 =
     GitHubAPIError ("Blob create failed: " ++ message) status_code) \/
  GitHubAPIError "Blob create failed: blob rejected" 500 = key_error "sha" \/
  GitHubAPIError "Blob create failed: blob rejected" 500 = key_error "url".
Proof.
  apply (create_blob_raises w_partial size_text "demo" (zeros 5)
           octo_client).
  reflexivity.
Defined.

(** X11 on [w_happy]: the head read is [c0ffee]. *)
Lemma get_default_branch_sha_reads_object_sha_on_happy :
  exists status_code body object,
    remote w_happy (GitHubAPI.sent octo_client)
      (head_request "octo" "demo") = Response status_code body /\
    status_code < 400 /\ status_code <> 204 /\
    lookup "object" (objects body) = Some object /\
    lookup "sha" object = Some "c0ffee".
Proof.
  apply (proj1 (get_default_branch_sha_reads_object_sha w_happy "demo"
                  octo_client "octo" eq_refl eq_refl)
           "c0ffee").
  reflexivity.
Defined.

(** X12 on the run of [w_happy]. *)
Lemma repository_is_created_as_configured_on_happy :
  RepoPayload.name (repo_payload demo_config) = "demo" /\
  RepoPayload.private (repo_payload demo_config) = false /\
  RepoPayload.auto_init (repo_payload demo_config) = true.
Proof.
  destruct (repository_is_created_as_configured w_happy size_text "demo"
              "a demo" "public" None "Initial commit"
              (create_request demo_config) (repo_payload demo_config)
              ltac:(vm_compute; do 2 right; left; reflexivity) eq_refl)
    as [_ [_ [H1 [_ [H2 [H3 _]]]]]].
  split; [exact H1 |]. split; [exact H2 | exact H3].
Defined.

(** X13 on the run of [w_happy]: no topics given, the default ones are
    sent. *)
Lemma topics_sent_are_never_empty_on_happy :
  DEFAULT_TOPICS <> [] /\ DEFAULT_TOPICS = DEFAULT_TOPICS.
Proof.
  destruct (topics_sent_are_never_empty w_happy size_text "demo" "a demo"
              "public" None "Initial commit"
              (request "PUT" "/repos/octo/demo/topics"
                 (TopicsJson DEFAULT_TOPICS))
              DEFAULT_TOPICS
              ltac:(vm_compute; do 3 right; left; reflexivity) eq_refl)
    as [_ [H1 H2]].
  split; [exact H1 | exact H2].
Defined.

(** X14 on the run of [w_big]: the blob sent is the small file. *)
Lemma blobs_sent_are_within_the_limit_on_big :
  Z.of_N (len (zeros 3)) <= 50 * 1024 * 1024 /\
  exists e, In e (collected (scanned w_big)) /\
            FileEntry.content e = zeros 3.
Proof.
  destruct (blobs_sent_are_within_the_limit w_big size_text "demo" "a demo"
              "public" None "Initial commit"
              (blob_request "octo" "demo" (zeros 3)) (zeros 3)
              ltac:(vm_compute; do 4 right; left; reflexivity) eq_refl)
    as [_ [H1 H2]].
  split; [exact H1 | exact H2].
Defined.

(** X15 on the run of [w_happy]. *)
Lemma only_main_is_updated_and_forced_on_happy :
  exists u sha,
    ref_request "octo" "demo" "heads/main" "c0mm17" true =
    ref_request u "demo" "heads/main" sha true.
Proof.
  apply (only_main_is_updated_and_forced w_happy size_text "demo" "a demo"
           "public" None "Initial commit"
           (ref_request "octo" "demo" "heads/main" "c0mm17" true)).
  - vm_compute. do 9 right. left. reflexivity.
  - exact I.
Defined.

(** X16 on the run of [w_happy]. *)
Lemma success_means_main_was_moved_last_on_happy :
  PublishResult.error (fst (run w_happy)) = None /\
  exists pre u,
    sent_by w_happy =
    pre ++ [ref_request u "demo" "heads/main"
              (PublishResult.commit_sha (fst (run w_happy))) true] /\
    Forall (fun r => ~ touches_ref r) pre.
Proof.
  destruct (success_means_main_was_moved_last w_happy size_text "demo"
              "a demo" "public" None "Initial commit" eq_refl)
    as [H1 [_ [pre [u [H2 [H3 _]]]]]].
  split; [exact H1 |]. exists pre, u. split; [exact H2 | exact H3].
Defined.

(** X20 on [w_no_source]. *)
Lemma invalid_source_does_nothing_on_no_source :
  run w_no_source =
  (GitHubPublisher.set_error "Invalid source path"
     GitHubPublisher.new_result,
   GitHubPublisher.init).
Proof.
  apply (invalid_source_does_nothing w_no_source size_text "demo" "a demo"
           "public" None "Initial commit").
  left. reflexivity.
Defined.

(** X21 on the run of [w_happy]: the third request is the first with a
    body. *)
Lemma nothing_is_written_before_the_repository_is_created_on_happy :
  nth_error (sent_by w_happy) 2 = Some (create_request demo_config) /\
  request "POST" "/user/repos"
    (RepoJson
       {| RepoPayload.name := "demo";
          RepoPayload.description := "a demo";
          RepoPayload.private := false;
          RepoPayload.has_issues := true;
          RepoPayload.has_wiki := false;
          RepoPayload.has_projects := false;
          RepoPayload.auto_init := true;
          RepoPayload.homepage := None |}) =
  create_request demo_config.
Proof.
  split; [reflexivity |].
  apply (nothing_is_written_before_the_repository_is_created w_happy
           size_text "demo" "a demo" "public" None "Initial commit"
           [user_request; repo_request "octo" "demo"]
           (skipn 3 (sent_by w_happy))).
  - vm_compute. reflexivity.
  - repeat constructor.
  - reflexivity.
Defined.

(** X22 on [w_happy], both files uploaded. *)
Lemma commit_phase_threads_the_ids_on_happy :
  let entries := GitHubPublisher.tree_entries before_commit in
  commit_calls w_happy "demo" "Initial commit" entries octo_client =
  (Ok (Some "c0mm17"),
   {| GitHubAPI._user := Some "octo";
      GitHubAPI.sent :=
        [ head_request "octo" "demo";
          tree_request "octo" "demo" entries (Some "c0ffee");
          commit_request "octo" "demo" "Initial commit" "7ree"
            (Some ["c0ffee"]);
          ref_request "octo" "demo" "heads/main" "c0mm17" true ] |}).
Proof.
  intros entries.
  destruct (commit_phase_threads_the_ids w_happy "demo" "Initial commit"
              entries octo_client "octo" (Some "c0ffee") 201 201
              {| scalars := [("sha", "7ree");
                             ("url", "https://api.github.com/tree");
                             ("message", "tree rejected")];
                 objects := [] |}
              {| scalars :=
                   [("sha", "c0mm17");
                    ("url", "https://api.github.com/commit");
                    ("html_url",
                     "https://github.com/octo/demo/commit/c0mm17")];
                 objects := [] |}
              "7ree" "https://api.github.com/tree" "c0mm17"
              "https://api.github.com/commit"
              "https://github.com/octo/demo/commit/c0mm17"
              eq_refl eq_refl ltac:(simpl; discriminate) eq_refl
              eq_refl ltac:(lia) ltac:(lia) eq_refl eq_refl
              eq_refl ltac:(lia) ltac:(lia) eq_refl eq_refl eq_refl
              ltac:(simpl; lia))
    as [H _].
  rewrite H. reflexivity.
Defined.
